(** * ASHRAE Guideline 36 fault detection: fault conditions 2, 3 and 4

    A shallow embedding of the rule code of the repository:

    - [fault_condition_two_] and [fault_condition_three_] of [fc2_3.py]
      (mixed-air temperature too low / too high), and
    - [FaultConditionFour.apply] of
      [air_handling_unit/faults/fault_condition_four.py] (operating-mode
      classification and the hourly count of operating-state changes).

    The pandas objects the code works on are modelled as follows.

    - A float64 cell is a [pyfloat]: a finite number, an infinity or NaN.
      Finite numbers are exact rationals; rounding and overflow of binary64
      arithmetic are outside the model.  Comparisons with NaN are false,
      arithmetic on NaN gives NaN, as in IEEE 754.  Where rounding decides
      a property, module [Binary64] reads the two comparisons of [fc2_3.py]
      in IEEE 754 binary64.
    - A cell is a [value]: a float, an integer or a boolean.
    - A [Series] is a list of cells.  A [DataFrame] has a DatetimeIndex
      (seconds since the epoch) and an ordered list of named columns.
    - Python exceptions are the [error] type; code that may raise lives in
      [result], code that also assigns into a data frame owned by the caller
      lives in the state-and-error monad [M] over a [store] of data frames. *)

From Stdlib Require Import QArith Qminmax Qround Qpower ZArith Lia Lqa String SpecFloat.
From stdpp Require Import base option list list_numbers strings.

Local Open Scope Z_scope.
Local Open Scope string_scope.
Local Open Scope list_scope.

(** ** Floating-point cells *)

Inductive pyfloat : Type :=
| Fin (q : Q)
| PInf
| NInf
| NaN.

Definition Qlt_bool (a b : Q) : bool := negb (Qle_bool b a).

Definition fneg (a : pyfloat) : pyfloat :=
  match a with
  | Fin q => Fin (- q)%Q
  | PInf => NInf
  | NInf => PInf
  | NaN => NaN
  end.

Definition fadd (a b : pyfloat) : pyfloat :=
  match a, b with
  | NaN, _ | _, NaN => NaN
  | Fin x, Fin y => Fin (x + y)%Q
  | PInf, NInf | NInf, PInf => NaN
  | PInf, _ | _, PInf => PInf
  | NInf, _ | _, NInf => NInf
  end.

Definition fsub (a b : pyfloat) : pyfloat := fadd a (fneg b).

(** [a < b] on floats; false as soon as one side is NaN. *)
Definition flt (a b : pyfloat) : bool :=
  match a, b with
  | NaN, _ | _, NaN => false
  | Fin x, Fin y => Qlt_bool x y
  | NInf, NInf => false
  | NInf, _ => true
  | _, NInf => false
  | PInf, _ => false
  | Fin _, PInf => true
  end.

Definition fgt (a b : pyfloat) : bool := flt b a.

(** [a == b] on floats; false as soon as one side is NaN. *)
Definition feq (a b : pyfloat) : bool :=
  match a, b with
  | Fin x, Fin y => Qeq_bool x y
  | PInf, PInf | NInf, NInf => true
  | _, _ => false
  end.

Definition is_nan (a : pyfloat) : bool :=
  match a with NaN => true | _ => false end.

(** [np.minimum] and [np.maximum] propagate NaN. *)
Definition np_minimum1 (a b : pyfloat) : pyfloat :=
  if is_nan a || is_nan b then NaN else if flt b a then b else a.

Definition np_maximum1 (a b : pyfloat) : pyfloat :=
  if is_nan a || is_nan b then NaN else if flt a b then b else a.

(** ** Cells, series and data frames *)

Inductive value : Type :=
| VFloat (f : pyfloat)
| VInt (z : Z)
| VBool (b : bool).

Abbreviation Series := (list value).

(** Numeric promotion of a cell to float64, as numpy does when an integer or
    boolean operand meets a float. *)
Definition to_float (v : value) : pyfloat :=
  match v with
  | VFloat f => f
  | VInt z => Fin (inject_Z z)
  | VBool b => Fin (inject_Z (Z.b2z b))
  end.

Definition v_add (a b : value) : value := VFloat (fadd (to_float a) (to_float b)).
Definition v_sub (a b : value) : value := VFloat (fsub (to_float a) (to_float b)).
Definition v_lt (a b : value) : bool := flt (to_float a) (to_float b).
Definition v_gt (a b : value) : bool := fgt (to_float a) (to_float b).
Definition v_eq (a b : value) : bool := feq (to_float a) (to_float b).
Definition v_ne (a b : value) : bool := negb (v_eq a b).
Definition v_minimum (a b : value) : value :=
  VFloat (np_minimum1 (to_float a) (to_float b)).
Definition v_maximum (a b : value) : value :=
  VFloat (np_maximum1 (to_float a) (to_float b)).

(** Element-wise operators on two series of one frame (same index). *)
Definition s_add : Series → Series → Series := zip_with v_add.
Definition s_sub : Series → Series → Series := zip_with v_sub.
Definition s_lt : Series → Series → list bool := zip_with v_lt.
Definition s_gt : Series → Series → list bool := zip_with v_gt.
Definition np_minimum : Series → Series → Series := zip_with v_minimum.
Definition np_maximum : Series → Series → Series := zip_with v_maximum.

(** A series against a scalar: [s > c], [s == c], [s.eq(c)], [s.ne(c)]. *)
Definition s_gt_c (s : Series) (c : value) : list bool := (λ v, v_gt v c) <$> s.
Definition s_eq_c (s : Series) (c : value) : list bool := (λ v, v_eq v c) <$> s.
Definition s_ne_c (s : Series) (c : value) : list bool := (λ v, v_ne v c) <$> s.

(** [a & b] on boolean series. *)
Definition s_and : list bool → list bool → list bool := zip_with andb.

Definition bool_series (bs : list bool) : Series := VBool <$> bs.

Record DataFrame : Type := mkDataFrame {
  index : list Z;
  columns : list (string * Series)
}.

Inductive error : Type :=
| MissingColumnError (col : string)
| InvalidSignalType (col : string)
| InvalidSignalRange (col : string)
| IntCastingNaNError
| InvalidReference.

Inductive result (A : Type) : Type :=
| Ok (a : A)
| Raise (e : error).
Arguments Ok {A} a.
Arguments Raise {A} e.

#[export] Instance result_ret : MRet result := λ A a, Ok a.
#[export] Instance result_bind : MBind result := λ A B f m,
  match m with
  | Ok a => f a
  | Raise e => Raise e
  end.

Fixpoint get_col (cs : list (string * Series)) (name : string) : option Series :=
  match cs with
  | [] => None
  | (n, s) :: cs' => if decide (n = name) then Some s else get_col cs' name
  end.

(** [df[name] = s]: overwrite the column in place when it exists, append it
    otherwise. *)
Fixpoint set_col (cs : list (string * Series)) (name : string) (s : Series)
  : list (string * Series) :=
  match cs with
  | [] => [(name, s)]
  | (n, s') :: cs' =>
      if decide (n = name) then (n, s) :: cs' else (n, s') :: set_col cs' name s
  end.

(** [df[name]] and [df.name]: the column, or the exception for a missing one. *)
Definition getitem (df : DataFrame) (name : string) : result Series :=
  match get_col (columns df) name with
  | Some s => Ok s
  | None => Raise (MissingColumnError name)
  end.

Definition setitem (df : DataFrame) (name : string) (s : Series) : DataFrame :=
  mkDataFrame (index df) (set_col (columns df) name s).

(** ** Fault conditions two and three ([fc2_3.py]) *)

Definition fault_condition_two_ (df : DataFrame) : result Series :=
  mat ← getitem df "mat";
  mix ← getitem df "mix_degf_err_thres";
  rat ← getitem df "rat";
  ret ← getitem df "return_degf_err_thres";
  oat ← getitem df "oat";
  out ← getitem df "outdoor_degf_err_thres";
  mret (bool_series
          (s_lt (s_add mat mix) (np_minimum (s_sub rat ret) (s_sub oat out)))).

Definition fault_condition_three_ (df : DataFrame) : result Series :=
  mat ← getitem df "mat";
  mix ← getitem df "mix_degf_err_thres";
  rat ← getitem df "rat";
  ret ← getitem df "return_degf_err_thres";
  oat ← getitem df "oat";
  out ← getitem df "outdoor_degf_err_thres";
  mret (bool_series
          (s_gt (s_sub mat mix) (np_maximum (s_add rat ret) (s_add oat out)))).

(** The module-level constants of [fc2_3.py] and the frame the script builds
    from one row of sensor readings: the three thresholds become constant
    integer columns. *)
Definition OUTDOOR_DEGF_ERR_THRES : Z := 5.
Definition MIX_DEGF_ERR_THRES : Z := 5.
Definition RETURN_DEGF_ERR_THRES : Z := 2.

Definition with_thresholds (df : DataFrame) : DataFrame :=
  let n := length (index df) in
  let df := setitem df "outdoor_degf_err_thres" (replicate n (VInt OUTDOOR_DEGF_ERR_THRES)) in
  let df := setitem df "mix_degf_err_thres" (replicate n (VInt MIX_DEGF_ERR_THRES)) in
  setitem df "return_degf_err_thres" (replicate n (VInt RETURN_DEGF_ERR_THRES)).

Definition sensor_row (t : Z) (mat rat oat : Q) : DataFrame :=
  mkDataFrame [t]
    [("mat", [VFloat (Fin mat)]); ("rat", [VFloat (Fin rat)]);
     ("oat", [VFloat (Fin oat)])].

Definition scenario_A : DataFrame := with_thresholds (sensor_row 0 85 72 55).
Definition scenario_B : DataFrame := with_thresholds (sensor_row 0 60 72 45).

(** *** Row-wise reading of the two predicates *)

(** The six numbers the two predicates read on one row, after promotion to
    float64. *)
Record fc_row : Type := mkRow {
  r_mat : pyfloat; r_mix : pyfloat;
  r_rat : pyfloat; r_ret : pyfloat;
  r_oat : pyfloat; r_out : pyfloat
}.

Definition cell (df : DataFrame) (name : string) (i : nat) : option value :=
  get_col (columns df) name ≫= (.!! i).

Definition row_at (df : DataFrame) (i : nat) : option fc_row :=
  mat ← cell df "mat" i;
  mix ← cell df "mix_degf_err_thres" i;
  rat ← cell df "rat" i;
  ret ← cell df "return_degf_err_thres" i;
  oat ← cell df "oat" i;
  out ← cell df "outdoor_degf_err_thres" i;
  Some (mkRow (to_float mat) (to_float mix) (to_float rat) (to_float ret)
              (to_float oat) (to_float out)).

Definition fc2_cell (r : fc_row) : bool :=
  flt (fadd (r_mat r) (r_mix r))
      (np_minimum1 (fsub (r_rat r) (r_ret r)) (fsub (r_oat r) (r_out r))).

Definition fc3_cell (r : fc_row) : bool :=
  fgt (fsub (r_mat r) (r_mix r))
      (np_maximum1 (fadd (r_rat r) (r_ret r)) (fadd (r_oat r) (r_out r))).

Definition finite_row (mat mix rat ret oat out : Q) : fc_row :=
  mkRow (Fin mat) (Fin mix) (Fin rat) (Fin ret) (Fin oat) (Fin out).

Definition row_has_nan (r : fc_row) : bool :=
  is_nan (r_mat r) || is_nan (r_rat r) || is_nan (r_oat r).

(** ** Data frames owned by the caller: the store *)

(** [apply] assigns into the frame it is given and builds new frames; a frame
    is therefore named by a location in a store. *)
Definition loc : Type := nat.
Abbreviation store := (list DataFrame).

Definition M (A : Type) : Type := store → result A * store.

#[export] Instance M_ret : MRet M := λ A a st, (Ok a, st).
#[export] Instance M_bind : MBind M := λ A B f m st,
  match m st with
  | (Ok a, st') => f a st'
  | (Raise e, st') => (Raise e, st')
  end.

Definition lift {A} (r : result A) : M A := λ st, (r, st).

Definition deref (l : loc) : M DataFrame := λ st,
  match st !! l with
  | Some df => (Ok df, st)
  | None => (Raise InvalidReference, st)
  end.

Definition assign (l : loc) (df : DataFrame) : M unit := λ st,
  (Ok tt, <[l := df]> st).

(** A new frame object. *)
Definition alloc (df : DataFrame) : M loc := λ st,
  (Ok (length st), st ++ [df]).

(** [df[name]] on a frame of the store. *)
Definition df_get (l : loc) (name : string) : M Series :=
  df ← deref l; lift (getitem df name).

(** [df[name] = s] on a frame of the store: the frame is changed in place. *)
Definition df_set (l : loc) (name : string) (s : Series) : M unit :=
  df ← deref l; assign l (setitem df name s).

(** ** Fault condition four ([fault_condition_four.py]) *)

Record FaultConditionFour : Type := mkFaultConditionFour {
  delta_os_max : Q;
  ahu_min_oa_dpr : Q;
  economizer_sig_col : string;
  heating_sig_col : string;
  cooling_sig_col : string;
  supply_vfd_speed_col : string;
  troubleshoot_mode : bool
}.

Definition is_float (v : value) : bool :=
  match v with VFloat _ => true | _ => false end.

Definition outside_unit_interval (v : value) : bool :=
  v_lt v (VFloat (Fin 0)) || v_gt v (VFloat (Fin 1)).

(** Modelled from the spec: [FaultCondition.check_analog_pct] is defined in
    the base class, which is not among the sources.  For each named column it
    fails with [InvalidSignalType] if a value is not a float and with
    [InvalidSignalRange] if a value lies outside [0.0, 1.0]; a configured
    column absent from the table is a [MissingColumnError].  It is a pure
    check: the frame is read, never written. *)
Fixpoint check_analog_pct_frame (df : DataFrame) (cols : list string) : result unit :=
  match cols with
  | [] => Ok tt
  | col :: cols' =>
      s ← getitem df col;
      if negb (forallb is_float s) then Raise (InvalidSignalType col)
      else if existsb outside_unit_interval s then Raise (InvalidSignalRange col)
      else check_analog_pct_frame df cols'
  end.

Definition check_analog_pct (df : loc) (cols : list string) : M unit :=
  d ← deref df; lift (check_analog_pct_frame d cols).

(** Modelled from the spec: [FaultCondition.troubleshoot_cols] is defined in
    the base class, which is not among the sources.  The diagnostics hook is
    a pass-through that exposes columns for inspection and alters no
    result: it reads the frame and leaves it as it is. *)
Definition troubleshoot_cols (df : loc) : M unit :=
  d ← deref df; mret tt.

(** [for col in columns_to_check: ...] *)
Fixpoint for_each {A} (xs : list A) (body : A → M unit) : M unit :=
  match xs with
  | [] => mret tt
  | x :: xs' => body x;; for_each xs' body
  end.

(** *** [df.astype(int)] *)

(** Truncation toward zero.  Values beyond the int64 range are outside the
    model. *)
Definition Qtrunc (q : Q) : Z := Z.quot (Qnum q) (Zpos (Qden q)).

Definition astype_int1 (v : value) : result value :=
  match v with
  | VFloat (Fin q) => Ok (VInt (Qtrunc q))
  | VFloat _ => Raise IntCastingNaNError
  | VInt z => Ok (VInt z)
  | VBool b => Ok (VInt (Z.b2z b))
  end.

Definition astype_int_col (c : string * Series) : result (string * Series) :=
  s ← mapM astype_int1 c.2; mret (c.1, s).

Definition astype_int_frame (df : DataFrame) : result DataFrame :=
  cs ← mapM astype_int_col (columns df); mret (mkDataFrame (index df) cs).

(** [df = df.astype(int)]: the cast frame is a new object. *)
Definition astype_int (df : loc) : M loc :=
  d ← deref df; d' ← lift (astype_int_frame d); alloc d'.

(** *** [df.resample("h").apply(f)] *)

Definition hour_of (t : Z) : Z := t `div` 3600.

(** The hourly bins run from the hour of the earliest timestamp to the hour
    of the latest one; hours without rows are kept. *)
Definition hour_bins (idx : list Z) : list Z :=
  match idx with
  | [] => []
  | t :: ts =>
      let lo := hour_of (foldr Z.min t ts) in
      let hi := hour_of (foldr Z.max t ts) in
      seqZ lo (hi - lo + 1)
  end.

(** The rows of a column that fall into hour [h], in index order (the index
    is sorted, as the data model requires). *)
Fixpoint bucket (h : Z) (idx : list Z) (s : Series) : Series :=
  match idx, s with
  | t :: idx', v :: s' =>
      if decide (hour_of t = h) then v :: bucket h idx' s' else bucket h idx' s'
  | _, _ => []
  end.

Definition resample_h_apply_frame (f : Series → value) (df : DataFrame) : DataFrame :=
  let bins := hour_bins (index df) in
  mkDataFrame ((λ h, h * 3600) <$> bins)
    ((λ c, (c.1, (λ h, f (bucket h (index df) c.2)) <$> bins)) <$> columns df).

Definition resample_h_apply (f : Series → value) (df : loc) : M loc :=
  d ← deref df; alloc (resample_h_apply_frame f d).

(** [x.shift()]: every value moves one row down, the first row is NaN, and
    the series becomes float64. *)
Definition shift (x : Series) : Series :=
  match x with
  | [] => []
  | _ :: _ => VFloat NaN :: ((λ v, VFloat (to_float v)) <$> removelast x)
  end.

(** [s.sum()] of a boolean series. *)
Definition sum_bool (bs : list bool) : Z := foldr (λ b n, Z.b2z b + n) 0 bs.

(** [lambda x: (x.eq(1) & x.shift().ne(1)).sum()], applied by [resample] to
    the rows of one column in one hour. *)
Definition rising_edges (x : Series) : value :=
  VInt (sum_bool (s_and (s_eq_c x (VInt 1)) (s_ne_c (shift x) (VInt 1)))).

(** [df[df.columns].gt(c).any(axis=1)] *)
Definition gt_any_axis1 (df : DataFrame) (c : value) : list bool :=
  (λ i : nat, existsb (λ col : string * Series,
                         from_option (λ v, v_gt v c) false (col.2 !! i))
                      (columns df))
    <$> seq 0 (length (index df)).

(** [.astype(int)] of a boolean series. *)
Definition bool_astype_int (bs : list bool) : Series := (λ b, VInt (Z.b2z b)) <$> bs.

(** *** [FaultConditionFour.apply] *)

Definition zero : value := VInt 0.

Definition columns_to_check (self : FaultConditionFour) : list string :=
  [economizer_sig_col self; heating_sig_col self; cooling_sig_col self;
   supply_vfd_speed_col self].

(** The right-hand sides of the four assignments of lines 48 to 77. *)
Definition heating_mode_of (self : FaultConditionFour) (htg clg fan econ : Series) : Series :=
  bool_series
    (s_and (s_and (s_and (s_gt_c htg zero) (s_eq_c clg zero)) (s_gt_c fan zero))
           (s_eq_c econ (VFloat (Fin (ahu_min_oa_dpr self))))).

Definition econ_only_cooling_mode_of (self : FaultConditionFour) (htg clg fan econ : Series) : Series :=
  bool_series
    (s_and (s_and (s_and (s_eq_c htg zero) (s_eq_c clg zero)) (s_gt_c fan zero))
           (s_gt_c econ (VFloat (Fin (ahu_min_oa_dpr self))))).

Definition econ_plus_mech_cooling_mode_of (self : FaultConditionFour) (htg clg fan econ : Series) : Series :=
  bool_series
    (s_and (s_and (s_and (s_eq_c htg zero) (s_gt_c clg zero)) (s_gt_c fan zero))
           (s_gt_c econ (VFloat (Fin (ahu_min_oa_dpr self))))).

Definition mech_cooling_only_mode_of (self : FaultConditionFour) (htg clg fan econ : Series) : Series :=
  bool_series
    (s_and (s_and (s_and (s_eq_c htg zero) (s_gt_c clg zero)) (s_gt_c fan zero))
           (s_eq_c econ (VFloat (Fin (ahu_min_oa_dpr self))))).

(** [df[name] = rhs], where [rhs] reads the four signal columns of [df] in
    the order the expression names them. *)
Definition set_heating_mode (self : FaultConditionFour) (df : loc) : M unit :=
  htg ← df_get df (heating_sig_col self);
  clg ← df_get df (cooling_sig_col self);
  fan ← df_get df (supply_vfd_speed_col self);
  econ ← df_get df (economizer_sig_col self);
  df_set df "heating_mode" (heating_mode_of self htg clg fan econ).

Definition set_econ_only_cooling_mode (self : FaultConditionFour) (df : loc) : M unit :=
  htg ← df_get df (heating_sig_col self);
  clg ← df_get df (cooling_sig_col self);
  fan ← df_get df (supply_vfd_speed_col self);
  econ ← df_get df (economizer_sig_col self);
  df_set df "econ_only_cooling_mode" (econ_only_cooling_mode_of self htg clg fan econ).

Definition set_econ_plus_mech_cooling_mode (self : FaultConditionFour) (df : loc) : M unit :=
  htg ← df_get df (heating_sig_col self);
  clg ← df_get df (cooling_sig_col self);
  fan ← df_get df (supply_vfd_speed_col self);
  econ ← df_get df (economizer_sig_col self);
  df_set df "econ_plus_mech_cooling_mode"
    (econ_plus_mech_cooling_mode_of self htg clg fan econ).

Definition set_mech_cooling_only_mode (self : FaultConditionFour) (df : loc) : M unit :=
  htg ← df_get df (heating_sig_col self);
  clg ← df_get df (cooling_sig_col self);
  fan ← df_get df (supply_vfd_speed_col self);
  econ ← df_get df (economizer_sig_col self);
  df_set df "mech_cooling_only_mode" (mech_cooling_only_mode_of self htg clg fan econ).

(** Lines 48 to 77: the four mode columns are assigned into the caller's
    frame, one after the other. *)
Definition set_mode_columns (self : FaultConditionFour) (df : loc) : M unit :=
  set_heating_mode self df;;
  set_econ_only_cooling_mode self df;;
  set_econ_plus_mech_cooling_mode self df;;
  set_mech_cooling_only_mode self df.

(** Line 82: the flag column of the hourly frame. *)
Definition set_fc4_flag (self : FaultConditionFour) (df : loc) : M unit :=
  d ← deref df;
  df_set df "fc4_flag"
    (bool_astype_int (gt_any_axis1 d (VFloat (Fin (delta_os_max self))))).

Definition apply (self : FaultConditionFour) (df : loc) : M loc :=
  (if troubleshoot_mode self then troubleshoot_cols df else mret tt);;
  for_each (columns_to_check self) (λ col, check_analog_pct df [col]);;
  set_mode_columns self df;;
  df ← astype_int df;
  df ← resample_h_apply rising_edges df;
  set_fc4_flag self df;;
  mret df.

(** *** Row-wise reading of the mode classifier *)

Definition mode_columns : list string :=
  ["heating_mode"; "econ_only_cooling_mode"; "econ_plus_mech_cooling_mode";
   "mech_cooling_only_mode"].

(** The configured signal columns are sensor columns: none of them bears the
    name of a derived mode column. *)
Definition signals_apart (self : FaultConditionFour) : Prop :=
  Forall (λ col, col ∉ mode_columns) (columns_to_check self).

Definition min_oa (self : FaultConditionFour) : value :=
  VFloat (Fin (ahu_min_oa_dpr self)).

(** The four combinations of lines 48 to 77 on the heating, cooling, fan and
    economizer values of one row. *)
Definition heating_combo (self : FaultConditionFour) (htg clg fan econ : value) : bool :=
  v_gt htg zero && v_eq clg zero && v_gt fan zero && v_eq econ (min_oa self).

Definition econ_only_combo (self : FaultConditionFour) (htg clg fan econ : value) : bool :=
  v_eq htg zero && v_eq clg zero && v_gt fan zero && v_gt econ (min_oa self).

Definition econ_plus_mech_combo (self : FaultConditionFour) (htg clg fan econ : value) : bool :=
  v_eq htg zero && v_gt clg zero && v_gt fan zero && v_gt econ (min_oa self).

Definition mech_only_combo (self : FaultConditionFour) (htg clg fan econ : value) : bool :=
  v_eq htg zero && v_gt clg zero && v_gt fan zero && v_eq econ (min_oa self).

(** The four signal columns an assignment reads, in reading order. *)
Definition read_signals (self : FaultConditionFour) (df : DataFrame)
  : result (Series * Series * Series * Series) :=
  htg ← getitem df (heating_sig_col self);
  clg ← getitem df (cooling_sig_col self);
  fan ← getitem df (supply_vfd_speed_col self);
  econ ← getitem df (economizer_sig_col self);
  mret (htg, clg, fan, econ).

Definition is_validator_error (e : error) : Prop :=
  match e with
  | MissingColumnError _ | InvalidSignalType _ | InvalidSignalRange _ => True
  | _ => False
  end.

(** One assignment [df[name] = rhs] as a function on the frame, and the four
    assignments in sequence. *)
Definition assign_frame (self : FaultConditionFour)
    (rhs : Series → Series → Series → Series → Series) (name : string)
    (df : DataFrame) : result DataFrame :=
  match read_signals self df with
  | Ok (h, c, f, e) => Ok (setitem df name (rhs h c f e))
  | Raise err => Raise err
  end.

Definition mode_frame (self : FaultConditionFour) (df : DataFrame) : result DataFrame :=
  df1 ← assign_frame self (heating_mode_of self) "heating_mode" df;
  df2 ← assign_frame self (econ_only_cooling_mode_of self) "econ_only_cooling_mode" df1;
  df3 ← assign_frame self (econ_plus_mech_cooling_mode_of self)
          "econ_plus_mech_cooling_mode" df2;
  assign_frame self (mech_cooling_only_mode_of self) "mech_cooling_only_mode" df3.

Definition run_assign (r : result DataFrame) (l : loc) (st : store) : result unit * store :=
  match r with
  | Ok df' => (Ok tt, <[l := df']> st)
  | Raise err => (Raise err, st)
  end.

(** The validation loop of lines 42 and 43 as a function on the frame. *)
Fixpoint validate_each (df : DataFrame) (cols : list string) : result unit :=
  match cols with
  | [] => Ok tt
  | col :: cols' => check_analog_pct_frame df [col];; validate_each df cols'
  end.

(** Lines 80 and 82 as a function on the cast frame. *)
Definition hourly_frame (self : FaultConditionFour) (d : DataFrame) : DataFrame :=
  let r := resample_h_apply_frame rising_edges d in
  setitem r "fc4_flag"
    (bool_astype_int (gt_any_axis1 r (VFloat (Fin (delta_os_max self))))).

(** *** Example frames and configurations *)

Definition fconst (n : nat) (q : Q) : Series := replicate n (VFloat (Fin q)).

Definition fc4_config (delta : Q) : FaultConditionFour :=
  mkFaultConditionFour delta (2 # 10)
    "economizer_sig" "heating_sig" "cooling_sig" "supply_vfd_speed" false.

(** Four rows, fifteen minutes apart, in one hour.  Heating and cooling
    valves are closed and the damper is at its minimum, so the unit is in
    none of the four modes; the fan alternates between 100 % and 50 %. *)
Definition fan_toggle_frame : DataFrame :=
  mkDataFrame [0; 900; 1800; 2700]
    [("economizer_sig", fconst 4 (2 # 10));
     ("heating_sig", fconst 4 0);
     ("cooling_sig", fconst 4 0);
     ("supply_vfd_speed",
      [VFloat (Fin 1); VFloat (Fin (1 # 2)); VFloat (Fin 1); VFloat (Fin (1 # 2))])].

(** Four rows, thirty minutes apart, over two hours; the unit stays in
    heating mode on every row. *)
Definition steady_heating_frame : DataFrame :=
  mkDataFrame [0; 1800; 3600; 5400]
    [("economizer_sig", fconst 4 (2 # 10));
     ("heating_sig", fconst 4 (1 # 2));
     ("cooling_sig", fconst 4 0);
     ("supply_vfd_speed", fconst 4 (8 # 10))].

(** Two rows, the first with a NaN mixed-air temperature, the second with
    a NaN return-air temperature. *)
Definition nan_frame : DataFrame :=
  with_thresholds
    (mkDataFrame [0; 300]
       [("mat", [VFloat NaN; VFloat (Fin 85)]);
        ("rat", [VFloat (Fin 72); VFloat NaN]);
        ("oat", [VFloat (Fin 55); VFloat (Fin 55)])]).

(** The cooling signal is integer-coded: the validator rejects the column. *)
Definition integer_coded_frame : DataFrame :=
  mkDataFrame [0; 900]
    [("economizer_sig", fconst 2 (2 # 10));
     ("heating_sig", fconst 2 0);
     ("cooling_sig", [VInt 0; VInt 1]);
     ("supply_vfd_speed", fconst 2 (8 # 10))].

(** ** Reference readings used in the properties of [apply] *)

(** The entries into 1 of a series, row by row: a row counts when it is 1 and
    the row before it is not; [prev] tells whether the row before the first
    one is 1. *)
Fixpoint entries (prev : bool) (x : Series) : Z :=
  match x with
  | [] => 0
  | v :: x' =>
      Z.b2z (v_eq v (VInt 1) && negb prev) + entries (v_eq v (VInt 1)) x'
  end.

(** The number of rows whose timestamp falls into hour [h]. *)
Definition rows_in_hour (h : Z) (idx : list Z) : nat :=
  length (filter (λ t, hour_of t = h) idx).

Definition is_finite (f : pyfloat) : bool :=
  match f with Fin _ => true | _ => false end.

(** The same rule with another [delta_os_max]. *)
Definition with_delta_os_max (self : FaultConditionFour) (delta : Q) : FaultConditionFour :=
  mkFaultConditionFour delta (ahu_min_oa_dpr self) (economizer_sig_col self)
    (heating_sig_col self) (cooling_sig_col self) (supply_vfd_speed_col self)
    (troubleshoot_mode self).

(** Two rows two hours apart: the hour in between holds no row. *)
Definition gap_frame : DataFrame :=
  mkDataFrame [0; 7200]
    [("economizer_sig", fconst 2 (2 # 10));
     ("heating_sig", fconst 2 (1 # 2));
     ("cooling_sig", fconst 2 0);
     ("supply_vfd_speed", fconst 2 (8 # 10))].

(** A table that also carries an outside-air temperature, missing on the
    second row. *)
Definition sensor_dropout_frame : DataFrame :=
  mkDataFrame [0; 900]
    [("economizer_sig", fconst 2 (2 # 10));
     ("heating_sig", fconst 2 (1 # 2));
     ("cooling_sig", fconst 2 0);
     ("supply_vfd_speed", fconst 2 (8 # 10));
     ("oat", [VFloat (Fin 55); VFloat NaN])].

(** The table a run returns; the empty table when the run raises. *)
Definition returned (r : result loc * store) : DataFrame :=
  match r.1 with
  | Ok l => default (mkDataFrame [] []) (r.2 !! l)
  | Raise _ => mkDataFrame [] []
  end.

(** ** The script of [fc2_3.py] *)

(** *** Lines 61 to 82: flags, [dropna], casts and dropped columns *)

(** A missing cell. *)
Definition is_na (v : value) : bool :=
  match v with VFloat NaN => true | _ => false end.

Definition row_has_na (df : DataFrame) (i : nat) : bool :=
  existsb (λ c : string * Series, from_option is_na false (c.2 !! i)) (columns df).

(** One boolean per row: whether the row holds a missing cell. *)
Definition na_mask (df : DataFrame) : list bool :=
  row_has_na df <$> seq 0 (length (index df)).

(** The entries of [xs] whose mask is false, in order. *)
Fixpoint drop_rows {A} (mask : list bool) (xs : list A) : list A :=
  match mask, xs with
  | m :: mask', x :: xs' =>
      if m then drop_rows mask' xs' else x :: drop_rows mask' xs'
  | _, _ => []
  end.

(** [df.copy().dropna()]: a new frame without the rows that hold a missing
    cell. *)
Definition dropna (df : DataFrame) : DataFrame :=
  let mask := na_mask df in
  mkDataFrame (drop_rows mask (index df))
    ((λ c : string * Series, (c.1, drop_rows mask c.2)) <$> columns df).

Fixpoint first_missing (cs : list (string * Series)) (names : list string)
  : option string :=
  match names with
  | [] => None
  | n :: names' =>
      match get_col cs n with
      | None => Some n
      | Some _ => first_missing cs names'
      end
  end.

(** [df.drop(names, axis=1)]: a frame without the named columns; a name that
    is not a column is an error. *)
Definition drop_columns (df : DataFrame) (names : list string) : result DataFrame :=
  match first_missing (columns df) names with
  | Some n => Raise (MissingColumnError n)
  | None =>
      Ok (mkDataFrame (index df)
            (filter (λ c : string * Series, c.1 ∉ names) (columns df)))
  end.

Definition threshold_columns : list string :=
  ["outdoor_degf_err_thres"; "mix_degf_err_thres"; "return_degf_err_thres"].

(** [df[name] = df[name].astype(int)] *)
Definition cast_column (df : DataFrame) (name : string) : result DataFrame :=
  s ← getitem df name; s' ← mapM astype_int1 s; mret (setitem df name s').

(** Lines 61 to 82, from the smoothed frame [df] to the pair of [df] with its
    threshold and flag columns and of the report frame [df2]. *)
Definition fc2_3_frames (df : DataFrame) : result (DataFrame * DataFrame) :=
  let df := with_thresholds df in
  fc2 ← fault_condition_two_ df;
  let df := setitem df "fc2_flag" fc2 in
  fc3 ← fault_condition_three_ df;
  let df := setitem df "fc3_flag" fc3 in
  let df2 := dropna df in
  df2 ← cast_column df2 "fc2_flag";
  df2 ← cast_column df2 "fc3_flag";
  df2 ← drop_columns df2 threshold_columns;
  mret (df, df2).

(** *** Lines 128 to 141: the dataset statistics *)

(** [index.to_series().diff()]: the time since the row before, in seconds;
    the first row has none (NaT). *)
Definition diff (idx : list Z) : list (option Z) :=
  match idx with
  | [] => []
  | _ :: ts => None :: zip_with (λ a b, Some (b - a)) idx ts
  end.

(** [delta.sum()]: NaT is skipped, an empty sum is zero. *)
Definition td_sum (d : list (option Z)) : Z :=
  foldr (λ o n, default 0 o + n) 0 d.

(** A time span times an integer cell; NaT stays NaT.  The flag columns the
    script multiplies with are integer columns (lines 76 and 77). *)
Definition td_mul1 (d : option Z) (v : value) : option Z :=
  match d, v with
  | Some x, VInt z => Some (x * z)
  | _, _ => None
  end.

Definition td_mul (d : list (option Z)) (s : Series) : list (option Z) :=
  zip_with td_mul1 d s.

(** A time span over [pd.Timedelta(hours=1)]. *)
Definition in_hours (seconds : Z) : Q := inject_Z seconds / 3600.

Definition fmul (a b : pyfloat) : pyfloat :=
  match a, b with
  | NaN, _ | _, NaN => NaN
  | Fin x, Fin y => Fin (x * y)%Q
  | Fin x, PInf | PInf, Fin x =>
      if Qlt_bool 0 x then PInf else if Qlt_bool x 0 then NInf else NaN
  | Fin x, NInf | NInf, Fin x =>
      if Qlt_bool 0 x then NInf else if Qlt_bool x 0 then PInf else NaN
  | PInf, PInf | NInf, NInf => PInf
  | PInf, NInf | NInf, PInf => NInf
  end.

(** Rounding to the nearest integer, halves to the even one. *)
Definition rint (q : Q) : Z :=
  let f := Qfloor q in
  let r := (q - inject_Z f)%Q in
  if Qlt_bool r (1 # 2) then f
  else if Qlt_bool (1 # 2) r then f + 1
  else if Z.even f then f else f + 1.

(** [round(x, 2)] *)
Definition round2 (x : pyfloat) : pyfloat :=
  match x with
  | Fin q => Fin (inject_Z (rint (q * 100)) / 100)
  | _ => x
  end.

(** [s.mean()]: the mean of the cells that are not missing, NaN when there
    is none. *)
Definition s_mean (s : Series) : pyfloat :=
  let xs := filter (λ x, is_nan x = false) (to_float <$> s) in
  match xs with
  | [] => NaN
  | _ :: _ => fmul (foldr fadd (Fin 0) xs) (Fin (1 # Pos.of_nat (length xs)))
  end.

Definition total_hours (df2 : DataFrame) : Q := in_hours (td_sum (diff (index df2))).

Definition hours_in_mode (df2 : DataFrame) (flag : string) : result Q :=
  s ← getitem df2 flag; mret (in_hours (td_sum (td_mul (diff (index df2)) s))).

Definition percent_true (df2 : DataFrame) (flag : string) : result pyfloat :=
  s ← getitem df2 flag; mret (round2 (fmul (s_mean s) (Fin 100))).

(** *** Lines 264 to 272: the suggestion of the report *)

Definition SUGGESTION_OUT_OF_CALIBRATION : string :=
  "The percent True of time in fault condition 2 or 3 is high indicating the AHU temperature sensors are out of calibration".

Definition SUGGESTION_WITHIN_CALIBRATION : string :=
  "The percent True of time is low inidicating the AHU temperature sensors are within calibration".

Definition suggestion (percent_true_fc2 percent_true_fc3 : pyfloat) : string :=
  if flt percent_true_fc2 (Fin 5) || flt percent_true_fc3 (Fin 5)
  then SUGGESTION_OUT_OF_CALIBRATION
  else SUGGESTION_WITHIN_CALIBRATION.

Definition report_suggestion (df2 : DataFrame) : result string :=
  p2 ← percent_true df2 "fc2_flag";
  p3 ← percent_true df2 "fc3_flag";
  mret (suggestion p2 p3).

(** Readings every five minutes; the second row lacks the return-air
    temperature, the third is too warm for both the return and the outside
    air. *)
Definition readings_frame : DataFrame :=
  mkDataFrame [0; 300; 600; 900]
    [("mat", [VFloat (Fin 60); VFloat (Fin 61); VFloat (Fin 85); VFloat (Fin 62)]);
     ("rat", [VFloat (Fin 72); VFloat NaN; VFloat (Fin 72); VFloat (Fin 72)]);
     ("oat", [VFloat (Fin 45); VFloat (Fin 45); VFloat (Fin 55); VFloat (Fin 46)])].

(** [index.is_monotonic_increasing]: no time stamp is earlier than the one
    before it. *)
Fixpoint is_monotonic_increasing (idx : list Z) : bool :=
  match idx with
  | a :: tl =>
      match tl with
      | b :: _ => (a <=? b)%Z && is_monotonic_increasing tl
      | [] => true
      end
  | [] => true
  end.

(** The row of scenario A with a mix tolerance of 10 instead of 5: FC3 is
    still raised. *)
Definition scenario_A_wide : DataFrame :=
  setitem scenario_A "mix_degf_err_thres" [VInt 10].

(** Two cells that are 0 or 1 and not both 1. *)
Definition flag_pair (a b : value) : Prop :=
  ∃ x y : bool, a = VInt (Z.b2z x) ∧ b = VInt (Z.b2z y) ∧ x && y = false.

(** The report frame of a run of the script, the empty frame when the run
    raises. *)
Definition report_frame (raw : DataFrame) : DataFrame :=
  match fc2_3_frames raw with
  | Ok (_, df2) => df2
  | Raise _ => mkDataFrame [] []
  end.

(** A cell of an integer flag column: 0 or 1. *)
Definition is_flag (v : value) : bool :=
  match v with
  | VInt 0 | VInt 1 => true
  | _ => false
  end.

Definition is_zero (v : value) : bool :=
  match v with
  | VInt 0 => true
  | _ => false
  end.

(** ** The two comparisons in binary64

    The rational cells above leave the rounding of float64 arithmetic out.
    Where a property depends on it, the row computations of
    [fault_condition_two_] and [fault_condition_three_] are read in IEEE 754
    binary64, with the operations of the Standard Library's [SpecFloat]
    (53 bits of precision, round to nearest even). *)
Module Binary64.

Definition prec : Z := 53.
Definition emax : Z := 1024.

Definition add : spec_float → spec_float → spec_float := SFadd prec emax.
Definition sub : spec_float → spec_float → spec_float := SFsub prec emax.
Definition lt (a b : spec_float) : bool := SFltb a b.
Definition gt (a b : spec_float) : bool := SFltb b a.

Definition is_nan (a : spec_float) : bool :=
  match a with S754_nan => true | _ => false end.

(** [np.minimum] and [np.maximum] propagate NaN. *)
Definition np_minimum1 (a b : spec_float) : spec_float :=
  if is_nan a || is_nan b then S754_nan else if lt b a then b else a.

Definition np_maximum1 (a b : spec_float) : spec_float :=
  if is_nan a || is_nan b then S754_nan else if lt a b then b else a.

(** An integer cell in float arithmetic: the threshold columns hold
    integers, which pandas converts to float64 in a sum with a float
    column. *)
Definition of_int (z : Z) : spec_float := binary_normalize prec emax z 0 false.

(** The two functions on the six columns they read. *)
Definition fault_condition_two_
    (mat mix_degf_err_thres rat return_degf_err_thres oat outdoor_degf_err_thres
       : list spec_float) : list bool :=
  zip_with lt (zip_with add mat mix_degf_err_thres)
    (zip_with np_minimum1 (zip_with sub rat return_degf_err_thres)
       (zip_with sub oat outdoor_degf_err_thres)).

Definition fault_condition_three_
    (mat mix_degf_err_thres rat return_degf_err_thres oat outdoor_degf_err_thres
       : list spec_float) : list bool :=
  zip_with gt (zip_with sub mat mix_degf_err_thres)
    (zip_with np_maximum1 (zip_with add rat return_degf_err_thres)
       (zip_with add oat outdoor_degf_err_thres)).

(** A float64 value is a valid binary64 number: its mantissa and exponent
    are in canonical form. *)
Definition valid (x : spec_float) : bool := valid_binary prec emax x.

Definition is_finite (x : spec_float) : bool :=
  match x with S754_zero _ | S754_finite _ _ _ => true | _ => false end.

(** The real number a finite float stands for. *)
Definition real (x : spec_float) : Q :=
  match x with
  | S754_finite s m e => (if s then -1 else 1) * inject_Z (Zpos m) * 2 ^ e
  | _ => 0
  end%Q.

(** A finite float64 number. *)
Definition number (x : spec_float) : bool := valid x && is_finite x.

(** The largest float below 64. *)
Definition below_64 : spec_float := S754_finite false 9007199254740991 (-47).

End Binary64.

(** Four rows with the integer thresholds 5, 5 and 2: the first at the FC3
    bound (79 - 5 = 72 + 2), the second above it, the third at the FC2 bound
    (45 + 5 = 55 - 5), the fourth below it. *)
Definition bound_mat : list spec_float := Binary64.of_int <$> [79; 85; 45; 40].
Definition bound_rat : list spec_float := Binary64.of_int <$> [72; 72; 72; 72].
Definition bound_oat : list spec_float := Binary64.of_int <$> [55; 55; 55; 55].
Definition constant_column (n : nat) (z : Z) : list spec_float :=
  replicate n (Binary64.of_int z).

(** * Properties *)

(** ** Arithmetic and comparison of float cells *)

Lemma Qlt_bool_iff (a b : Q) : Qlt_bool a b = true ↔ (a < b)%Q.
Proof.
  unfold Qlt_bool. rewrite negb_true_iff. split.
  - intros H. apply Qnot_le_lt. intros Hle.
    apply Qle_bool_iff in Hle. congruence.
  - intros H. destruct (Qle_bool b a) eqn:E; [|done].
    apply Qle_bool_iff in E. exfalso. by apply (Qlt_not_le a b).
Qed.

Lemma fadd_nan_l a : fadd NaN a = NaN.
Proof. by destruct a. Qed.

Lemma fadd_nan_r a : fadd a NaN = NaN.
Proof. by destruct a. Qed.

Lemma fsub_nan_l a : fsub NaN a = NaN.
Proof. by destruct a. Qed.

Lemma flt_nan_l a : flt NaN a = false.
Proof. by destruct a. Qed.

Lemma flt_nan_r a : flt a NaN = false.
Proof. by destruct a. Qed.

Lemma np_minimum1_nan a b :
  is_nan a || is_nan b = true → np_minimum1 a b = NaN.
Proof. unfold np_minimum1. by intros ->. Qed.

Lemma np_maximum1_nan a b :
  is_nan a || is_nan b = true → np_maximum1 a b = NaN.
Proof. unfold np_maximum1. by intros ->. Qed.

Lemma np_maximum1_fin (x y : Q) :
  ∃ m, np_maximum1 (Fin x) (Fin y) = Fin m ∧ (m == Qmax x y)%Q.
Proof.
  unfold np_maximum1; simpl. destruct (Qlt_bool x y) eqn:E.
  - exists y. split; [done|]. apply Qlt_bool_iff in E.
    symmetry. apply Q.max_r. by apply Qlt_le_weak.
  - exists x. split; [done|]. symmetry. apply Q.max_l.
    apply Qnot_lt_le. intros H. apply Qlt_bool_iff in H. congruence.
Qed.

Lemma np_minimum1_fin (x y : Q) :
  ∃ m, np_minimum1 (Fin x) (Fin y) = Fin m ∧ (m == Qmin x y)%Q.
Proof.
  unfold np_minimum1; simpl. destruct (Qlt_bool y x) eqn:E.
  - exists y. split; [done|]. apply Qlt_bool_iff in E.
    symmetry. apply Q.min_r. by apply Qlt_le_weak.
  - exists x. split; [done|]. symmetry. apply Q.min_l.
    apply Qnot_lt_le. intros H. apply Qlt_bool_iff in H. congruence.
Qed.

(** ** Fault conditions two and three *)

Lemma cell_Some df name i v :
  cell df name i = Some v →
  ∃ s, getitem df name = Ok s ∧ s !! i = Some v.
Proof.
  unfold cell, getitem. destruct (get_col (columns df) name) as [s|]; simpl; [|done].
  intros H. by exists s.
Qed.

(** Both functions return on a frame that has the six columns, and their
    value on a row is the row-wise predicate. *)
Lemma fc23_lookup df i r :
  row_at df i = Some r →
  ∃ f2 f3, fault_condition_two_ df = Ok f2 ∧ fault_condition_three_ df = Ok f3 ∧
           f2 !! i = Some (VBool (fc2_cell r)) ∧
           f3 !! i = Some (VBool (fc3_cell r)).
Proof.
  unfold row_at. intros H.
  destruct (cell df "mat" i) as [mat|] eqn:Hmat; simpl in H; [|done].
  destruct (cell df "mix_degf_err_thres" i) as [mix|] eqn:Hmix; simpl in H; [|done].
  destruct (cell df "rat" i) as [rat|] eqn:Hrat; simpl in H; [|done].
  destruct (cell df "return_degf_err_thres" i) as [ret|] eqn:Hret; simpl in H; [|done].
  destruct (cell df "oat" i) as [oat|] eqn:Hoat; simpl in H; [|done].
  destruct (cell df "outdoor_degf_err_thres" i) as [out|] eqn:Hout; simpl in H; [|done].
  injection H as <-.
  apply cell_Some in Hmat as (smat & Gmat & Lmat).
  apply cell_Some in Hmix as (smix & Gmix & Lmix).
  apply cell_Some in Hrat as (srat & Grat & Lrat).
  apply cell_Some in Hret as (sret & Gret & Lret).
  apply cell_Some in Hoat as (soat & Goat & Loat).
  apply cell_Some in Hout as (sout & Gout & Lout).
  unfold fault_condition_two_, fault_condition_three_.
  rewrite Gmat, Gmix, Grat, Gret, Goat, Gout. simpl.
  do 2 eexists. split; [reflexivity|]. split; [reflexivity|].
  unfold bool_series, s_lt, s_gt, s_add, s_sub, np_minimum, np_maximum.
  rewrite !list_lookup_fmap, !lookup_zip_with.
  rewrite Lmat, Lmix, Lrat, Lret, Loat, Lout. simpl. done.
Qed.

Lemma fc3_cell_finite (mat mix rat ret oat out : Q) :
  fc3_cell (finite_row mat mix rat ret oat out) = true ↔
  (Qmax (rat + ret) (oat + out) < mat - mix)%Q.
Proof.
  unfold fc3_cell, finite_row, fgt; simpl.
  destruct (np_maximum1_fin (rat + ret) (oat + out)) as (m & -> & Hm).
  simpl. rewrite Qlt_bool_iff, Hm. reflexivity.
Qed.

Lemma fc2_cell_finite (mat mix rat ret oat out : Q) :
  fc2_cell (finite_row mat mix rat ret oat out) = true ↔
  (mat + mix < Qmin (rat - ret) (oat - out))%Q.
Proof.
  unfold fc2_cell, finite_row; simpl.
  destruct (np_minimum1_fin (rat + - ret) (oat + - out)) as (m & -> & Hm).
  simpl. rewrite Qlt_bool_iff, Hm. reflexivity.
Qed.

Lemma bool_false_iff (b : bool) (P : Prop) : (b = true ↔ P) → ¬ P → b = false.
Proof. destruct b; [|done]. intros [H _] HP. exfalso. by apply HP, H. Qed.

(** ** The comparisons in binary64 *)

Lemma digits2_pos_bounds m :
  (2 ^ (Zpos (digits2_pos m) - 1) ≤ Zpos m < 2 ^ Zpos (digits2_pos m))%Z.
Proof.
  induction m as [m IH|m IH|]; cbn [digits2_pos].
  - rewrite Pos2Z.inj_succ, Z.pow_succ_r by lia.
    replace (Z.succ (Zpos (digits2_pos m)) - 1)%Z
      with (Z.succ (Zpos (digits2_pos m) - 1))%Z by lia.
    rewrite Z.pow_succ_r by lia. lia.
  - rewrite Pos2Z.inj_succ, Z.pow_succ_r by lia.
    replace (Z.succ (Zpos (digits2_pos m)) - 1)%Z
      with (Z.succ (Zpos (digits2_pos m) - 1))%Z by lia.
    rewrite Z.pow_succ_r by lia. lia.
  - simpl. lia.
Qed.

Lemma valid_finite_bounds s m e :
  Binary64.valid (S754_finite s m e) = true →
  (Zpos m < 2 ^ 53)%Z ∧ (-1074 < e → 2 ^ 52 ≤ Zpos m)%Z.
Proof.
  unfold Binary64.valid, valid_binary, bounded, canonical_mantissa, fexp, emin,
    Binary64.prec, Binary64.emax.
  intros H. apply andb_true_iff in H as [H _]. apply Z.eqb_eq in H.
  pose proof (digits2_pos_bounds m) as [Hlo Hhi].
  set (d := Zpos (digits2_pos m)) in *.
  assert (d ≤ 53)%Z as Hd by lia.
  split.
  - eapply Z.lt_le_trans; [exact Hhi|]. apply Z.pow_le_mono_r; lia.
  - intros He. assert (d = 53)%Z as Hd53 by lia. rewrite Hd53 in Hlo. exact Hlo.
Qed.

Lemma pow2_pos e : (0 < 2 ^ e)%Q.
Proof. by apply Qpower_0_lt. Qed.

(** Among valid floats the one with the larger exponent is the larger. *)
Lemma magnitude_lt s1 m1 e1 s2 m2 e2 :
  Binary64.valid (S754_finite s1 m1 e1) = true →
  Binary64.valid (S754_finite s2 m2 e2) = true →
  (e1 < e2)%Z →
  (inject_Z (Zpos m1) * 2 ^ e1 < inject_Z (Zpos m2) * 2 ^ e2)%Q.
Proof.
  intros V1 V2 He.
  destruct (valid_finite_bounds _ _ _ V1) as [H1 _].
  destruct (valid_finite_bounds _ _ _ V2) as [_ H2].
  assert (-1074 ≤ e1)%Z as He1.
  { revert V1. unfold Binary64.valid, valid_binary, bounded, canonical_mantissa,
      fexp, emin, Binary64.prec, Binary64.emax.
    intros H. apply andb_true_iff in H as [H _]. apply Z.eqb_eq in H. lia. }
  specialize (H2 ltac:(lia)).
  rewrite Zlt_Qlt in H1. rewrite Zle_Qle in H2.
  assert (2 ^ e2 == 2 ^ (e2 - e1) * 2 ^ e1)%Q as ->.
  { rewrite <- Qpower_plus by done. by replace (e2 - e1 + e1)%Z with e2 by lia. }
  assert (2 <= 2 ^ (e2 - e1))%Q as HK.
  { change 2%Q with (2 ^ 1)%Q at 1. apply Qpower_le_compat_l; [lia|done]. }
  pose proof (pow2_pos e1) as HP.
  set (P := (2 ^ e1)%Q) in *. set (K := (2 ^ (e2 - e1))%Q) in *.
  set (M1 := inject_Z (Zpos m1)) in *. set (M2 := inject_Z (Zpos m2)) in *.
  change (inject_Z (2 ^ 53)) with 9007199254740992%Q in H1.
  change (inject_Z (2 ^ 52)) with 4503599627370496%Q in H2.
  apply Qlt_le_trans with (9007199254740992 * P)%Q.
  - apply Qmult_lt_compat_r; done.
  - rewrite Qmult_assoc. apply Qmult_le_compat_r; [|lra].
    apply Qle_trans with (M2 * 2)%Q; [lra|].
    apply Qmult_le_l; lra.
Qed.

Lemma magnitude_same_exponent m1 m2 e :
  (inject_Z (Zpos m1) * 2 ^ e < inject_Z (Zpos m2) * 2 ^ e)%Q ↔ (m1 < m2)%positive.
Proof.
  pose proof (pow2_pos e) as HP. split.
  - intros H. apply Qmult_lt_r in H; [|done]. by rewrite <- Zlt_Qlt in H.
  - intros H. apply Qmult_lt_r; [done|]. by rewrite <- Zlt_Qlt.
Qed.

Lemma magnitude_pos m e : (0 < inject_Z (Zpos m) * 2 ^ e)%Q.
Proof.
  apply Qmult_lt_0_compat; [|apply pow2_pos]. by rewrite <- (Zlt_Qlt 0).
Qed.

(** The comparison of two finite floats is the strict order of the real
    numbers they stand for. *)
Lemma lt_real a b :
  Binary64.valid a = true → Binary64.valid b = true →
  Binary64.is_finite a = true → Binary64.is_finite b = true →
  Binary64.lt a b = true ↔ (Binary64.real a < Binary64.real b)%Q.
Proof.
  intros Va Vb Fa Fb.
  destruct a as [sa|sa| |sa ma ea]; try done;
    destruct b as [sb|sb| |sb mb eb]; try done;
    unfold Binary64.lt, SFltb, SFcompare, Binary64.real; cbv beta iota.
  - pose proof (magnitude_pos mb eb).
    destruct sb; cbv beta iota; (split; [try done|try done]); intros; lra.
  - pose proof (magnitude_pos ma ea).
    destruct sa; cbv beta iota; (split; [try done|try done]); intros; lra.
  - pose proof (magnitude_pos ma ea). pose proof (magnitude_pos mb eb).
    pose proof (magnitude_same_exponent ma mb eb) as Hab.
    pose proof (magnitude_same_exponent mb ma eb) as Hba.
    destruct sa, sb; cbv beta iota.
    + destruct (Z.compare_spec ea eb) as [->|He|He]; cbv beta iota.
      * change (PosDef.Pos.compare_cont Eq ma mb) with (Pos.compare ma mb).
        destruct (Pos.compare_spec ma mb) as [->|Hm|Hm]; cbn [CompOpp].
        -- split; [done|]. intros H'. lra.
        -- apply Hab in Hm. split; [done|]. intros H'. lra.
        -- apply Hba in Hm. split; [|done]. intros _. lra.
      * pose proof (magnitude_lt _ _ _ _ _ _ Va Vb He). split; [done|].
        intros H'. lra.
      * pose proof (magnitude_lt _ _ _ _ _ _ Vb Va He). split; [|done].
        intros _. lra.
    + split; [|done]. intros _. lra.
    + split; [done|]. intros H'. lra.
    + destruct (Z.compare_spec ea eb) as [->|He|He]; cbv beta iota.
      * change (PosDef.Pos.compare_cont Eq ma mb) with (Pos.compare ma mb).
        destruct (Pos.compare_spec ma mb) as [->|Hm|Hm].
        -- split; [done|]. intros H'. lra.
        -- apply Hab in Hm. split; [|done]. intros _. lra.
        -- apply Hba in Hm. split; [done|]. intros H'. lra.
      * pose proof (magnitude_lt _ _ _ _ _ _ Va Vb He). split; [|done].
        intros _. lra.
      * pose proof (magnitude_lt _ _ _ _ _ _ Vb Va He). split; [done|].
        intros H'. lra.
Qed.

Lemma gt_real a b :
  Binary64.number a = true → Binary64.number b = true →
  Binary64.gt a b = true ↔ (Binary64.real b < Binary64.real a)%Q.
Proof.
  unfold Binary64.number. rewrite !andb_true_iff. intros [Va Fa] [Vb Fb].
  by apply lt_real.
Qed.

(** C5: the comparisons of FC2 and FC3 are strict on the values the code
    computes.  With [high] the float64 result of mixed-air minus the mix
    tolerance and [high_bound] the larger of the float64 results of
    return-air plus return tolerance and outside-air plus outdoor tolerance,
    FC3 does not flag a row on which the two are equal and flags a row on
    which [high] exceeds [high_bound] by any positive epsilon; dually FC2
    with the sum, the differences and the smaller of the two. *)
Theorem fc23_strict_on_computed_values mat mix rat ret oat out i m x r t o u :
  mat !! i = Some m → mix !! i = Some x → rat !! i = Some r →
  ret !! i = Some t → oat !! i = Some o → out !! i = Some u →
  let high := Binary64.sub m x in
  let high_bound := Binary64.np_maximum1 (Binary64.add r t) (Binary64.add o u) in
  let low := Binary64.add m x in
  let low_bound := Binary64.np_minimum1 (Binary64.sub r t) (Binary64.sub o u) in
  let f3 := Binary64.fault_condition_three_ mat mix rat ret oat out in
  let f2 := Binary64.fault_condition_two_ mat mix rat ret oat out in
  f3 !! i = Some (Binary64.gt high high_bound) ∧
  f2 !! i = Some (Binary64.lt low low_bound) ∧
  (Binary64.number high = true → Binary64.number high_bound = true →
   ((Binary64.real high == Binary64.real high_bound)%Q → f3 !! i = Some false) ∧
   (∀ eps : Q, (0 < eps)%Q →
      (Binary64.real high == Binary64.real high_bound + eps)%Q →
      f3 !! i = Some true)) ∧
  (Binary64.number low = true → Binary64.number low_bound = true →
   ((Binary64.real low == Binary64.real low_bound)%Q → f2 !! i = Some false) ∧
   (∀ eps : Q, (0 < eps)%Q →
      (Binary64.real low == Binary64.real low_bound - eps)%Q →
      f2 !! i = Some true)).
Proof.
  intros Hm Hx Hr Ht Ho Hu high high_bound low low_bound f3 f2.
  assert (f3 !! i = Some (Binary64.gt high high_bound)) as H3.
  { unfold f3, Binary64.fault_condition_three_.
    rewrite !lookup_zip_with, Hm, Hx, Hr, Ht, Ho, Hu. reflexivity. }
  assert (f2 !! i = Some (Binary64.lt low low_bound)) as H2.
  { unfold f2, Binary64.fault_condition_two_.
    rewrite !lookup_zip_with, Hm, Hx, Hr, Ht, Ho, Hu. reflexivity. }
  split; [done|]. split; [done|]. rewrite H3, H2. split.
  - intros Nh Nb. pose proof (gt_real _ _ Nh Nb) as Hgt. split.
    + intros Heq. f_equal. apply (bool_false_iff _ _ Hgt). lra.
    + intros eps Heps Heq. f_equal. apply Hgt. lra.
  - intros Nl Nb. pose proof (gt_real _ _ Nb Nl) as Hlt.
    change (Binary64.gt low_bound low) with (Binary64.lt low low_bound) in Hlt.
    split.
    + intros Heq. f_equal. apply (bool_false_iff _ _ Hlt). lra.
    + intros eps Heps Heq. f_equal. apply Hlt. lra.
Qed.

Lemma fc23_strict_on_computed_values_witness :
  Binary64.fault_condition_three_ bound_mat (constant_column 4 5)
     bound_rat (constant_column 4 2) bound_oat (constant_column 4 5) !! 0%nat = Some false ∧
  Binary64.fault_condition_three_ bound_mat (constant_column 4 5)
     bound_rat (constant_column 4 2) bound_oat (constant_column 4 5) !! 1%nat = Some true ∧
  Binary64.fault_condition_two_ bound_mat (constant_column 4 5)
     bound_rat (constant_column 4 2) bound_oat (constant_column 4 5) !! 2%nat = Some false ∧
  Binary64.fault_condition_two_ bound_mat (constant_column 4 5)
     bound_rat (constant_column 4 2) bound_oat (constant_column 4 5) !! 3%nat = Some true.
Proof.
  split; [|split; [|split]].
  - destruct (fc23_strict_on_computed_values bound_mat (constant_column 4 5)
     bound_rat (constant_column 4 2) bound_oat (constant_column 4 5)
                0%nat (Binary64.of_int 79) (Binary64.of_int 5) (Binary64.of_int 72)
                (Binary64.of_int 2) (Binary64.of_int 55) (Binary64.of_int 5)
                eq_refl eq_refl eq_refl eq_refl eq_refl eq_refl)
      as (_ & _ & H3 & _).
    apply (proj1 (H3 eq_refl eq_refl)). vm_compute. reflexivity.
  - destruct (fc23_strict_on_computed_values bound_mat (constant_column 4 5)
     bound_rat (constant_column 4 2) bound_oat (constant_column 4 5)
                1%nat (Binary64.of_int 85) (Binary64.of_int 5) (Binary64.of_int 72)
                (Binary64.of_int 2) (Binary64.of_int 55) (Binary64.of_int 5)
                eq_refl eq_refl eq_refl eq_refl eq_refl eq_refl)
      as (_ & _ & H3 & _).
    apply (proj2 (H3 eq_refl eq_refl) 6%Q); [reflexivity|]. vm_compute. reflexivity.
  - destruct (fc23_strict_on_computed_values bound_mat (constant_column 4 5)
     bound_rat (constant_column 4 2) bound_oat (constant_column 4 5)
                2%nat (Binary64.of_int 45) (Binary64.of_int 5) (Binary64.of_int 72)
                (Binary64.of_int 2) (Binary64.of_int 55) (Binary64.of_int 5)
                eq_refl eq_refl eq_refl eq_refl eq_refl eq_refl)
      as (_ & _ & _ & H2).
    apply (proj1 (H2 eq_refl eq_refl)). vm_compute. reflexivity.
  - destruct (fc23_strict_on_computed_values bound_mat (constant_column 4 5)
     bound_rat (constant_column 4 2) bound_oat (constant_column 4 5)
                3%nat (Binary64.of_int 40) (Binary64.of_int 5) (Binary64.of_int 72)
                (Binary64.of_int 2) (Binary64.of_int 55) (Binary64.of_int 5)
                eq_refl eq_refl eq_refl eq_refl eq_refl eq_refl)
      as (_ & _ & _ & H2).
    apply (proj2 (H2 eq_refl eq_refl) 5%Q); [reflexivity|]. vm_compute. reflexivity.
Defined.

(** C5, counterexample: mixed-air minus the mix tolerance, 71 - 5, exceeds
    the bound (64 - 2^-47) + 2 by 2^-47, but the float64 sum rounds to 66 and
    the row is not flagged. *)
Lemma fc23_excess_lost_in_rounding :
  Binary64.valid Binary64.below_64 = true ∧
  (0 < 1 # 140737488355328)%Q ∧
  (Binary64.real (Binary64.of_int 71) - Binary64.real (Binary64.of_int 5)
   == Qmax (Binary64.real Binary64.below_64 + Binary64.real (Binary64.of_int 2))
           (Binary64.real (Binary64.of_int 55) + Binary64.real (Binary64.of_int 5))
      + (1 # 140737488355328))%Q ∧
  Binary64.fault_condition_three_
    [Binary64.of_int 71] [Binary64.of_int 5] [Binary64.below_64]
    [Binary64.of_int 2] [Binary64.of_int 55] [Binary64.of_int 5] = [false].
Proof.
  split; [reflexivity|]. split; [reflexivity|]. split; [|reflexivity].
  vm_compute. reflexivity.
Qed.

Lemma cell_nan_false (r : fc_row) :
  row_has_nan r = true → fc2_cell r = false ∧ fc3_cell r = false.
Proof.
  destruct r as [mat mix rat ret oat out].
  unfold row_has_nan, fc2_cell, fc3_cell, fgt.
  cbn [r_mat r_mix r_rat r_ret r_oat r_out].
  rewrite !orb_true_iff. intros [[H|H]|H].
  - destruct mat; try done.
    by rewrite fadd_nan_l, fsub_nan_l, flt_nan_l, flt_nan_r.
  - destruct rat; try done.
    rewrite fadd_nan_l, fsub_nan_l.
    rewrite np_minimum1_nan, np_maximum1_nan by done.
    by rewrite flt_nan_l, flt_nan_r.
  - destruct oat; try done.
    rewrite fadd_nan_l, fsub_nan_l.
    rewrite np_minimum1_nan, np_maximum1_nan by apply orb_true_r.
    by rewrite flt_nan_l, flt_nan_r.
Qed.

(** C7: on a row whose mixed-air, return-air or outside-air temperature is
    NaN, both predicates are computed without an exception and both are
    false. *)
Theorem fc23_nan_not_flagged df i r :
  row_at df i = Some r →
  row_has_nan r = true →
  ∃ f2 f3,
    fault_condition_two_ df = Ok f2 ∧ fault_condition_three_ df = Ok f3 ∧
    f2 !! i = Some (VBool false) ∧ f3 !! i = Some (VBool false).
Proof.
  intros Hrow Hnan.
  destruct (fc23_lookup _ _ _ Hrow) as (f2 & f3 & E2 & E3 & L2 & L3).
  destruct (cell_nan_false _ Hnan) as [C2 C3].
  exists f2, f3. by rewrite L2, L3, C2, C3.
Qed.

Lemma fc23_nan_not_flagged_witness :
  ∃ f2 f3,
    fault_condition_two_ nan_frame = Ok f2 ∧
    fault_condition_three_ nan_frame = Ok f3 ∧
    f2 !! 1%nat = Some (VBool false) ∧ f3 !! 1%nat = Some (VBool false).
Proof.
  apply (fc23_nan_not_flagged nan_frame 1
           (mkRow (Fin 85) (Fin 5) NaN (Fin 2) (Fin 55) (Fin 5)));
    reflexivity.
Defined.

(** C10: on a row of finite temperatures with non-negative thresholds, FC2
    (mixed air too low) and FC3 (mixed air too high) are never both true. *)
Theorem fc2_fc3_exclusive df i (mat mix rat ret oat out : Q) f2 f3 :
  row_at df i = Some (finite_row mat mix rat ret oat out) →
  (0 <= mix)%Q → (0 <= ret)%Q → (0 <= out)%Q →
  fault_condition_two_ df = Ok f2 →
  fault_condition_three_ df = Ok f3 →
  ¬ (f2 !! i = Some (VBool true) ∧ f3 !! i = Some (VBool true)).
Proof.
  intros Hrow Hmix Hret Hout E2 E3 [T2 T3].
  destruct (fc23_lookup _ _ _ Hrow) as (g2 & g3 & G2 & G3 & L2 & L3).
  rewrite E2 in G2. rewrite E3 in G3.
  injection G2 as <-. injection G3 as <-.
  rewrite T2 in L2. rewrite T3 in L3.
  injection L2 as L2. injection L3 as L3.
  symmetry in L2, L3.
  apply fc2_cell_finite in L2. apply fc3_cell_finite in L3.
  pose proof (Q.le_max_l (rat + ret) (oat + out)) as Hmax.
  pose proof (Q.le_min_l (rat - ret) (oat - out)) as Hmin.
  lra.
Qed.

Lemma fc2_fc3_exclusive_witness :
  ¬ (bool_series [false] !! 0%nat = Some (VBool true) ∧
     bool_series [true] !! 0%nat = Some (VBool true)).
Proof.
  apply (fc2_fc3_exclusive scenario_A 0 85 5 72 2 55 5);
    first [reflexivity | (unfold Qle; simpl; lia)].
Defined.

(** C6: with thresholds mix = 5, return = 2 and outdoor = 5, the
    mixed-air-too-high predicate is true on the row (mat 85, rat 72, oat 55)
    and false on the row (mat 60, rat 72, oat 45). *)
Theorem fc3_scenarios :
  fault_condition_three_ scenario_A = Ok [VBool true] ∧
  fault_condition_three_ scenario_B = Ok [VBool false].
Proof. split; vm_compute; reflexivity. Qed.


(** ** The store monad *)

Lemma bind_Ok {A B} (m : M A) (f : A → M B) st a st' :
  m st = (Ok a, st') → (m ≫= f) st = f a st'.
Proof. unfold mbind, M_bind. by intros ->. Qed.

Lemma bind_Raise {A B} (m : M A) (f : A → M B) st e st' :
  m st = (Raise e, st') → (m ≫= f) st = (Raise e, st').
Proof. unfold mbind, M_bind. by intros ->. Qed.

Lemma bind_Ok_inv {A B} (m : M A) (f : A → M B) st b st2 :
  (m ≫= f) st = (Ok b, st2) →
  ∃ a st1, m st = (Ok a, st1) ∧ f a st1 = (Ok b, st2).
Proof.
  unfold mbind, M_bind. destruct (m st) as [[a|e] st1]; [|done].
  intros H. by exists a, st1.
Qed.

Lemma deref_Some l st df : st !! l = Some df → deref l st = (Ok df, st).
Proof. unfold deref. by intros ->. Qed.

Lemma df_get_eq l st df name :
  st !! l = Some df → df_get l name st = (getitem df name, st).
Proof.
  intros H. unfold df_get. rewrite (bind_Ok _ _ _ _ _ (deref_Some _ _ _ H)).
  reflexivity.
Qed.

Lemma df_set_eq l st df name s :
  st !! l = Some df → df_set l name s st = (Ok tt, <[l := setitem df name s]> st).
Proof.
  intros H. unfold df_set. rewrite (bind_Ok _ _ _ _ _ (deref_Some _ _ _ H)).
  reflexivity.
Qed.

Lemma lookup_insert_store (st : store) l df df' :
  st !! l = Some df → <[l := df']> st !! l = Some df'.
Proof. intros H. apply list_lookup_insert_eq. by eapply lookup_lt_Some. Qed.

(** ** Columns of a frame *)

Lemma get_col_set_col_eq cs name s : get_col (set_col cs name s) name = Some s.
Proof.
  induction cs as [|[n s'] cs IH]; simpl.
  - by rewrite decide_True.
  - destruct (decide (n = name)) as [->|Hne]; simpl.
    + by rewrite decide_True.
    + by rewrite decide_False.
Qed.

Lemma get_col_set_col_ne cs name s c :
  name ≠ c → get_col (set_col cs name s) c = get_col cs c.
Proof.
  intros Hne. induction cs as [|[n s'] cs IH]; simpl.
  - by rewrite decide_False.
  - destruct (decide (n = name)) as [->|Hn]; simpl.
    + by rewrite !decide_False.
    + destruct (decide (n = c)); [done|]. apply IH.
Qed.

Lemma getitem_setitem_ne df name s c :
  name ≠ c → getitem (setitem df name s) c = getitem df c.
Proof. intros H. unfold getitem, setitem; simpl. by rewrite get_col_set_col_ne. Qed.

Lemma cell_setitem_eq df name s i : cell (setitem df name s) name i = s !! i.
Proof. unfold cell, setitem; simpl. by rewrite get_col_set_col_eq. Qed.

Lemma cell_setitem_ne df name s c i :
  name ≠ c → cell (setitem df name s) c i = cell df c i.
Proof. intros H. unfold cell, setitem; simpl. by rewrite get_col_set_col_ne. Qed.

Lemma getitem_setitem_is_Ok df name s c x :
  getitem df c = Ok x → ∃ y, getitem (setitem df name s) c = Ok y.
Proof.
  intros H. destruct (decide (name = c)) as [->|Hne].
  - exists s. unfold getitem, setitem; simpl. by rewrite get_col_set_col_eq.
  - exists x. by rewrite getitem_setitem_ne.
Qed.

(** ** The mode classifier *)

Lemma read_signals_inv self df h c f e :
  read_signals self df = Ok (h, c, f, e) →
  getitem df (heating_sig_col self) = Ok h ∧
  getitem df (cooling_sig_col self) = Ok c ∧
  getitem df (supply_vfd_speed_col self) = Ok f ∧
  getitem df (economizer_sig_col self) = Ok e.
Proof.
  unfold read_signals.
  destruct (getitem df (heating_sig_col self)); simpl; [|done].
  destruct (getitem df (cooling_sig_col self)); simpl; [|done].
  destruct (getitem df (supply_vfd_speed_col self)); simpl; [|done].
  destruct (getitem df (economizer_sig_col self)); simpl; [|done].
  intros [= -> -> -> ->]. done.
Qed.

Lemma read_signals_intro self df h c f e :
  getitem df (heating_sig_col self) = Ok h →
  getitem df (cooling_sig_col self) = Ok c →
  getitem df (supply_vfd_speed_col self) = Ok f →
  getitem df (economizer_sig_col self) = Ok e →
  read_signals self df = Ok (h, c, f, e).
Proof. unfold read_signals. by intros -> -> -> ->. Qed.

(** Each assignment is a pure update of the frame at [l]; it raises, and
    leaves the store as it is, when a signal column is missing. *)
Ltac setter_eq H :=
  unfold run_assign, assign_frame, read_signals, mbind, M_bind;
  rewrite !(df_get_eq _ _ _ _ H);
  repeat match goal with
  | |- context [getitem ?d ?c] => destruct (getitem d c); simpl; [|done]
  end;
  by rewrite (df_set_eq _ _ _ _ _ H).

Lemma set_heating_mode_eq self l st df :
  st !! l = Some df →
  set_heating_mode self l st =
  run_assign (assign_frame self (heating_mode_of self) "heating_mode" df) l st.
Proof. intros H. unfold set_heating_mode. setter_eq H. Qed.

Lemma set_econ_only_cooling_mode_eq self l st df :
  st !! l = Some df →
  set_econ_only_cooling_mode self l st =
  run_assign (assign_frame self (econ_only_cooling_mode_of self)
                "econ_only_cooling_mode" df) l st.
Proof. intros H. unfold set_econ_only_cooling_mode. setter_eq H. Qed.

Lemma set_econ_plus_mech_cooling_mode_eq self l st df :
  st !! l = Some df →
  set_econ_plus_mech_cooling_mode self l st =
  run_assign (assign_frame self (econ_plus_mech_cooling_mode_of self)
                "econ_plus_mech_cooling_mode" df) l st.
Proof. intros H. unfold set_econ_plus_mech_cooling_mode. setter_eq H. Qed.

Lemma set_mech_cooling_only_mode_eq self l st df :
  st !! l = Some df →
  set_mech_cooling_only_mode self l st =
  run_assign (assign_frame self (mech_cooling_only_mode_of self)
                "mech_cooling_only_mode" df) l st.
Proof. intros H. unfold set_mech_cooling_only_mode. setter_eq H. Qed.

Lemma assign_frame_Ok self rhs name df sig :
  read_signals self df = Ok sig →
  ∃ df', assign_frame self rhs name df = Ok df' ∧
         ∃ sig', read_signals self df' = Ok sig'.
Proof.
  intros H. unfold assign_frame. rewrite H. destruct sig as [[[h c] f] e].
  eexists. split; [done|].
  apply read_signals_inv in H as (Hh & Hc & Hf & He).
  destruct (getitem_setitem_is_Ok df name (rhs h c f e) _ _ Hh) as [h' Hh'].
  destruct (getitem_setitem_is_Ok df name (rhs h c f e) _ _ Hc) as [c' Hc'].
  destruct (getitem_setitem_is_Ok df name (rhs h c f e) _ _ Hf) as [f' Hf'].
  destruct (getitem_setitem_is_Ok df name (rhs h c f e) _ _ He) as [e' He'].
  exists (h', c', f', e'). by apply read_signals_intro.
Qed.

(** The classifier cannot fail half-way: once the four signal columns are
    there, the four assignments all go through. *)
Lemma mode_frame_total self df sig :
  read_signals self df = Ok sig → ∃ df4, mode_frame self df = Ok df4.
Proof.
  intros H. unfold mode_frame.
  destruct (assign_frame_Ok self (heating_mode_of self) "heating_mode" _ _ H)
    as (df1 & -> & sig1 & H1); simpl.
  destruct (assign_frame_Ok self (econ_only_cooling_mode_of self)
              "econ_only_cooling_mode" _ _ H1) as (df2 & -> & sig2 & H2); simpl.
  destruct (assign_frame_Ok self (econ_plus_mech_cooling_mode_of self)
              "econ_plus_mech_cooling_mode" _ _ H2) as (df3 & -> & sig3 & H3); simpl.
  destruct (assign_frame_Ok self (mech_cooling_only_mode_of self)
              "mech_cooling_only_mode" _ _ H3) as (df4 & -> & _).
  by exists df4.
Qed.

Lemma run_assign_Ok_inv r l st st' :
  run_assign r l st = (Ok tt, st') → ∃ df', r = Ok df' ∧ st' = <[l := df']> st.
Proof. destruct r as [df'|e]; simpl; [|done]. intros [= <-]. by exists df'. Qed.

(** [set_mode_columns] on the store is [mode_frame] on the caller's frame. *)
Lemma set_mode_columns_Ok self l st df df4 :
  st !! l = Some df →
  mode_frame self df = Ok df4 →
  set_mode_columns self l st = (Ok tt, <[l := df4]> st).
Proof.
  intros H Hm. unfold mode_frame in Hm. unfold set_mode_columns.
  destruct (assign_frame self (heating_mode_of self) "heating_mode" df)
    as [df1|] eqn:E1; simpl in Hm; [|done].
  destruct (assign_frame self (econ_only_cooling_mode_of self)
              "econ_only_cooling_mode" df1) as [df2|] eqn:E2; simpl in Hm; [|done].
  destruct (assign_frame self (econ_plus_mech_cooling_mode_of self)
              "econ_plus_mech_cooling_mode" df2) as [df3|] eqn:E3; simpl in Hm; [|done].
  pose proof (lookup_insert_store st l df df1 H) as H1.
  pose proof (lookup_insert_store _ l df1 df2 H1) as H2.
  pose proof (lookup_insert_store _ l df2 df3 H2) as H3.
  erewrite bind_Ok; [|by rewrite (set_heating_mode_eq _ _ _ _ H), E1].
  erewrite bind_Ok; [|by rewrite (set_econ_only_cooling_mode_eq _ _ _ _ H1), E2].
  erewrite bind_Ok; [|by rewrite (set_econ_plus_mech_cooling_mode_eq _ _ _ _ H2), E3].
  rewrite (set_mech_cooling_only_mode_eq _ _ _ _ H3), Hm. simpl.
  by rewrite !list_insert_insert_eq.
Qed.

Lemma set_mode_columns_Ok_inv self l st df st' :
  st !! l = Some df →
  set_mode_columns self l st = (Ok tt, st') →
  ∃ df4, mode_frame self df = Ok df4 ∧ st' = <[l := df4]> st.
Proof.
  intros H Hs.
  destruct (read_signals self df) as [sig|e] eqn:Hsig.
  - destruct (mode_frame_total _ _ _ Hsig) as [df4 Hm].
    exists df4. split; [done|].
    rewrite (set_mode_columns_Ok _ _ _ _ _ H Hm) in Hs. by injection Hs as <-.
  - exfalso. unfold set_mode_columns in Hs.
    erewrite bind_Raise in Hs; [done|].
    rewrite (set_heating_mode_eq _ _ _ _ H). unfold assign_frame.
    by rewrite Hsig.
Qed.

Ltac in_list :=
  unfold mode_columns; repeat first [apply list_elem_of_here | apply list_elem_of_further].

Lemma assign_frame_inv self rhs name df df' :
  assign_frame self rhs name df = Ok df' →
  ∃ h c f e, read_signals self df = Ok (h, c, f, e) ∧
             df' = setitem df name (rhs h c f e).
Proof.
  unfold assign_frame. destruct (read_signals self df) as [[[[h c] f] e]|]; [|done].
  intros [= <-]. by exists h, c, f, e.
Qed.

(** What the four assignments leave in the frame, whatever the names of the
    signal columns: the index and every column that is not a mode column are
    as before, and each mode column is a boolean column. *)
Lemma mode_frame_shape self df df4 :
  mode_frame self df = Ok df4 →
  index df4 = index df ∧
  (∀ name, name ∉ mode_columns →
     get_col (columns df4) name = get_col (columns df) name) ∧
  (∀ name, name ∈ mode_columns →
     ∃ bs, get_col (columns df4) name = Some (bool_series bs)).
Proof.
  unfold mode_frame. intros Hm.
  destruct (assign_frame self (heating_mode_of self) "heating_mode" df)
    as [df1|] eqn:E1; simpl in Hm; [|done].
  destruct (assign_frame self (econ_only_cooling_mode_of self)
              "econ_only_cooling_mode" df1) as [df2|] eqn:E2; simpl in Hm; [|done].
  destruct (assign_frame self (econ_plus_mech_cooling_mode_of self)
              "econ_plus_mech_cooling_mode" df2) as [df3|] eqn:E3; simpl in Hm; [|done].
  apply assign_frame_inv in E1 as (h1 & c1 & f1 & e1 & _ & ->).
  apply assign_frame_inv in E2 as (h2 & c2 & f2 & e2 & _ & ->).
  apply assign_frame_inv in E3 as (h3 & c3 & f3 & e3 & _ & ->).
  apply assign_frame_inv in Hm as (h4 & c4 & f4 & e4 & _ & ->).
  split; [done|]. split.
  - intros name Hn. unfold mode_columns in Hn. simpl.
    rewrite !get_col_set_col_ne; [done|..]; intros <-; apply Hn; in_list.
  - intros name Hn. unfold mode_columns in Hn. simpl.
    apply elem_of_cons in Hn as [->|Hn].
    { rewrite !get_col_set_col_ne by done. rewrite get_col_set_col_eq.
      unfold heating_mode_of. eauto. }
    apply elem_of_cons in Hn as [->|Hn].
    { rewrite !get_col_set_col_ne by done. rewrite get_col_set_col_eq.
      unfold econ_only_cooling_mode_of. eauto. }
    apply elem_of_cons in Hn as [->|Hn].
    { rewrite !get_col_set_col_ne by done. rewrite get_col_set_col_eq.
      unfold econ_plus_mech_cooling_mode_of. eauto. }
    apply list_elem_of_singleton in Hn as ->.
    rewrite get_col_set_col_eq. unfold mech_cooling_only_mode_of. eauto.
Qed.

Lemma signals_apart_ne self name :
  signals_apart self → name ∈ mode_columns →
  name ≠ heating_sig_col self ∧ name ≠ cooling_sig_col self ∧
  name ≠ supply_vfd_speed_col self ∧ name ≠ economizer_sig_col self.
Proof.
  unfold signals_apart, columns_to_check. intros Hs Hn.
  apply Forall_cons in Hs as [He Hs]. apply Forall_cons in Hs as [Hh Hs].
  apply Forall_cons in Hs as [Hc Hs]. apply Forall_cons in Hs as [Hf _].
  repeat split; intros ->; done.
Qed.

Lemma read_signals_setitem self df name s :
  signals_apart self → name ∈ mode_columns →
  read_signals self (setitem df name s) = read_signals self df.
Proof.
  intros Hs Hn. destruct (signals_apart_ne _ _ Hs Hn) as (Hh & Hc & Hf & He).
  unfold read_signals. by rewrite !getitem_setitem_ne.
Qed.

(** When no signal column bears the name of a mode column, the four
    assignments read the same four series. *)
Lemma mode_frame_apart self df h c f e :
  signals_apart self →
  read_signals self df = Ok (h, c, f, e) →
  mode_frame self df =
  Ok (setitem
        (setitem
           (setitem (setitem df "heating_mode" (heating_mode_of self h c f e))
              "econ_only_cooling_mode" (econ_only_cooling_mode_of self h c f e))
           "econ_plus_mech_cooling_mode"
           (econ_plus_mech_cooling_mode_of self h c f e))
        "mech_cooling_only_mode" (mech_cooling_only_mode_of self h c f e)).
Proof.
  intros Hs Hr. unfold mode_frame, assign_frame.
  rewrite Hr; simpl.
  rewrite read_signals_setitem, Hr by (done || in_list); simpl.
  rewrite !read_signals_setitem, Hr by (done || in_list); simpl.
  rewrite !read_signals_setitem, Hr by (done || in_list); simpl.
  done.
Qed.

Section mode_rows.
Context (self : FaultConditionFour) (h c f e : Series) (i : nat)
        (hv cv fv ev : value).
Hypothesis (Hh : h !! i = Some hv) (Hc : c !! i = Some cv)
           (Hf : f !! i = Some fv) (He : e !! i = Some ev).

Local Ltac row :=
  unfold bool_series, s_and, s_gt_c, s_eq_c;
  rewrite !list_lookup_fmap, !lookup_zip_with, !list_lookup_fmap;
  rewrite Hh, Hc, Hf, He; reflexivity.

Lemma heating_mode_of_lookup :
  heating_mode_of self h c f e !! i = Some (VBool (heating_combo self hv cv fv ev)).
Proof. unfold heating_mode_of, heating_combo, min_oa. row. Qed.

Lemma econ_only_cooling_mode_of_lookup :
  econ_only_cooling_mode_of self h c f e !! i
  = Some (VBool (econ_only_combo self hv cv fv ev)).
Proof. unfold econ_only_cooling_mode_of, econ_only_combo, min_oa. row. Qed.

Lemma econ_plus_mech_cooling_mode_of_lookup :
  econ_plus_mech_cooling_mode_of self h c f e !! i
  = Some (VBool (econ_plus_mech_combo self hv cv fv ev)).
Proof. unfold econ_plus_mech_cooling_mode_of, econ_plus_mech_combo, min_oa. row. Qed.

Lemma mech_cooling_only_mode_of_lookup :
  mech_cooling_only_mode_of self h c f e !! i
  = Some (VBool (mech_only_combo self hv cv fv ev)).
Proof. unfold mech_cooling_only_mode_of, mech_only_combo, min_oa. row. Qed.
End mode_rows.

(** The classifier on one row: the four assignments go through and leave, on
    row [i] of the caller's frame, the four combinations of that row's
    signals. *)
Lemma mode_row self l st df i hv cv fv ev :
  signals_apart self →
  st !! l = Some df →
  cell df (heating_sig_col self) i = Some hv →
  cell df (cooling_sig_col self) i = Some cv →
  cell df (supply_vfd_speed_col self) i = Some fv →
  cell df (economizer_sig_col self) i = Some ev →
  ∃ st' df',
    set_mode_columns self l st = (Ok tt, st') ∧ st' !! l = Some df' ∧
    cell df' "heating_mode" i = Some (VBool (heating_combo self hv cv fv ev)) ∧
    cell df' "econ_only_cooling_mode" i
      = Some (VBool (econ_only_combo self hv cv fv ev)) ∧
    cell df' "econ_plus_mech_cooling_mode" i
      = Some (VBool (econ_plus_mech_combo self hv cv fv ev)) ∧
    cell df' "mech_cooling_only_mode" i
      = Some (VBool (mech_only_combo self hv cv fv ev)).
Proof.
  intros Hs Hl Hh Hc Hf He.
  apply cell_Some in Hh as (h & Gh & Lh). apply cell_Some in Hc as (c & Gc & Lc).
  apply cell_Some in Hf as (f & Gf & Lf). apply cell_Some in He as (e & Ge & Le).
  pose proof (read_signals_intro _ _ _ _ _ _ Gh Gc Gf Ge) as Hr.
  pose proof (mode_frame_apart _ _ _ _ _ _ Hs Hr) as Hm.
  eexists _, _. split; [by apply (set_mode_columns_Ok _ _ _ _ _ Hl Hm)|].
  split; [by eapply lookup_insert_store|].
  repeat split.
  - rewrite !cell_setitem_ne by done. rewrite cell_setitem_eq.
    by apply heating_mode_of_lookup.
  - rewrite !cell_setitem_ne by done. rewrite cell_setitem_eq.
    by apply econ_only_cooling_mode_of_lookup.
  - rewrite !cell_setitem_ne by done. rewrite cell_setitem_eq.
    by apply econ_plus_mech_cooling_mode_of_lookup.
  - rewrite cell_setitem_eq. by apply mech_cooling_only_mode_of_lookup.
Qed.

(** ** Comparisons on one row *)

Lemma fgt_feq_false a b : fgt a b = true → feq a b = false.
Proof.
  unfold fgt. destruct a as [x| | |], b as [y| | |]; simpl; try done.
  intros H%Qlt_bool_iff. destruct (Qeq_bool x y) eqn:E; [|done].
  apply Qeq_bool_iff in E. rewrite E in H. by apply Qlt_irrefl in H.
Qed.

Lemma v_gt_v_eq_false a b : v_gt a b = true → v_eq a b = false.
Proof. apply fgt_feq_false. Qed.

Section combos.
Context (self : FaultConditionFour) (hv cv fv ev : value).

Let b1 := heating_combo self hv cv fv ev.
Let b2 := econ_only_combo self hv cv fv ev.
Let b3 := econ_plus_mech_combo self hv cv fv ev.
Let b4 := mech_only_combo self hv cv fv ev.

Local Ltac cases :=
  subst b1 b2 b3 b4;
  unfold heating_combo, econ_only_combo, econ_plus_mech_combo, mech_only_combo;
  pose proof (v_gt_v_eq_false hv zero) as Hh;
  pose proof (v_gt_v_eq_false cv zero) as Hc;
  pose proof (v_gt_v_eq_false ev (min_oa self)) as He;
  destruct (v_gt hv zero), (v_eq hv zero), (v_gt cv zero), (v_eq cv zero),
    (v_gt fv zero), (v_gt ev (min_oa self)), (v_eq ev (min_oa self));
  simpl in *;
  try (specialize (Hh eq_refl)); try (specialize (Hc eq_refl));
  try (specialize (He eq_refl)); try done; try lia.

Lemma combos_at_most_one :
  (Nat.b2n b1 + Nat.b2n b2 + Nat.b2n b3 + Nat.b2n b4 ≤ 1)%nat.
Proof. cases. Qed.

Lemma combos_fan_off :
  v_gt fv zero = false → b1 = false ∧ b2 = false ∧ b3 = false ∧ b4 = false.
Proof. cases. Qed.

Lemma combos_heating_and_cooling :
  v_gt hv zero = true → v_gt cv zero = true →
  b1 = false ∧ b2 = false ∧ b3 = false ∧ b4 = false.
Proof. cases. Qed.

Lemma combos_heating_only :
  v_gt hv zero = true → v_eq cv zero = true → v_gt fv zero = true →
  v_eq ev (min_oa self) = true →
  b1 = true ∧ b2 = false ∧ b3 = false ∧ b4 = false.
Proof. cases. Qed.
End combos.

(** C3: on every row, at most one of the four mode indicators computed by
    lines 48 to 77 is true, and a row that satisfies none of the four
    combinations (a fan that is not running, or heating and cooling both
    positive, for instance) has the four indicators false. *)
Theorem mode_indicators_exclusive self l st df i hv cv fv ev :
  signals_apart self →
  st !! l = Some df →
  cell df (heating_sig_col self) i = Some hv →
  cell df (cooling_sig_col self) i = Some cv →
  cell df (supply_vfd_speed_col self) i = Some fv →
  cell df (economizer_sig_col self) i = Some ev →
  ∃ st' df' b1 b2 b3 b4,
    set_mode_columns self l st = (Ok tt, st') ∧ st' !! l = Some df' ∧
    cell df' "heating_mode" i = Some (VBool b1) ∧
    cell df' "econ_only_cooling_mode" i = Some (VBool b2) ∧
    cell df' "econ_plus_mech_cooling_mode" i = Some (VBool b3) ∧
    cell df' "mech_cooling_only_mode" i = Some (VBool b4) ∧
    (Nat.b2n b1 + Nat.b2n b2 + Nat.b2n b3 + Nat.b2n b4 ≤ 1)%nat ∧
    (heating_combo self hv cv fv ev = false →
     econ_only_combo self hv cv fv ev = false →
     econ_plus_mech_combo self hv cv fv ev = false →
     mech_only_combo self hv cv fv ev = false →
     b1 = false ∧ b2 = false ∧ b3 = false ∧ b4 = false) ∧
    (v_gt fv zero = false →
     b1 = false ∧ b2 = false ∧ b3 = false ∧ b4 = false) ∧
    (v_gt hv zero = true → v_gt cv zero = true →
     b1 = false ∧ b2 = false ∧ b3 = false ∧ b4 = false).
Proof.
  intros Hs Hl Hh Hc Hf He.
  destruct (mode_row _ _ _ _ _ _ _ _ _ Hs Hl Hh Hc Hf He)
    as (st' & df' & Hrun & Hl' & C1 & C2 & C3 & C4).
  exists st', df'. do 4 eexists.
  split; [done|]. split; [done|].
  split; [exact C1|]. split; [exact C2|]. split; [exact C3|]. split; [exact C4|].
  split; [apply combos_at_most_one|].
  split; [by intros -> -> -> ->|].
  split; [apply combos_fan_off | apply combos_heating_and_cooling].
Qed.

Lemma signals_apart_fc4_config delta : signals_apart (fc4_config delta).
Proof.
  unfold signals_apart, columns_to_check, mode_columns; simpl.
  repeat constructor; intros H;
    repeat (apply elem_of_cons in H as [H|H]; [discriminate H|]);
    by apply elem_of_nil in H.
Defined.

Lemma mode_indicators_exclusive_witness :
  ∃ st' df' b1 b2 b3 b4,
    set_mode_columns (fc4_config 7) 0%nat [fan_toggle_frame] = (Ok tt, st') ∧
    st' !! 0%nat = Some df' ∧
    cell df' "heating_mode" 1 = Some (VBool b1) ∧
    cell df' "econ_only_cooling_mode" 1 = Some (VBool b2) ∧
    cell df' "econ_plus_mech_cooling_mode" 1 = Some (VBool b3) ∧
    cell df' "mech_cooling_only_mode" 1 = Some (VBool b4) ∧
    (Nat.b2n b1 + Nat.b2n b2 + Nat.b2n b3 + Nat.b2n b4 ≤ 1)%nat.
Proof.
  destruct (mode_indicators_exclusive (fc4_config 7) 0%nat [fan_toggle_frame]
              fan_toggle_frame 1
              (VFloat (Fin 0)) (VFloat (Fin 0)) (VFloat (Fin (1 # 2)))
              (VFloat (Fin (2 # 10))))
    as (st' & df' & b1 & b2 & b3 & b4 & H1 & H2 & H3 & H4 & H5 & H6 & H7 & _);
    [apply signals_apart_fc4_config | reflexivity..|].
  exists st', df', b1, b2, b3, b4. repeat split; assumption.
Defined.

(** C4: on a row where the heating signal is positive, the cooling signal is
    zero, the fan speed is positive and the economizer signal equals the
    configured minimum outside-air damper position, the heating-mode
    indicator is true and the other three are false; and no indicator is
    true on a row whose fan speed is not positive. *)
Theorem heating_only_row self l st df i hv cv fv ev :
  signals_apart self →
  st !! l = Some df →
  cell df (heating_sig_col self) i = Some hv →
  cell df (cooling_sig_col self) i = Some cv →
  cell df (supply_vfd_speed_col self) i = Some fv →
  cell df (economizer_sig_col self) i = Some ev →
  ∃ st' df' b1 b2 b3 b4,
    set_mode_columns self l st = (Ok tt, st') ∧ st' !! l = Some df' ∧
    cell df' "heating_mode" i = Some (VBool b1) ∧
    cell df' "econ_only_cooling_mode" i = Some (VBool b2) ∧
    cell df' "econ_plus_mech_cooling_mode" i = Some (VBool b3) ∧
    cell df' "mech_cooling_only_mode" i = Some (VBool b4) ∧
    (v_gt hv zero = true → v_eq cv zero = true → v_gt fv zero = true →
     v_eq ev (VFloat (Fin (ahu_min_oa_dpr self))) = true →
     b1 = true ∧ b2 = false ∧ b3 = false ∧ b4 = false) ∧
    (v_gt fv zero = false →
     b1 = false ∧ b2 = false ∧ b3 = false ∧ b4 = false).
Proof.
  intros Hs Hl Hh Hc Hf He.
  destruct (mode_row _ _ _ _ _ _ _ _ _ Hs Hl Hh Hc Hf He)
    as (st' & df' & Hrun & Hl' & C1 & C2 & C3 & C4).
  exists st', df'. do 4 eexists.
  split; [done|]. split; [done|].
  split; [exact C1|]. split; [exact C2|]. split; [exact C3|]. split; [exact C4|].
  split; [apply combos_heating_only | apply combos_fan_off].
Qed.

Lemma heating_only_row_witness :
  ∃ st' df',
    set_mode_columns (fc4_config 7) 0%nat [steady_heating_frame] = (Ok tt, st') ∧
    st' !! 0%nat = Some df' ∧
    cell df' "heating_mode" 2 = Some (VBool true) ∧
    cell df' "econ_only_cooling_mode" 2 = Some (VBool false) ∧
    cell df' "econ_plus_mech_cooling_mode" 2 = Some (VBool false) ∧
    cell df' "mech_cooling_only_mode" 2 = Some (VBool false).
Proof.
  destruct (heating_only_row (fc4_config 7) 0%nat [steady_heating_frame]
              steady_heating_frame 2
              (VFloat (Fin (1 # 2))) (VFloat (Fin 0)) (VFloat (Fin (8 # 10)))
              (VFloat (Fin (2 # 10))))
    as (st' & df' & b1 & b2 & b3 & b4 & H1 & H2 & H3 & H4 & H5 & H6 & H7 & _);
    [apply signals_apart_fc4_config | reflexivity..|].
  destruct H7 as (-> & -> & -> & ->); [reflexivity..|].
  exists st', df'. repeat split; assumption.
Defined.

(** ** Validation *)

Lemma check_analog_pct_eq l cols st df :
  st !! l = Some df →
  check_analog_pct l cols st = (check_analog_pct_frame df cols, st).
Proof.
  intros H. unfold check_analog_pct.
  by rewrite (bind_Ok _ _ _ _ _ (deref_Some _ _ _ H)).
Qed.

(** The validation loop reads the frame and leaves the store as it is. *)
Lemma for_each_check_eq l cols st df :
  st !! l = Some df →
  for_each cols (λ col, check_analog_pct l [col]) st = (validate_each df cols, st).
Proof.
  intros H. induction cols as [|col cols IH]; [done|].
  cbn [for_each validate_each].
  unfold mbind at 1, M_bind. rewrite (check_analog_pct_eq _ _ _ _ H).
  destruct (check_analog_pct_frame df [col]) as [[]|e]; [|done].
  apply IH.
Qed.

Lemma troubleshoot_cols_eq l st df :
  st !! l = Some df → troubleshoot_cols l st = (Ok tt, st).
Proof.
  intros H. unfold troubleshoot_cols.
  by rewrite (bind_Ok _ _ _ _ _ (deref_Some _ _ _ H)).
Qed.

Lemma check_analog_pct_frame_error df cols e :
  check_analog_pct_frame df cols = Raise e → is_validator_error e.
Proof.
  induction cols as [|col cols IH]; simpl; [done|].
  unfold getitem. destruct (get_col (columns df) col) as [s|]; simpl.
  - destruct (forallb is_float s); simpl.
    + destruct (existsb outside_unit_interval s); [by intros [= <-]|done].
    + by intros [= <-].
  - by intros [= <-].
Qed.

Lemma validate_each_error df cols col e :
  col ∈ cols → check_analog_pct_frame df [col] = Raise e →
  ∃ e', validate_each df cols = Raise e' ∧ is_validator_error e'.
Proof.
  intros Hin Hcol. induction cols as [|c cols IH]; [by apply elem_of_nil in Hin|].
  cbn [validate_each]. destruct (check_analog_pct_frame df [c]) as [[]|e0] eqn:E.
  - apply elem_of_cons in Hin as [->|Hin]; [congruence|]. by apply IH.
  - exists e0. split; [done|]. by eapply check_analog_pct_frame_error.
Qed.

(** C8: with troubleshoot mode off, the validation of the economizer,
    heating, cooling and fan-speed columns runs before any mode or flag
    computation: when the validator raises for one of those columns, [apply]
    raises and the caller's table is as it was, with no mode or flag column
    appended. *)
Theorem validation_aborts_before_modes self l st df col e :
  troubleshoot_mode self = false →
  st !! l = Some df →
  col ∈ columns_to_check self →
  check_analog_pct_frame df [col] = Raise e →
  ∃ e', apply self l st = (Raise e', st) ∧ is_validator_error e' ∧
        st !! l = Some df.
Proof.
  intros Htm Hl Hin Hcol.
  destruct (validate_each_error _ _ _ _ Hin Hcol) as (e' & Hv & He').
  exists e'. split; [|done].
  unfold apply. rewrite Htm.
  erewrite bind_Ok; [|reflexivity].
  erewrite bind_Raise; [done|].
  by rewrite (for_each_check_eq _ _ _ _ Hl), Hv.
Qed.

Lemma validation_aborts_before_modes_witness :
  ∃ e', apply (fc4_config 7) 0%nat [integer_coded_frame]
        = (Raise e', [integer_coded_frame]) ∧
        is_validator_error e' ∧
        [integer_coded_frame] !! 0%nat = Some integer_coded_frame.
Proof.
  apply (validation_aborts_before_modes (fc4_config 7) 0%nat
           [integer_coded_frame] integer_coded_frame "cooling_sig"
           (InvalidSignalType "cooling_sig")).
  - reflexivity.
  - reflexivity.
  - unfold columns_to_check; simpl.
    apply list_elem_of_further, list_elem_of_further, list_elem_of_here.
  - reflexivity.
Defined.

(** ** The whole of [apply] *)

(** A successful run of [apply]: validation passed, the four mode columns
    were assigned into the caller's frame, and two new frames were built
    after the end of the store, the cast frame and the hourly frame. *)
Lemma apply_Ok_inv self l st df l' st' :
  st !! l = Some df →
  apply self l st = (Ok l', st') →
  ∃ df4 d2,
    validate_each df (columns_to_check self) = Ok tt ∧
    mode_frame self df = Ok df4 ∧
    astype_int_frame df4 = Ok d2 ∧
    l' = S (length st) ∧
    st' = <[l := df4]> st ++ [d2; hourly_frame self d2].
Proof.
  intros Hl Happ. unfold apply in Happ.
  apply bind_Ok_inv in Happ as ([] & st0 & Ht & Happ).
  assert (st0 = st) as ->.
  { destruct (troubleshoot_mode self).
    - rewrite (troubleshoot_cols_eq _ _ _ Hl) in Ht. by injection Ht.
    - by injection Ht. }
  apply bind_Ok_inv in Happ as ([] & st0 & Hv & Happ).
  rewrite (for_each_check_eq _ _ _ _ Hl) in Hv. injection Hv as Hv <-.
  apply bind_Ok_inv in Happ as ([] & st1 & Hm & Happ).
  apply (set_mode_columns_Ok_inv _ _ _ _ _ Hl) in Hm as (df4 & Hm & ->).
  pose proof (lookup_insert_store st l df df4 Hl) as Hl1.
  apply bind_Ok_inv in Happ as (l2 & st2 & Ha & Happ).
  unfold astype_int in Ha.
  rewrite (bind_Ok _ _ _ _ _ (deref_Some _ _ _ Hl1)) in Ha.
  unfold mbind at 1, M_bind, lift in Ha.
  destruct (astype_int_frame df4) as [d2|] eqn:Hc; [|done].
  injection Ha as <- <-.
  apply bind_Ok_inv in Happ as (l3 & st3 & Hr & Happ).
  unfold resample_h_apply in Hr.
  assert ((<[l := df4]> st ++ [d2]) !! length (<[l := df4]> st) = Some d2) as Hl2.
  { by rewrite list_lookup_middle. }
  rewrite (bind_Ok _ _ _ _ _ (deref_Some _ _ _ Hl2)) in Hr.
  injection Hr as <- <-.
  apply bind_Ok_inv in Happ as ([] & st4 & Hf & Happ).
  injection Happ as <- <-.
  unfold set_fc4_flag in Hf.
  set (r := resample_h_apply_frame rising_edges d2) in *.
  assert (((<[l := df4]> st ++ [d2]) ++ [r]) !! length (<[l := df4]> st ++ [d2])
          = Some r) as Hl3.
  { by rewrite list_lookup_middle. }
  rewrite (bind_Ok _ _ _ _ _ (deref_Some _ _ _ Hl3)) in Hf.
  rewrite (df_set_eq _ _ _ _ _ Hl3) in Hf. injection Hf as <-.
  exists df4, d2. repeat split; try done.
  - rewrite length_app, length_insert. simpl. lia.
  - rewrite insert_app_r_alt by lia. rewrite Nat.sub_diag. simpl.
    by rewrite <- app_assoc.
Qed.

Lemma set_col_absent cs name s :
  get_col cs name = None → set_col cs name s = cs ++ [(name, s)].
Proof.
  induction cs as [|[n s'] cs IH]; simpl; [done|].
  destruct (decide (n = name)); [done|]. intros H. by rewrite IH.
Qed.

Lemma get_col_app_absent cs name name' s :
  name ≠ name' → get_col cs name = None → get_col (cs ++ [(name', s)]) name = None.
Proof.
  intros Hne. induction cs as [|[n s'] cs IH]; simpl.
  - by rewrite decide_False.
  - destruct (decide (n = name)); [done|]. apply IH.
Qed.

Lemma mode_of_length self h c f e n :
  length h = n → length c = n → length f = n → length e = n →
  length (heating_mode_of self h c f e) = n ∧
  length (econ_only_cooling_mode_of self h c f e) = n ∧
  length (econ_plus_mech_cooling_mode_of self h c f e) = n ∧
  length (mech_cooling_only_mode_of self h c f e) = n.
Proof.
  intros Hh Hc Hf He.
  unfold heating_mode_of, econ_only_cooling_mode_of,
    econ_plus_mech_cooling_mode_of, mech_cooling_only_mode_of,
    bool_series, s_and, s_gt_c, s_eq_c.
  rewrite !length_fmap, !length_zip_with, !length_fmap. lia.
Qed.

(** C9: [apply] assigns the four boolean mode columns into the caller's
    table in place.  After a successful run the caller's table has the same
    index and the same columns as before, followed by the four mode columns
    in the order of the assignments; each mode column holds, row by row, the
    classification of that row's signals and has one cell per row; and the
    hourly table that is returned is a new object, distinct from the
    caller's.  The content of the mode columns is stated for a configuration
    whose signal columns do not bear the name of a mode column. *)
Theorem apply_mutates_caller_frame self l st df l' st' :
  st !! l = Some df →
  apply self l st = (Ok l', st') →
  ∃ df' hourly h c f e,
    st' !! l = Some df' ∧
    index df' = index df ∧
    (∀ name, name ∉ mode_columns →
       get_col (columns df') name = get_col (columns df) name) ∧
    (∀ name, name ∈ mode_columns →
       ∃ bs, get_col (columns df') name = Some (bool_series bs)) ∧
    read_signals self df = Ok (h, c, f, e) ∧
    (signals_apart self →
     get_col (columns df') "heating_mode" = Some (heating_mode_of self h c f e) ∧
     get_col (columns df') "econ_only_cooling_mode"
       = Some (econ_only_cooling_mode_of self h c f e) ∧
     get_col (columns df') "econ_plus_mech_cooling_mode"
       = Some (econ_plus_mech_cooling_mode_of self h c f e) ∧
     get_col (columns df') "mech_cooling_only_mode"
       = Some (mech_cooling_only_mode_of self h c f e) ∧
     ((∀ name, name ∈ mode_columns → get_col (columns df) name = None) →
      columns df' =
      columns df ++
        [("heating_mode", heating_mode_of self h c f e);
         ("econ_only_cooling_mode", econ_only_cooling_mode_of self h c f e);
         ("econ_plus_mech_cooling_mode",
          econ_plus_mech_cooling_mode_of self h c f e);
         ("mech_cooling_only_mode", mech_cooling_only_mode_of self h c f e)]) ∧
     (∀ i hv cv fv ev,
        h !! i = Some hv → c !! i = Some cv → f !! i = Some fv → e !! i = Some ev →
        cell df' "heating_mode" i = Some (VBool (heating_combo self hv cv fv ev)) ∧
        cell df' "econ_only_cooling_mode" i
          = Some (VBool (econ_only_combo self hv cv fv ev)) ∧
        cell df' "econ_plus_mech_cooling_mode" i
          = Some (VBool (econ_plus_mech_combo self hv cv fv ev)) ∧
        cell df' "mech_cooling_only_mode" i
          = Some (VBool (mech_only_combo self hv cv fv ev))) ∧
     (length h = length (index df) → length c = length (index df) →
      length f = length (index df) → length e = length (index df) →
      ∀ name s, name ∈ mode_columns →
        get_col (columns df') name = Some s → length s = length (index df))) ∧
    l' ≠ l ∧ st !! l' = None ∧ st' !! l' = Some hourly ∧
    is_Some (get_col (columns hourly) "fc4_flag").
Proof.
  intros Hl Happ.
  destruct (apply_Ok_inv _ _ _ _ _ _ Hl Happ) as (df4 & d2 & _ & Hm & _ & -> & ->).
  destruct (mode_frame_shape _ _ _ Hm) as (Hidx & Hother & Hmode).
  pose proof (lookup_lt_Some _ _ _ Hl) as Hlt.
  assert (∃ h c f e, read_signals self df = Ok (h, c, f, e)) as (h & c & f & e & Hr).
  { unfold mode_frame in Hm.
    destruct (assign_frame self (heating_mode_of self) "heating_mode" df)
      as [df1|] eqn:E1; [|done].
    destruct (assign_frame_inv _ _ _ _ _ E1) as (h & c & f & e & Hr & _).
    by exists h, c, f, e. }
  exists df4, (hourly_frame self d2), h, c, f, e.
  split.
  { rewrite lookup_app_l by (rewrite length_insert; lia).
    by eapply lookup_insert_store. }
  split; [done|]. split; [done|]. split; [done|]. split; [done|].
  split.
  { intros Hs. pose proof (mode_frame_apart _ _ _ _ _ _ Hs Hr) as Hm'.
    rewrite Hm in Hm'. injection Hm' as ->.
    unfold setitem. cbn [columns index].
    split; [by rewrite !get_col_set_col_ne, get_col_set_col_eq by done|].
    split; [by rewrite !get_col_set_col_ne, get_col_set_col_eq by done|].
    split; [by rewrite !get_col_set_col_ne, get_col_set_col_eq by done|].
    split; [by rewrite get_col_set_col_eq|].
    split.
    { intros Hnone.
      rewrite (set_col_absent (columns df) "heating_mode")
        by (apply Hnone; in_list).
      rewrite (set_col_absent (_ ++ [_]) "econ_only_cooling_mode")
        by (apply get_col_app_absent; [done|apply Hnone; in_list]).
      rewrite (set_col_absent ((_ ++ [_]) ++ [_]) "econ_plus_mech_cooling_mode")
        by (do 2 (apply get_col_app_absent; [done|]); apply Hnone; in_list).
      rewrite (set_col_absent (((_ ++ [_]) ++ [_]) ++ [_]) "mech_cooling_only_mode")
        by (do 3 (apply get_col_app_absent; [done|]); apply Hnone; in_list).
      by rewrite <- !app_assoc. }
    split.
    { intros i hv cv fv ev Lh Lc Lf Le. unfold cell. cbn [columns].
      rewrite !get_col_set_col_ne by done.
      rewrite !get_col_set_col_eq.
      rewrite !get_col_set_col_ne by done.
      rewrite !get_col_set_col_eq.
      rewrite !get_col_set_col_ne by done.
      rewrite !get_col_set_col_eq. simpl.
      split; [by apply heating_mode_of_lookup|].
      split; [by apply econ_only_cooling_mode_of_lookup|].
      split; [by apply econ_plus_mech_cooling_mode_of_lookup|].
      by apply mech_cooling_only_mode_of_lookup. }
    intros Lh Lc Lf Le name s Hn.
    destruct (mode_of_length self h c f e _ Lh Lc Lf Le) as (L1 & L2 & L3 & L4).
    unfold mode_columns in Hn.
    apply elem_of_cons in Hn as [->|Hn].
    { rewrite !get_col_set_col_ne, get_col_set_col_eq by done. by intros [= <-]. }
    apply elem_of_cons in Hn as [->|Hn].
    { rewrite !get_col_set_col_ne, get_col_set_col_eq by done. by intros [= <-]. }
    apply elem_of_cons in Hn as [->|Hn].
    { rewrite !get_col_set_col_ne, get_col_set_col_eq by done. by intros [= <-]. }
    apply elem_of_cons in Hn as [->|Hn]; [|by apply elem_of_nil in Hn].
    rewrite get_col_set_col_eq. by intros [= <-]. }
  split; [lia|].
  split; [apply lookup_ge_None; lia|].
  split.
  { rewrite lookup_app_r by (rewrite length_insert; lia).
    rewrite length_insert.
    by replace (S (length st) - length st)%nat with 1%nat by lia. }
  unfold hourly_frame; simpl. rewrite get_col_set_col_eq. by eexists.
Qed.

Lemma apply_mutates_caller_frame_witness :
  ∃ df' hourly h c f e,
    (apply (fc4_config 7) 0%nat [steady_heating_frame]).2 !! 0%nat = Some df' ∧
    index df' = index steady_heating_frame ∧
    (∀ name, name ∉ mode_columns →
       get_col (columns df') name = get_col (columns steady_heating_frame) name) ∧
    (∀ name, name ∈ mode_columns →
       ∃ bs, get_col (columns df') name = Some (bool_series bs)) ∧
    read_signals (fc4_config 7) steady_heating_frame = Ok (h, c, f, e) ∧
    (signals_apart (fc4_config 7) →
     get_col (columns df') "heating_mode" = Some (heating_mode_of (fc4_config 7) h c f e) ∧
     get_col (columns df') "econ_only_cooling_mode"
       = Some (econ_only_cooling_mode_of (fc4_config 7) h c f e) ∧
     get_col (columns df') "econ_plus_mech_cooling_mode"
       = Some (econ_plus_mech_cooling_mode_of (fc4_config 7) h c f e) ∧
     get_col (columns df') "mech_cooling_only_mode"
       = Some (mech_cooling_only_mode_of (fc4_config 7) h c f e) ∧
     ((∀ name, name ∈ mode_columns → get_col (columns steady_heating_frame) name = None) →
      columns df' =
      columns steady_heating_frame ++
        [("heating_mode", heating_mode_of (fc4_config 7) h c f e);
         ("econ_only_cooling_mode", econ_only_cooling_mode_of (fc4_config 7) h c f e);
         ("econ_plus_mech_cooling_mode",
          econ_plus_mech_cooling_mode_of (fc4_config 7) h c f e);
         ("mech_cooling_only_mode", mech_cooling_only_mode_of (fc4_config 7) h c f e)]) ∧
     (∀ i hv cv fv ev,
        h !! i = Some hv → c !! i = Some cv → f !! i = Some fv → e !! i = Some ev →
        cell df' "heating_mode" i = Some (VBool (heating_combo (fc4_config 7) hv cv fv ev)) ∧
        cell df' "econ_only_cooling_mode" i
          = Some (VBool (econ_only_combo (fc4_config 7) hv cv fv ev)) ∧
        cell df' "econ_plus_mech_cooling_mode" i
          = Some (VBool (econ_plus_mech_combo (fc4_config 7) hv cv fv ev)) ∧
        cell df' "mech_cooling_only_mode" i
          = Some (VBool (mech_only_combo (fc4_config 7) hv cv fv ev))) ∧
     (length h = length (index steady_heating_frame) → length c = length (index steady_heating_frame) →
      length f = length (index steady_heating_frame) → length e = length (index steady_heating_frame) →
      ∀ name s, name ∈ mode_columns →
        get_col (columns df') name = Some s → length s = length (index steady_heating_frame))) ∧
    2%nat ≠ 0%nat ∧ [steady_heating_frame] !! 2%nat = None ∧ (apply (fc4_config 7) 0%nat [steady_heating_frame]).2 !! 2%nat = Some hourly ∧
    is_Some (get_col (columns hourly) "fc4_flag").
Proof.
  apply (apply_mutates_caller_frame (fc4_config 7) 0%nat [steady_heating_frame]
           steady_heating_frame 2%nat
           (apply (fc4_config 7) 0%nat [steady_heating_frame]).2).
  - reflexivity.
  - vm_compute. reflexivity.
Defined.

(** ** The hourly count and the flag *)

(** The flag of an hour looks at every column of the hourly frame. *)
Lemma gt_any_axis1_true df c i :
  gt_any_axis1 df c !! i = Some true ↔
  (i < length (index df))%nat ∧
  ∃ name s v, (name, s) ∈ columns df ∧ s !! i = Some v ∧ v_gt v c = true.
Proof.
  unfold gt_any_axis1. rewrite list_lookup_fmap. split.
  - intros H. destruct (seq 0 (length (index df)) !! i) as [j|] eqn:E; [|done].
    apply lookup_seq in E as [-> Hlt]. simpl in H. injection H as H.
    split; [done|]. apply existsb_exists in H as ([name s] & Hin & Hv).
    simpl in Hv. destruct (s !! i) as [v|] eqn:Es; [|done].
    exists name, s, v. split; [|done]. by apply list_elem_of_In.
  - intros (Hlt & name & s & v & Hin & Hs & Hv).
    rewrite lookup_seq_lt by done. simpl. f_equal.
    apply existsb_exists. exists (name, s). split; [by apply list_elem_of_In|].
    simpl. by rewrite Hs.
Qed.

(** An hour in which a column is 1 on every row counts one change for that
    column, whatever the column held in the hour before. *)
Lemma rising_edges_all_ones n : rising_edges (replicate (S n) (VInt 1)) = VInt 1.
Proof.
  unfold rising_edges, shift. f_equal.
  change (replicate (S n) (VInt 1)) with (VInt 1 :: replicate n (VInt 1)).
  assert (removelast (VInt 1 :: replicate n (VInt 1)) = replicate n (VInt 1)) as ->.
  { induction n as [|n IH]; [done|].
    change (replicate (S n) (VInt 1)) with (VInt 1 :: replicate n (VInt 1)).
    change (removelast (VInt 1 :: VInt 1 :: replicate n (VInt 1)))
      with (VInt 1 :: removelast (VInt 1 :: replicate n (VInt 1))).
    by rewrite IH. }
  cbn [s_eq_c s_ne_c s_and fmap list_fmap zip_with sum_bool foldr].
  change (v_eq (VInt 1) (VInt 1)) with true.
  change (v_ne (VFloat NaN) (VInt 1)) with true.
  cbn [andb Z.b2z].
  induction n as [|n IH]; [done|].
  cbn [replicate list_fmap zip_with foldr].
  change (v_eq (VInt 1) (VInt 1)) with true.
  change (v_ne (VFloat (to_float (VInt 1))) (VInt 1)) with false.
  cbn [andb Z.b2z]. exact IH.
Qed.

(** C1: the flag of an hour is raised by the transition count of any column
    of the table.  On [fan_toggle_frame] the four mode columns count no
    transition at all, the fan-speed column counts two, and with
    [delta_os_max = 1] the hour is flagged. *)
Theorem fc4_flag_counts_every_column :
  ∃ st hourly,
    apply (fc4_config 1) 0%nat [fan_toggle_frame] = (Ok 2%nat, st) ∧
    st !! 2%nat = Some hourly ∧
    index hourly = [0] ∧
    get_col (columns hourly) "heating_mode" = Some [VInt 0] ∧
    get_col (columns hourly) "econ_only_cooling_mode" = Some [VInt 0] ∧
    get_col (columns hourly) "econ_plus_mech_cooling_mode" = Some [VInt 0] ∧
    get_col (columns hourly) "mech_cooling_only_mode" = Some [VInt 0] ∧
    get_col (columns hourly) "supply_vfd_speed" = Some [VInt 2] ∧
    get_col (columns hourly) "fc4_flag" = Some [VInt 1].
Proof.
  do 2 eexists. split; [vm_compute; reflexivity|].
  split; [vm_compute; reflexivity|].
  repeat split; vm_compute; reflexivity.
Qed.

(** C2: the count of an hour is taken on the rows of that hour alone.  On
    [steady_heating_frame] the unit is in heating mode on all four rows of
    two consecutive hours; the second hour still counts one entry into
    heating mode, although the row before its first row is in heating mode
    too. *)
Theorem fc4_count_restarts_each_hour :
  ∃ st caller hourly,
    apply (fc4_config 7) 0%nat [steady_heating_frame] = (Ok 2%nat, st) ∧
    st !! 0%nat = Some caller ∧
    index caller = [0; 1800; 3600; 5400] ∧
    get_col (columns caller) "heating_mode"
      = Some [VBool true; VBool true; VBool true; VBool true] ∧
    st !! 2%nat = Some hourly ∧
    index hourly = [0; 3600] ∧
    get_col (columns hourly) "heating_mode" = Some [VInt 1; VInt 1].
Proof.
  do 3 eexists. split; [vm_compute; reflexivity|].
  split; [vm_compute; reflexivity|].
  split; [vm_compute; reflexivity|].
  split; [vm_compute; reflexivity|].
  split; [vm_compute; reflexivity|].
  split; vm_compute; reflexivity.
Qed.

(** * Further properties of [FaultConditionFour.apply] *)

(** ** The hourly count *)

Lemma edges_step (p v : value) (x : Series) :
  s_and (s_eq_c (v :: x) (VInt 1))
        (s_ne_c (p :: ((λ v, VFloat (to_float v)) <$> removelast (v :: x))) (VInt 1))
  = (v_eq v (VInt 1) && v_ne p (VInt 1))
      :: s_and (s_eq_c x (VInt 1))
           (s_ne_c (VFloat (to_float v) :: ((λ v, VFloat (to_float v)) <$> removelast x))
                   (VInt 1)).
Proof.
  destruct x as [|w x]; [reflexivity|].
  change (removelast (v :: w :: x)) with (v :: removelast (w :: x)).
  reflexivity.
Qed.

Lemma edges_entries (p : value) (x : Series) :
  sum_bool
    (s_and (s_eq_c x (VInt 1))
       (s_ne_c (p :: ((λ v, VFloat (to_float v)) <$> removelast x)) (VInt 1)))
  = entries (v_eq p (VInt 1)) x.
Proof.
  revert p. induction x as [|v x IH]; intros p; [reflexivity|].
  rewrite edges_step. cbn [sum_bool foldr entries].
  fold (sum_bool (s_and (s_eq_c x (VInt 1))
         (s_ne_c (VFloat (to_float v) :: ((λ v, VFloat (to_float v)) <$> removelast x))
                 (VInt 1)))).
  rewrite IH. reflexivity.
Qed.

Lemma entries_bounds (prev : bool) (x : Series) :
  (0 ≤ entries prev x)%Z ∧
  (2 * entries prev x ≤ Z.of_nat (length x) + Z.b2z (negb prev))%Z.
Proof.
  revert prev. induction x as [|v x IH]; intros prev; simpl entries.
  - destruct prev; simpl; lia.
  - destruct (IH (v_eq v (VInt 1))) as [H0 H1].
    rewrite length_cons.
    destruct (v_eq v (VInt 1)), prev; simpl in *; lia.
Qed.

Lemma rising_edges_bounds (x : Series) :
  ∃ c, rising_edges x = VInt c ∧ (0 ≤ c)%Z ∧ (2 * c ≤ Z.of_nat (length x) + 1)%Z.
Proof.
  exists (entries false x). split; [|apply (entries_bounds false x)].
  unfold rising_edges. destruct x as [|v x]; [reflexivity|].
  unfold shift. f_equal. apply (edges_entries (VFloat NaN)).
Qed.

(** X19: the vectorised count [(x.eq(1) & x.shift().ne(1)).sum()] is the
    number of entries into 1 within the rows it is given, the first row
    counting whenever it is 1; so a column cannot enter a state more often
    than every other row: the count of [n] rows lies between 0 and
    (n + 1) / 2. *)
Theorem rising_edges_entries (x : Series) :
  rising_edges x = VInt (entries false x) ∧
  (0 ≤ entries false x)%Z ∧
  (2 * entries false x ≤ Z.of_nat (length x) + 1)%Z.
Proof.
  split; [|apply (entries_bounds false x)].
  unfold rising_edges. destruct x as [|v x]; [reflexivity|].
  unfold shift. f_equal. apply (edges_entries (VFloat NaN)).
Qed.

(** ** Running [apply] *)

Lemma validate_each_Ok_read self df :
  validate_each df (columns_to_check self) = Ok tt →
  ∃ sig, read_signals self df = Ok sig.
Proof.
  unfold columns_to_check, validate_each, check_analog_pct_frame, read_signals.
  intros H.
  destruct (getitem df (economizer_sig_col self)) as [e|]; [|done].
  simpl in H. destruct (negb (forallb is_float e)); [done|].
  destruct (existsb outside_unit_interval e); [done|]. simpl in H.
  destruct (getitem df (heating_sig_col self)) as [h|]; [|done].
  simpl in H. destruct (negb (forallb is_float h)); [done|].
  destruct (existsb outside_unit_interval h); [done|]. simpl in H.
  destruct (getitem df (cooling_sig_col self)) as [c|]; [|done].
  simpl in H. destruct (negb (forallb is_float c)); [done|].
  destruct (existsb outside_unit_interval c); [done|]. simpl in H.
  destruct (getitem df (supply_vfd_speed_col self)) as [f|]; [|done].
  by eexists.
Qed.

(** Once validation has passed and the mode columns are assigned, the outcome
    of [apply] is decided by the cast: either it raises, and the caller's
    frame keeps the mode columns, or the hourly frame is built. *)
Lemma apply_run self l st df df4 :
  st !! l = Some df →
  validate_each df (columns_to_check self) = Ok tt →
  mode_frame self df = Ok df4 →
  apply self l st =
  match astype_int_frame df4 with
  | Ok d2 => (Ok (S (length st)), <[l := df4]> st ++ [d2; hourly_frame self d2])
  | Raise e => (Raise e, <[l := df4]> st)
  end.
Proof.
  intros Hl Hv Hm. unfold apply.
  erewrite bind_Ok; cycle 1.
  { destruct (troubleshoot_mode self); [by apply (troubleshoot_cols_eq _ _ _ Hl)|done]. }
  erewrite bind_Ok; [|by rewrite (for_each_check_eq _ _ _ _ Hl), Hv].
  erewrite bind_Ok; [|by apply (set_mode_columns_Ok _ _ _ _ _ Hl Hm)].
  pose proof (lookup_insert_store st l df df4 Hl) as Hl1.
  unfold astype_int.
  destruct (astype_int_frame df4) as [d2|e] eqn:Hc.
  - erewrite bind_Ok; cycle 1.
    { rewrite (bind_Ok _ _ _ _ _ (deref_Some _ _ _ Hl1)).
      unfold lift. rewrite Hc. unfold mbind at 1, M_bind. reflexivity. }
    assert ((<[l := df4]> st ++ [d2]) !! length (<[l := df4]> st) = Some d2) as Hl2.
    { by rewrite list_lookup_middle. }
    erewrite bind_Ok; cycle 1.
    { unfold resample_h_apply.
      rewrite (bind_Ok _ _ _ _ _ (deref_Some _ _ _ Hl2)). reflexivity. }
    set (r := resample_h_apply_frame rising_edges d2).
    assert (((<[l := df4]> st ++ [d2]) ++ [r]) !! length (<[l := df4]> st ++ [d2])
            = Some r) as Hl3.
    { by rewrite list_lookup_middle. }
    erewrite bind_Ok; cycle 1.
    { unfold set_fc4_flag.
      rewrite (bind_Ok _ _ _ _ _ (deref_Some _ _ _ Hl3)).
      by rewrite (df_set_eq _ _ _ _ _ Hl3). }
    unfold mret, M_ret. f_equal.
    + rewrite length_app, length_insert. simpl. f_equal. lia.
    + rewrite insert_app_r_alt by lia. rewrite Nat.sub_diag. simpl.
      by rewrite <- app_assoc.
  - erewrite bind_Raise; [done|].
    rewrite (bind_Ok _ _ _ _ _ (deref_Some _ _ _ Hl1)).
    unfold lift. rewrite Hc. unfold mbind at 1, M_bind. reflexivity.
Qed.

(** ** Shape of the cast frame and of the hourly frame *)

Lemma mapM_result_length {A B} (f : A → result B) (l : list A) (k : list B) :
  mapM f l = Ok k → length k = length l.
Proof.
  revert k. induction l as [|x l IH]; intros k; simpl.
  - by intros [= <-].
  - destruct (f x) as [y|]; simpl; [|done].
    destruct (mapM f l) as [k'|] eqn:E; simpl; [|done].
    intros [= <-]. simpl. f_equal. by apply IH.
Qed.

Lemma mapM_result_lookup {A B} (f : A → result B) (l : list A) (k : list B) i x :
  mapM f l = Ok k → l !! i = Some x → ∃ y, f x = Ok y ∧ k !! i = Some y.
Proof.
  revert k i. induction l as [|a l IH]; intros k i; simpl; [done|].
  destruct (f a) as [b|] eqn:Ea; simpl; [|done].
  destruct (mapM f l) as [k'|] eqn:E; simpl; [|done].
  intros [= <-]. destruct i as [|i]; simpl.
  - intros [= <-]. by exists b.
  - intros Hi. by apply (IH k' i).
Qed.

Lemma astype_int_frame_index df d :
  astype_int_frame df = Ok d → index d = index df.
Proof.
  unfold astype_int_frame. destruct (mapM astype_int_col (columns df)); [|done].
  by intros [= <-].
Qed.

Lemma existsb_fmap {A B} (p : B → bool) (g : A → B) (l : list A) :
  existsb p (g <$> l) = existsb (λ a, p (g a)) l.
Proof.
  induction l as [|a l IH]; [done|].
  rewrite fmap_cons. cbn [existsb]. by rewrite IH.
Qed.

Lemma existsb_ext_in {A} (p q : A → bool) (l : list A) :
  (∀ a, a ∈ l → p a = q a) → existsb p l = existsb q l.
Proof.
  induction l as [|a l IH]; intros H; simpl; [done|].
  rewrite (H a) by apply list_elem_of_here.
  rewrite IH; [done|]. intros b Hb. apply H. by apply list_elem_of_further.
Qed.

Lemma resample_index f d :
  index (resample_h_apply_frame f d) = (λ h, h * 3600) <$> hour_bins (index d).
Proof. reflexivity. Qed.

Lemma get_col_fmap (g : Series → Series) cs name :
  get_col ((λ c : string * Series, (c.1, g c.2)) <$> cs) name = g <$> get_col cs name.
Proof.
  induction cs as [|[n s] cs IH]; simpl; [done|].
  destruct (decide (n = name)); [done|apply IH].
Qed.

(** The flag of the [i]-th hour, read on the cast frame [d]. *)
Lemma hourly_flag_lookup self d i h :
  hour_bins (index d) !! i = Some h →
  get_col (columns (hourly_frame self d)) "fc4_flag"
  = Some (bool_astype_int
            (gt_any_axis1 (resample_h_apply_frame rising_edges d)
               (VFloat (Fin (delta_os_max self))))) ∧
  bool_astype_int
    (gt_any_axis1 (resample_h_apply_frame rising_edges d)
       (VFloat (Fin (delta_os_max self)))) !! i
  = Some (VInt (Z.b2z
       (existsb (λ c : string * Series,
                   v_gt (rising_edges (bucket h (index d) c.2))
                        (VFloat (Fin (delta_os_max self))))
                (columns d)))).
Proof.
  intros Hb. split.
  { unfold hourly_frame; simpl. by rewrite get_col_set_col_eq. }
  unfold bool_astype_int, gt_any_axis1.
  rewrite !list_lookup_fmap.
  rewrite lookup_seq_lt; cycle 1.
  { rewrite resample_index, length_fmap. by eapply lookup_lt_Some. }
  simpl. do 3 f_equal.
  unfold resample_h_apply_frame; simpl. rewrite existsb_fmap.
  apply existsb_ext_in. intros [n s] _. simpl.
  by rewrite list_lookup_fmap, Hb.
Qed.

(** ** What a successful run returns *)

Lemma apply_Ok_frames self l st df l' st' :
  st !! l = Some df →
  apply self l st = (Ok l', st') →
  ∃ df4 d,
    validate_each df (columns_to_check self) = Ok tt ∧
    mode_frame self df = Ok df4 ∧
    astype_int_frame df4 = Ok d ∧
    index d = index df ∧
    st' !! l = Some df4 ∧
    st' !! l' = Some (hourly_frame self d).
Proof.
  intros Hl Happ.
  destruct (apply_Ok_inv _ _ _ _ _ _ Hl Happ) as (df4 & d & Hv & Hm & Hc & -> & ->).
  pose proof (lookup_lt_Some _ _ _ Hl) as Hlt.
  exists df4, d. split; [done|]. split; [done|]. split; [done|]. split.
  { rewrite (astype_int_frame_index _ _ Hc).
    by destruct (mode_frame_shape _ _ _ Hm) as [-> _]. }
  split.
  - rewrite lookup_app_l by (rewrite length_insert; lia).
    by eapply lookup_insert_store.
  - rewrite lookup_app_r by (rewrite length_insert; lia).
    rewrite length_insert.
    by replace (S (length st) - length st)%nat with 1%nat by lia.
Qed.

(** X1: for a table whose timestamps never go back, an hour of the returned
    table is flagged exactly when some column of the caller's table, cast to
    int, enters the value 1 more than [delta_os_max] times within that hour;
    the column may be a mode column or any other column of the table. *)
Theorem fc4_flag_any_column self l st df l' st' i h :
  st !! l = Some df →
  is_monotonic_increasing (index df) = true →
  apply self l st = (Ok l', st') →
  hour_bins (index df) !! i = Some h →
  ∃ df' d hourly flags b,
    st' !! l = Some df' ∧ astype_int_frame df' = Ok d ∧
    st' !! l' = Some hourly ∧
    get_col (columns hourly) "fc4_flag" = Some flags ∧
    flags !! i = Some (VInt (Z.b2z b)) ∧
    (b = true ↔
     ∃ name s, (name, s) ∈ columns d ∧
       v_gt (rising_edges (bucket h (index df) s))
            (VFloat (Fin (delta_os_max self))) = true).
Proof.
  intros Hl _ Happ Hb.
  destruct (apply_Ok_frames _ _ _ _ _ _ Hl Happ)
    as (df4 & d & _ & _ & Hc & Hidx & Hl4 & Hh).
  rewrite <- Hidx in Hb.
  destruct (hourly_flag_lookup self d i h Hb) as [Hflag Hi].
  eexists df4, d, _, _, _.
  split; [done|]. split; [done|]. split; [done|]. split; [exact Hflag|].
  split; [exact Hi|].
  rewrite <- Hidx. split.
  - intros ([name s] & Hin & Hv)%existsb_exists.
    exists name, s. split; [by apply list_elem_of_In|done].
  - intros (name & s & Hin & Hv). apply existsb_exists.
    exists (name, s). split; [by apply list_elem_of_In|done].
Qed.

Lemma fc4_flag_any_column_witness :
  ∃ df' d hourly flags b,
    (apply (fc4_config 1) 0%nat [fan_toggle_frame]).2 !! 0%nat = Some df' ∧
    astype_int_frame df' = Ok d ∧
    (apply (fc4_config 1) 0%nat [fan_toggle_frame]).2 !! 2%nat = Some hourly ∧
    get_col (columns hourly) "fc4_flag" = Some flags ∧
    flags !! 0%nat = Some (VInt (Z.b2z b)) ∧
    (b = true ↔
     ∃ name s, (name, s) ∈ columns d ∧
       v_gt (rising_edges (bucket 0 (index fan_toggle_frame) s))
            (VFloat (Fin (delta_os_max (fc4_config 1)))) = true).
Proof.
  apply (fc4_flag_any_column (fc4_config 1) 0%nat [fan_toggle_frame]
           fan_toggle_frame 2%nat
           (apply (fc4_config 1) 0%nat [fan_toggle_frame]).2 0%nat 0).
  - reflexivity.
  - reflexivity.
  - vm_compute. reflexivity.
  - reflexivity.
Defined.

Lemma bucket_length h idx (s : Series) :
  (length (bucket h idx s) ≤ rows_in_hour h idx)%nat.
Proof.
  unfold rows_in_hour. revert s. induction idx as [|t idx IH]; intros s; [done|].
  destruct s as [|v s]; simpl; [lia|].
  rewrite filter_cons. destruct (decide (hour_of t = h)); simpl.
  - specialize (IH s). lia.
  - apply IH.
Qed.

Lemma v_gt_int_delta (c : Z) (delta : Q) :
  v_gt (VInt c) (VFloat (Fin delta)) = true ↔ (delta < inject_Z c)%Q.
Proof. unfold v_gt, fgt; simpl. apply Qlt_bool_iff. Qed.

(** X2: an hour can only be flagged if it holds enough rows: a flagged hour
    has more than [2 * delta_os_max - 1] rows, since a column enters a state
    at most once every other row. *)
Theorem fc4_flag_needs_rows self l st df l' st' hourly flags i h :
  st !! l = Some df →
  apply self l st = (Ok l', st') →
  hour_bins (index df) !! i = Some h →
  st' !! l' = Some hourly →
  get_col (columns hourly) "fc4_flag" = Some flags →
  flags !! i = Some (VInt 1) →
  (2 * delta_os_max self < inject_Z (Z.of_nat (rows_in_hour h (index df))) + 1)%Q.
Proof.
  intros Hl Happ Hb Hh Hf Hi.
  destruct (apply_Ok_frames _ _ _ _ _ _ Hl Happ)
    as (df4 & d & _ & _ & Hc & Hidx & Hl4 & Hh').
  rewrite Hh in Hh'. injection Hh' as ->.
  rewrite <- Hidx in Hb.
  destruct (hourly_flag_lookup self d i h Hb) as [Hflag Hi'].
  rewrite Hf in Hflag. injection Hflag as ->.
  rewrite Hi in Hi'. injection Hi' as Hi'.
  destruct (existsb _ (columns d)) eqn:E; [|done].
  apply existsb_exists in E as ([name s] & _ & Hv). simpl in Hv.
  destruct (rising_edges_bounds (bucket h (index d) s)) as (c & Hc' & H0 & H1).
  rewrite Hc' in Hv. apply v_gt_int_delta in Hv.
  pose proof (bucket_length h (index d) s) as Hlen. rewrite <- Hidx.
  assert (2 * c ≤ Z.of_nat (rows_in_hour h (index d)) + 1)%Z as H2 by lia.
  rewrite Zle_Qle, inject_Z_plus, inject_Z_mult in H2.
  change (inject_Z 2) with 2%Q in H2. change (inject_Z 1) with 1%Q in H2.
  lra.
Qed.

Lemma fc4_flag_needs_rows_witness :
  (2 * delta_os_max (fc4_config 1)
   < inject_Z (Z.of_nat (rows_in_hour 0 (index fan_toggle_frame))) + 1)%Q.
Proof.
  eapply (fc4_flag_needs_rows (fc4_config 1) 0%nat [fan_toggle_frame]
            fan_toggle_frame 2%nat
            (apply (fc4_config 1) 0%nat [fan_toggle_frame]).2 _ [VInt 1] 0%nat 0).
  - reflexivity.
  - vm_compute. reflexivity.
  - reflexivity.
  - vm_compute. reflexivity.
  - vm_compute. reflexivity.
  - reflexivity.
Defined.

(** ** The hours of the returned table *)

Lemma foldr_min_spec t ts :
  foldr Z.min t ts ∈ t :: ts ∧ ∀ x, x ∈ t :: ts → (foldr Z.min t ts ≤ x)%Z.
Proof.
  induction ts as [|u ts [IHin IHle]]; simpl.
  - split; [apply list_elem_of_here|]. intros x ->%list_elem_of_singleton. lia.
  - split.
    + destruct (Z.min_spec u (foldr Z.min t ts)) as [[_ ->]|[_ ->]].
      * apply list_elem_of_further, list_elem_of_here.
      * apply elem_of_cons in IHin as [Heq|Hin].
        -- rewrite Heq. apply list_elem_of_here.
        -- by do 2 apply list_elem_of_further.
    + intros x Hx. apply elem_of_cons in Hx as [->|Hx].
      * specialize (IHle t (list_elem_of_here _ _)). lia.
      * apply elem_of_cons in Hx as [->|Hx]; [lia|].
        specialize (IHle x (list_elem_of_further _ _ _ Hx)). lia.
Qed.

Lemma foldr_max_spec t ts :
  foldr Z.max t ts ∈ t :: ts ∧ ∀ x, x ∈ t :: ts → (x ≤ foldr Z.max t ts)%Z.
Proof.
  induction ts as [|u ts [IHin IHle]]; simpl.
  - split; [apply list_elem_of_here|]. intros x ->%list_elem_of_singleton. lia.
  - split.
    + destruct (Z.max_spec u (foldr Z.max t ts)) as [[_ ->]|[_ ->]].
      * apply elem_of_cons in IHin as [Heq|Hin].
        -- rewrite Heq. apply list_elem_of_here.
        -- by do 2 apply list_elem_of_further.
      * apply list_elem_of_further, list_elem_of_here.
    + intros x Hx. apply elem_of_cons in Hx as [->|Hx].
      * specialize (IHle t (list_elem_of_here _ _)). lia.
      * apply elem_of_cons in Hx as [->|Hx]; [lia|].
        specialize (IHle x (list_elem_of_further _ _ _ Hx)). lia.
Qed.

Lemma hour_bins_span idx t_min t_max :
  t_min ∈ idx → t_max ∈ idx →
  (∀ t, t ∈ idx → (t_min ≤ t ≤ t_max)%Z) →
  hour_bins idx = seqZ (hour_of t_min) (hour_of t_max - hour_of t_min + 1).
Proof.
  intros Hmin Hmax Hall. destruct idx as [|t ts]; [by apply elem_of_nil in Hmin|].
  unfold hour_bins.
  destruct (foldr_min_spec t ts) as [Hin1 Hle1].
  destruct (foldr_max_spec t ts) as [Hin2 Hle2].
  assert (foldr Z.min t ts = t_min) as ->.
  { specialize (Hle1 _ Hmin). destruct (Hall _ Hin1). lia. }
  assert (foldr Z.max t ts = t_max) as ->.
  { specialize (Hle2 _ Hmax). destruct (Hall _ Hin2). lia. }
  done.
Qed.

(** X3: the returned table has one row per hour from the hour of the earliest
    timestamp to the hour of the latest one, whether or not the hour holds
    any row of the input; an empty input gives an empty table. *)
Theorem hourly_index_spans_hours self l st df l' st' hourly :
  st !! l = Some df →
  apply self l st = (Ok l', st') →
  st' !! l' = Some hourly →
  (index df = [] → index hourly = []) ∧
  (∀ t_min t_max,
     t_min ∈ index df → t_max ∈ index df →
     (∀ t, t ∈ index df → (t_min ≤ t ≤ t_max)%Z) →
     index hourly
     = (λ h, h * 3600) <$> seqZ (hour_of t_min) (hour_of t_max - hour_of t_min + 1)).
Proof.
  intros Hl Happ Hh.
  destruct (apply_Ok_frames _ _ _ _ _ _ Hl Happ)
    as (df4 & d & _ & _ & _ & Hidx & _ & Hh').
  rewrite Hh in Hh'. injection Hh' as ->.
  unfold hourly_frame; simpl. rewrite Hidx. split.
  - by intros ->.
  - intros t_min t_max Hmin Hmax Hall.
    by rewrite (hour_bins_span _ _ _ Hmin Hmax Hall).
Qed.

Lemma hourly_index_spans_hours_witness :
  (index gap_frame = [] →
   index (returned (apply (fc4_config 7) 0%nat [gap_frame])) = []) ∧
  (∀ t_min t_max,
     t_min ∈ index gap_frame → t_max ∈ index gap_frame →
     (∀ t, t ∈ index gap_frame → (t_min ≤ t ≤ t_max)%Z) →
     index (returned (apply (fc4_config 7) 0%nat [gap_frame]))
     = (λ h, h * 3600) <$> seqZ (hour_of t_min) (hour_of t_max - hour_of t_min + 1)).
Proof.
  apply (hourly_index_spans_hours (fc4_config 7) 0%nat [gap_frame] gap_frame
           2%nat (apply (fc4_config 7) 0%nat [gap_frame]).2
           (returned (apply (fc4_config 7) 0%nat [gap_frame]))).
  - reflexivity.
  - vm_compute. reflexivity.
  - vm_compute. reflexivity.
Defined.

Lemma bucket_nil h idx (s : Series) :
  rows_in_hour h idx = 0%nat → bucket h idx s = [].
Proof.
  intros H. pose proof (bucket_length h idx s) as Hlen. rewrite H in Hlen.
  destruct (bucket h idx s); [done|simpl in Hlen; lia].
Qed.

Lemma existsb_false {A} (p : A → bool) (l : list A) :
  (∀ a, a ∈ l → p a = false) → existsb p l = false.
Proof.
  induction l as [|a l IH]; intros H; simpl; [done|].
  rewrite (H a) by apply list_elem_of_here. simpl.
  apply IH. intros b Hb. apply H. by apply list_elem_of_further.
Qed.

(** X4: an hour that holds no row of the input still has a row in the
    returned table; every count of that row is 0, and the hour is not
    flagged unless [delta_os_max] is negative. *)
Theorem empty_hour_counts_zero self l st df l' st' hourly i h :
  st !! l = Some df →
  apply self l st = (Ok l', st') →
  st' !! l' = Some hourly →
  hour_bins (index df) !! i = Some h →
  rows_in_hour h (index df) = 0%nat →
  (∀ name s, name ≠ "fc4_flag" →
     get_col (columns hourly) name = Some s → s !! i = Some (VInt 0)) ∧
  ((0 <= delta_os_max self)%Q →
   ∃ flags, get_col (columns hourly) "fc4_flag" = Some flags ∧
            flags !! i = Some (VInt 0)).
Proof.
  intros Hl Happ Hh Hb Hrows.
  destruct (apply_Ok_frames _ _ _ _ _ _ Hl Happ)
    as (df4 & d & _ & _ & _ & Hidx & _ & Hh').
  rewrite Hh in Hh'. injection Hh' as ->.
  rewrite <- Hidx in Hb, Hrows. split.
  - intros name s Hne Hs. unfold hourly_frame in Hs; simpl in Hs.
    rewrite get_col_set_col_ne in Hs by done.
    unfold resample_h_apply_frame in Hs; simpl in Hs.
    rewrite (get_col_fmap
               (λ s0, (λ h0, rising_edges (bucket h0 (index d) s0))
                        <$> hour_bins (index d))) in Hs.
    destruct (get_col (columns d) name) as [s0|]; [|done].
    injection Hs as <-. rewrite list_lookup_fmap, Hb. simpl.
    by rewrite (bucket_nil _ _ _ Hrows).
  - intros Hdelta.
    destruct (hourly_flag_lookup self d i h Hb) as [Hflag Hi].
    eexists. split; [exact Hflag|]. rewrite Hi. do 2 f_equal.
    rewrite existsb_false; [done|]. intros [n s] _. simpl.
    rewrite (bucket_nil _ _ _ Hrows).
    change (rising_edges []) with (VInt 0).
    destruct (v_gt (VInt 0) (VFloat (Fin (delta_os_max self)))) eqn:E; [|done].
    apply v_gt_int_delta in E. change (inject_Z 0) with 0%Q in E. lra.
Qed.

Lemma empty_hour_counts_zero_witness :
  (∀ name s, name ≠ "fc4_flag" →
     get_col (columns (returned (apply (fc4_config 7) 0%nat [gap_frame]))) name
     = Some s → s !! 1%nat = Some (VInt 0)) ∧
  ((0 <= delta_os_max (fc4_config 7))%Q →
   ∃ flags,
     get_col (columns (returned (apply (fc4_config 7) 0%nat [gap_frame])))
       "fc4_flag" = Some flags ∧
     flags !! 1%nat = Some (VInt 0)).
Proof.
  apply (empty_hour_counts_zero (fc4_config 7) 0%nat [gap_frame] gap_frame
           2%nat (apply (fc4_config 7) 0%nat [gap_frame]).2
           (returned (apply (fc4_config 7) 0%nat [gap_frame])) 1%nat 1).
  - reflexivity.
  - vm_compute. reflexivity.
  - vm_compute. reflexivity.
  - reflexivity.
  - reflexivity.
Defined.

(** ** Missing readings *)

Lemma mapM_result_Raise {A B} (f : A → result B) (l : list A) e :
  mapM f l = Raise e → ∃ x, x ∈ l ∧ f x = Raise e.
Proof.
  induction l as [|a l IH]; simpl; [done|].
  destruct (f a) as [b|e0] eqn:Ea; simpl.
  - destruct (mapM f l) as [k|e1]; simpl; [done|].
    intros [= <-]. destruct (IH eq_refl) as (x & Hx & Hfx).
    exists x. split; [by apply list_elem_of_further|done].
  - intros [= <-]. exists a. split; [apply list_elem_of_here|done].
Qed.

Lemma astype_int1_error v e :
  astype_int1 v = Raise e → e = IntCastingNaNError.
Proof. destruct v as [[q| | |]|z|b]; simpl; try done; by intros [= <-]. Qed.

Lemma astype_int_col_error c e :
  astype_int_col c = Raise e → e = IntCastingNaNError.
Proof.
  unfold astype_int_col.
  destruct (mapM astype_int1 c.2) as [k|e0] eqn:E; simpl; [done|].
  intros [= <-]. apply mapM_result_Raise in E as (v & _ & Hv).
  by eapply astype_int1_error.
Qed.

Lemma mapM_result_Ok_all {A B} (f : A → result B) (l : list A) k x :
  mapM f l = Ok k → x ∈ l → ∃ y, f x = Ok y.
Proof.
  intros Hk Hx. apply list_elem_of_lookup in Hx as [i Hi].
  destruct (mapM_result_lookup f l k i x Hk Hi) as (y & Hy & _). by exists y.
Qed.

Lemma astype_int1_nonfinite f :
  is_finite f = false → astype_int1 (VFloat f) = Raise IntCastingNaNError.
Proof. by destruct f. Qed.

Lemma astype_int_frame_nonfinite df name s i f :
  (name, s) ∈ columns df → s !! i = Some (VFloat f) → is_finite f = false →
  astype_int_frame df = Raise IntCastingNaNError.
Proof.
  intros Hin Hs Hf. unfold astype_int_frame.
  destruct (mapM astype_int_col (columns df)) as [cs|e] eqn:E; simpl.
  - exfalso.
    destruct (mapM_result_Ok_all _ _ _ _ E Hin) as [[n' s'] Hc].
    unfold astype_int_col in Hc; simpl in Hc.
    destruct (mapM astype_int1 s) as [k|] eqn:Ek; [|done].
    destruct (mapM_result_lookup _ _ _ _ _ Ek Hs) as (y & Hy & _).
    by rewrite (astype_int1_nonfinite _ Hf) in Hy.
  - apply mapM_result_Raise in E as (c & _ & Hc).
    by rewrite (astype_int_col_error _ _ Hc).
Qed.

Lemma elem_of_set_col_ne cs name s n s' :
  (name, s) ∈ cs → name ≠ n → (name, s) ∈ set_col cs n s'.
Proof.
  intros Hin Hne. induction cs as [|[m t] cs IH]; [by apply elem_of_nil in Hin|].
  simpl. apply elem_of_cons in Hin as [Heq|Hin].
  - injection Heq as <- <-. rewrite decide_False by done. apply list_elem_of_here.
  - destruct (decide (m = n)); apply list_elem_of_further; [done|by apply IH].
Qed.

Lemma mode_frame_keeps_column self df df4 name s :
  mode_frame self df = Ok df4 → name ∉ mode_columns →
  (name, s) ∈ columns df → (name, s) ∈ columns df4.
Proof.
  unfold mode_frame. intros Hm Hn Hin.
  destruct (assign_frame self (heating_mode_of self) "heating_mode" df)
    as [df1|] eqn:E1; simpl in Hm; [|done].
  destruct (assign_frame self (econ_only_cooling_mode_of self)
              "econ_only_cooling_mode" df1) as [df2|] eqn:E2; simpl in Hm; [|done].
  destruct (assign_frame self (econ_plus_mech_cooling_mode_of self)
              "econ_plus_mech_cooling_mode" df2) as [df3|] eqn:E3; simpl in Hm; [|done].
  apply assign_frame_inv in E1 as (h1 & c1 & f1 & e1 & _ & ->).
  apply assign_frame_inv in E2 as (h2 & c2 & f2 & e2 & _ & ->).
  apply assign_frame_inv in E3 as (h3 & c3 & f3 & e3 & _ & ->).
  apply assign_frame_inv in Hm as (h4 & c4 & f4 & e4 & _ & ->).
  simpl. repeat apply elem_of_set_col_ne; try done;
    intros ->; apply Hn; in_list.
Qed.

(** X5: a reading that is NaN or infinite, in any column of the table other
    than the four mode columns, makes [apply] raise at the cast to int, once
    validation has passed; by then the four mode columns have been assigned
    into the caller's table. *)
Theorem apply_raises_on_nonfinite self l st df name s i f :
  st !! l = Some df →
  validate_each df (columns_to_check self) = Ok tt →
  (name, s) ∈ columns df → name ∉ mode_columns →
  s !! i = Some (VFloat f) → is_finite f = false →
  ∃ df4, mode_frame self df = Ok df4 ∧
         apply self l st = (Raise IntCastingNaNError, <[l := df4]> st).
Proof.
  intros Hl Hv Hin Hn Hs Hf.
  destruct (validate_each_Ok_read _ _ Hv) as [sig Hsig].
  destruct (mode_frame_total _ _ _ Hsig) as [df4 Hm].
  exists df4. split; [done|].
  rewrite (apply_run _ _ _ _ _ Hl Hv Hm).
  pose proof (mode_frame_keeps_column _ _ _ _ _ Hm Hn Hin) as Hin4.
  by rewrite (astype_int_frame_nonfinite _ _ _ _ _ Hin4 Hs Hf).
Qed.

Lemma apply_raises_on_nonfinite_witness :
  ∃ df4, mode_frame (fc4_config 7) sensor_dropout_frame = Ok df4 ∧
         apply (fc4_config 7) 0%nat [sensor_dropout_frame]
         = (Raise IntCastingNaNError, <[0%nat := df4]> [sensor_dropout_frame]).
Proof.
  apply (apply_raises_on_nonfinite (fc4_config 7) 0%nat [sensor_dropout_frame]
           sensor_dropout_frame "oat" [VFloat (Fin 55); VFloat NaN] 1 NaN).
  - reflexivity.
  - reflexivity.
  - unfold sensor_dropout_frame; simpl. do 4 apply list_elem_of_further.
    apply list_elem_of_here.
  - unfold mode_columns. intros H.
    repeat (apply elem_of_cons in H as [H|H]; [discriminate H|]).
    by apply elem_of_nil in H.
  - reflexivity.
  - reflexivity.
Defined.

(** ** What [apply] leaves alone *)

Lemma apply_dangling self l st :
  st !! l = None → apply self l st = (Raise InvalidReference, st).
Proof.
  intros Hl. unfold apply.
  assert (deref l st = (Raise InvalidReference, st)) as Hd.
  { unfold deref. by rewrite Hl. }
  destruct (troubleshoot_mode self).
  - erewrite bind_Raise; [done|]. unfold troubleshoot_cols.
    by erewrite bind_Raise.
  - erewrite bind_Ok; [|reflexivity].
    erewrite bind_Raise; [done|].
    unfold columns_to_check. cbn [for_each].
    erewrite bind_Raise; [done|]. unfold check_analog_pct.
    by erewrite bind_Raise.
Qed.

Lemma apply_validation_error self l st df e :
  st !! l = Some df →
  validate_each df (columns_to_check self) = Raise e →
  apply self l st = (Raise e, st).
Proof.
  intros Hl Hv. unfold apply.
  erewrite bind_Ok; cycle 1.
  { destruct (troubleshoot_mode self); [by apply (troubleshoot_cols_eq _ _ _ Hl)|done]. }
  erewrite bind_Raise; [done|].
  by rewrite (for_each_check_eq _ _ _ _ Hl), Hv.
Qed.

(** X6: whatever its outcome, [apply] changes no table of the store other
    than the one it is given, and removes none. *)
Theorem apply_touches_only_caller self l st r st' k :
  apply self l st = (r, st') →
  k ≠ l → (k < length st)%nat →
  st' !! k = st !! k ∧ (length st ≤ length st')%nat.
Proof.
  intros Happ Hk Hlt.
  destruct (st !! l) as [df|] eqn:Hl.
  - destruct (validate_each df (columns_to_check self)) as [[]|e] eqn:Hv.
    + destruct (validate_each_Ok_read _ _ Hv) as [sig Hsig].
      destruct (mode_frame_total _ _ _ Hsig) as [df4 Hm].
      rewrite (apply_run _ _ _ _ _ Hl Hv Hm) in Happ.
      destruct (astype_int_frame df4) as [d|e]; injection Happ as <- <-.
      * rewrite length_app, length_insert. split; [|lia].
        rewrite lookup_app_l by (rewrite length_insert; lia).
        by rewrite list_lookup_insert_ne.
      * rewrite length_insert. split; [|lia]. by rewrite list_lookup_insert_ne.
    + rewrite (apply_validation_error _ _ _ _ _ Hl Hv) in Happ.
      by injection Happ as <- <-.
  - rewrite (apply_dangling _ _ _ Hl) in Happ. by injection Happ as <- <-.
Qed.

Lemma apply_touches_only_caller_witness :
  (apply (fc4_config 7) 1%nat [gap_frame; steady_heating_frame]).2 !! 0%nat
  = [gap_frame; steady_heating_frame] !! 0%nat ∧
  (length [gap_frame; steady_heating_frame]
   ≤ length (apply (fc4_config 7) 1%nat [gap_frame; steady_heating_frame]).2)%nat.
Proof.
  apply (apply_touches_only_caller (fc4_config 7) 1%nat
           [gap_frame; steady_heating_frame]
           (apply (fc4_config 7) 1%nat [gap_frame; steady_heating_frame]).1
           (apply (fc4_config 7) 1%nat [gap_frame; steady_heating_frame]).2 0%nat).
  - vm_compute. reflexivity.
  - discriminate.
  - simpl. lia.
Defined.

(** ** Running the rule again *)

Lemma set_col_same cs name s :
  get_col cs name = Some s → set_col cs name s = cs.
Proof.
  induction cs as [|[n s'] cs IH]; simpl; [done|].
  destruct (decide (n = name)) as [->|Hne].
  - by intros [= ->].
  - intros H. by rewrite IH.
Qed.

Lemma setitem_same df name s :
  get_col (columns df) name = Some s → setitem df name s = df.
Proof.
  intros H. unfold setitem. rewrite (set_col_same _ _ _ H). by destruct df.
Qed.

Lemma check_analog_pct_frame_ext df df' cols :
  (∀ c, c ∈ cols → getitem df c = getitem df' c) →
  check_analog_pct_frame df cols = check_analog_pct_frame df' cols.
Proof.
  induction cols as [|c cols IH]; intros H; simpl; [done|].
  rewrite (H c) by apply list_elem_of_here.
  destruct (getitem df' c) as [s|]; simpl; [|done].
  destruct (negb (forallb is_float s)); [done|].
  destruct (existsb outside_unit_interval s); [done|].
  apply IH. intros c' Hc'. apply H. by apply list_elem_of_further.
Qed.

Lemma validate_each_ext df df' cols :
  (∀ c, c ∈ cols → getitem df c = getitem df' c) →
  validate_each df cols = validate_each df' cols.
Proof.
  induction cols as [|c cols IH]; intros H; [done|]. cbn [validate_each].
  rewrite (check_analog_pct_frame_ext df df' [c]); cycle 1.
  { intros c' ->%list_elem_of_singleton. apply H, list_elem_of_here. }
  rewrite IH; [done|]. intros c' Hc'. apply H. by apply list_elem_of_further.
Qed.

Lemma mode_frame_getitem self df df4 c :
  mode_frame self df = Ok df4 → c ∉ mode_columns → getitem df4 c = getitem df c.
Proof.
  intros Hm Hc. destruct (mode_frame_shape _ _ _ Hm) as (_ & Hother & _).
  unfold getitem. by rewrite (Hother c Hc).
Qed.

(** Assigning the mode columns a second time changes nothing. *)
Lemma mode_frame_again self df df4 :
  signals_apart self → mode_frame self df = Ok df4 → mode_frame self df4 = Ok df4.
Proof.
  intros Hs Hm.
  destruct (read_signals self df) as [[[[h c] f] e]|err] eqn:Hr; cycle 1.
  { unfold mode_frame, assign_frame in Hm. by rewrite Hr in Hm. }
  pose proof Hm as Hm'. rewrite (mode_frame_apart _ _ _ _ _ _ Hs Hr) in Hm'.
  injection Hm' as Hdf4.
  assert (read_signals self df4 = Ok (h, c, f, e)) as Hr4.
  { apply read_signals_inv in Hr as (Hh & Hc & Hf & He).
    pose proof Hs as Hs'. unfold signals_apart, columns_to_check in Hs'.
    apply Forall_cons in Hs' as [He' Hs']. apply Forall_cons in Hs' as [Hh' Hs'].
    apply Forall_cons in Hs' as [Hc' Hs']. apply Forall_cons in Hs' as [Hf' _].
    apply read_signals_intro; by rewrite (mode_frame_getitem _ _ _ _ Hm). }
  rewrite (mode_frame_apart _ _ _ _ _ _ Hs Hr4). f_equal.
  assert (get_col (columns df4) "heating_mode" = Some (heating_mode_of self h c f e)) as G1.
  { rewrite <- Hdf4. simpl. rewrite !get_col_set_col_ne by done.
    apply get_col_set_col_eq. }
  assert (get_col (columns df4) "econ_only_cooling_mode"
          = Some (econ_only_cooling_mode_of self h c f e)) as G2.
  { rewrite <- Hdf4. simpl. rewrite !get_col_set_col_ne by done.
    apply get_col_set_col_eq. }
  assert (get_col (columns df4) "econ_plus_mech_cooling_mode"
          = Some (econ_plus_mech_cooling_mode_of self h c f e)) as G3.
  { rewrite <- Hdf4. simpl. rewrite !get_col_set_col_ne by done.
    apply get_col_set_col_eq. }
  assert (get_col (columns df4) "mech_cooling_only_mode"
          = Some (mech_cooling_only_mode_of self h c f e)) as G4.
  { rewrite <- Hdf4. simpl. apply get_col_set_col_eq. }
  rewrite (setitem_same _ _ _ G1), (setitem_same _ _ _ G2),
    (setitem_same _ _ _ G3), (setitem_same _ _ _ G4). done.
Qed.

(** X7: the rule can be run again on the table it has already been run on:
    the second run succeeds, returns a new table equal to the first result,
    and leaves the caller's table as the first run left it. *)
Theorem apply_again_same_table self l st df l1 st1 :
  signals_apart self →
  st !! l = Some df →
  apply self l st = (Ok l1, st1) →
  ∃ l2 st2,
    apply self l st1 = (Ok l2, st2) ∧
    l2 ≠ l1 ∧ st2 !! l2 = st1 !! l1 ∧ st2 !! l = st1 !! l.
Proof.
  intros Hs Hl Happ.
  destruct (apply_Ok_frames _ _ _ _ _ _ Hl Happ)
    as (df4 & d & Hv & Hm & Hc & Hidx & Hl4 & Hh).
  destruct (apply_Ok_inv _ _ _ _ _ _ Hl Happ) as (df4' & d' & _ & Hm' & Hc' & -> & Hst1).
  rewrite Hm in Hm'. injection Hm' as <-. rewrite Hc in Hc'. injection Hc' as <-.
  assert (validate_each df4 (columns_to_check self) = Ok tt) as Hv4.
  { rewrite <- Hv. apply validate_each_ext. intros c Hc4.
    apply (mode_frame_getitem _ _ _ _ Hm).
    unfold signals_apart in Hs. rewrite Forall_forall in Hs. by apply Hs. }
  pose proof (mode_frame_again _ _ _ Hs Hm) as Hm4.
  pose proof (apply_run _ _ _ _ _ Hl4 Hv4 Hm4) as Hrun. rewrite Hc in Hrun.
  eexists _, _. split; [exact Hrun|].
  pose proof (lookup_lt_Some _ _ _ Hl) as Hlt.
  assert (length st1 = S (S (length st))) as Hlen.
  { rewrite Hst1, length_app, length_insert. simpl. lia. }
  pose proof (lookup_lt_Some _ _ _ Hl4) as Hlt4.
  split; [lia|]. split.
  - rewrite Hh. rewrite lookup_app_r by (rewrite length_insert; lia).
    rewrite length_insert.
    by replace (S (length st1) - length st1)%nat with 1%nat by lia.
  - rewrite lookup_app_l by (rewrite length_insert; lia).
    rewrite Hl4. by apply list_lookup_insert_eq.
Qed.

Lemma apply_again_same_table_witness :
  ∃ l2 st2,
    apply (fc4_config 7) 0%nat (apply (fc4_config 7) 0%nat [steady_heating_frame]).2
    = (Ok l2, st2) ∧
    l2 ≠ 2%nat ∧
    st2 !! l2 = (apply (fc4_config 7) 0%nat [steady_heating_frame]).2 !! 2%nat ∧
    st2 !! 0%nat = (apply (fc4_config 7) 0%nat [steady_heating_frame]).2 !! 0%nat.
Proof.
  apply (apply_again_same_table (fc4_config 7) 0%nat [steady_heating_frame]
           steady_heating_frame 2%nat
           (apply (fc4_config 7) 0%nat [steady_heating_frame]).2).
  - apply signals_apart_fc4_config.
  - reflexivity.
  - vm_compute. reflexivity.
Defined.

(** ** The threshold *)

Lemma v_gt_delta_mono (v : value) (d d' : Q) :
  (d <= d')%Q → v_gt v (VFloat (Fin d')) = true → v_gt v (VFloat (Fin d)) = true.
Proof.
  unfold v_gt, fgt; simpl. intros Hd.
  destruct (to_float v) as [q| | |]; simpl; try done.
  rewrite !Qlt_bool_iff. intros H. lra.
Qed.

Lemma existsb_impl {A} (p q : A → bool) (l : list A) :
  (∀ a, p a = true → q a = true) → existsb p l = true → existsb q l = true.
Proof.
  intros H. rewrite !existsb_exists. intros (a & Hin & Hp). exists a. auto.
Qed.

(** X8: raising [delta_os_max] can only clear flags: the run with the larger
    threshold succeeds on the same table with the same hours, and every hour
    it flags is flagged with the smaller threshold too. *)
Theorem raising_delta_clears_flags self delta' l st df l1 st1 hourly flags :
  (delta_os_max self <= delta')%Q →
  st !! l = Some df →
  apply self l st = (Ok l1, st1) →
  st1 !! l1 = Some hourly →
  get_col (columns hourly) "fc4_flag" = Some flags →
  ∃ st2 hourly' flags',
    apply (with_delta_os_max self delta') l st = (Ok l1, st2) ∧
    st2 !! l1 = Some hourly' ∧
    index hourly' = index hourly ∧
    get_col (columns hourly') "fc4_flag" = Some flags' ∧
    ∀ i, flags' !! i = Some (VInt 1) → flags !! i = Some (VInt 1).
Proof.
  intros Hd Hl Happ Hh Hf.
  destruct (apply_Ok_frames _ _ _ _ _ _ Hl Happ)
    as (df4 & d & Hv & Hm & Hc & Hidx & Hl4 & Hh').
  destruct (apply_Ok_inv _ _ _ _ _ _ Hl Happ) as (df4' & d' & _ & Hm' & Hc' & -> & Hst1).
  rewrite Hm in Hm'. injection Hm' as <-. rewrite Hc in Hc'. injection Hc' as <-.
  rewrite Hh in Hh'. injection Hh' as ->.
  pose proof (apply_run (with_delta_os_max self delta') l st df df4 Hl Hv Hm) as Hrun.
  rewrite Hc in Hrun.
  pose proof (lookup_lt_Some _ _ _ Hl) as Hlt.
  eexists _, (hourly_frame (with_delta_os_max self delta') d), _.
  split; [exact Hrun|]. split.
  { rewrite lookup_app_r by (rewrite length_insert; lia).
    rewrite length_insert.
    by replace (S (length st) - length st)%nat with 1%nat by lia. }
  split; [done|]. split.
  { unfold hourly_frame; simpl. by rewrite get_col_set_col_eq. }
  intros i Hi.
  assert (∃ h, hour_bins (index d) !! i = Some h) as [h Hb].
  { apply lookup_lt_is_Some_2. apply lookup_lt_Some in Hi.
    unfold bool_astype_int, gt_any_axis1 in Hi.
    rewrite !length_fmap, length_seq, resample_index, length_fmap in Hi. done. }
  destruct (hourly_flag_lookup self d i h Hb) as [Hflag Hi1].
  destruct (hourly_flag_lookup (with_delta_os_max self delta') d i h Hb) as [_ Hi2].
  rewrite Hf in Hflag. injection Hflag as ->.
  rewrite Hi1.
  assert (Some (VInt (Z.b2z
            (existsb (λ c : string * Series,
                        v_gt (rising_edges (bucket h (index d) c.2))
                             (VFloat (Fin (delta_os_max (with_delta_os_max self delta')))))
                     (columns d)))) = Some (VInt 1)) as Hi'.
  { rewrite <- Hi2. exact Hi. }
  injection Hi' as Hi'. do 2 f_equal.
  destruct (existsb _ (columns d)) eqn:E in Hi'; [|done].
  erewrite existsb_impl; [done| |exact E].
  intros [n s]. simpl. by apply v_gt_delta_mono.
Qed.

Lemma raising_delta_clears_flags_witness :
  ∃ st2 hourly' flags',
    apply (with_delta_os_max (fc4_config 1) 2) 0%nat [fan_toggle_frame]
    = (Ok 2%nat, st2) ∧
    st2 !! 2%nat = Some hourly' ∧
    index hourly' = index (returned (apply (fc4_config 1) 0%nat [fan_toggle_frame])) ∧
    get_col (columns hourly') "fc4_flag" = Some flags' ∧
    ∀ i, flags' !! i = Some (VInt 1) → [VInt 1] !! i = Some (VInt 1).
Proof.
  apply (raising_delta_clears_flags (fc4_config 1) 2 0%nat [fan_toggle_frame]
           fan_toggle_frame 2%nat
           (apply (fc4_config 1) 0%nat [fan_toggle_frame]).2
           (returned (apply (fc4_config 1) 0%nat [fan_toggle_frame]))
           [VInt 1]).
  - unfold Qle; simpl. lia.
  - reflexivity.
  - vm_compute. reflexivity.
  - vm_compute. reflexivity.
  - vm_compute. reflexivity.
Defined.

(** * Further properties of fault conditions two and three *)

(** X9: with non-negative tolerances a flag means what its name says: on a
    row of finite values FC3 is raised only when the mixed air is warmer
    than both the return air and the outside air, and FC2 only when it is
    colder than both. *)
Theorem fc23_flag_means_out_of_range df i (mat mix rat ret oat out : Q) f2 f3 :
  row_at df i = Some (finite_row mat mix rat ret oat out) →
  (0 <= mix)%Q → (0 <= ret)%Q → (0 <= out)%Q →
  fault_condition_two_ df = Ok f2 →
  fault_condition_three_ df = Ok f3 →
  (f3 !! i = Some (VBool true) → (rat < mat)%Q ∧ (oat < mat)%Q) ∧
  (f2 !! i = Some (VBool true) → (mat < rat)%Q ∧ (mat < oat)%Q).
Proof.
  intros Hrow Hmix Hret Hout E2 E3.
  destruct (fc23_lookup _ _ _ Hrow) as (g2 & g3 & G2 & G3 & L2 & L3).
  rewrite E2 in G2. rewrite E3 in G3. injection G2 as <-. injection G3 as <-.
  pose proof (Q.le_max_l (rat + ret) (oat + out)) as Hmax1.
  pose proof (Q.le_max_r (rat + ret) (oat + out)) as Hmax2.
  pose proof (Q.le_min_l (rat - ret) (oat - out)) as Hmin1.
  pose proof (Q.le_min_r (rat - ret) (oat - out)) as Hmin2.
  split; intros T.
  - rewrite T in L3. injection L3 as L3. symmetry in L3.
    apply fc3_cell_finite in L3. split; lra.
  - rewrite T in L2. injection L2 as L2. symmetry in L2.
    apply fc2_cell_finite in L2. split; lra.
Qed.

Lemma fc23_flag_means_out_of_range_witness :
  (bool_series [true] !! 0%nat = Some (VBool true) → (72 < 85)%Q ∧ (55 < 85)%Q) ∧
  (bool_series [false] !! 0%nat = Some (VBool true) → (85 < 72)%Q ∧ (85 < 55)%Q).
Proof.
  apply (fc23_flag_means_out_of_range scenario_A 0 85 5 72 2 55 5);
    first [reflexivity | (unfold Qle; simpl; lia)].
Defined.

(** X10: a mixed-air temperature that lies between the outside-air and the
    return-air temperature raises neither flag, whatever the non-negative
    tolerances. *)
Theorem mixed_air_between_no_flag df i (mat mix rat ret oat out : Q) :
  row_at df i = Some (finite_row mat mix rat ret oat out) →
  (0 <= mix)%Q → (0 <= ret)%Q → (0 <= out)%Q →
  (Qmin rat oat <= mat)%Q → (mat <= Qmax rat oat)%Q →
  ∃ f2 f3,
    fault_condition_two_ df = Ok f2 ∧ fault_condition_three_ df = Ok f3 ∧
    f2 !! i = Some (VBool false) ∧ f3 !! i = Some (VBool false).
Proof.
  intros Hrow Hmix Hret Hout Hlo Hhi.
  destruct (fc23_lookup _ _ _ Hrow) as (f2 & f3 & E2 & E3 & L2 & L3).
  exists f2, f3. split; [done|]. split; [done|]. rewrite L2, L3.
  pose proof (fc3_cell_finite mat mix rat ret oat out) as H3.
  pose proof (fc2_cell_finite mat mix rat ret oat out) as H2.
  split; do 2 f_equal.
  - apply (bool_false_iff _ _ H2). intros H.
    pose proof (Q.le_min_l (rat - ret) (oat - out)).
    pose proof (Q.le_min_r (rat - ret) (oat - out)).
    destruct (Q.min_spec rat oat) as [[_ Hm]|[_ Hm]]; rewrite Hm in Hlo; lra.
  - apply (bool_false_iff _ _ H3). intros H.
    pose proof (Q.le_max_l (rat + ret) (oat + out)).
    pose proof (Q.le_max_r (rat + ret) (oat + out)).
    destruct (Q.max_spec rat oat) as [[_ Hm]|[_ Hm]]; rewrite Hm in Hhi; lra.
Qed.

Lemma mixed_air_between_no_flag_witness :
  ∃ f2 f3,
    fault_condition_two_ scenario_B = Ok f2 ∧
    fault_condition_three_ scenario_B = Ok f3 ∧
    f2 !! 0%nat = Some (VBool false) ∧ f3 !! 0%nat = Some (VBool false).
Proof.
  apply (mixed_air_between_no_flag scenario_B 0 60 5 72 2 45 5);
    first [reflexivity | (vm_compute; discriminate)].
Defined.

(** X11: widening the tolerances can only clear flags: if two tables hold the
    same temperatures on a row and the second has tolerances at least as
    large, every flag raised on that row of the second table is raised on
    the first too. *)
Theorem wider_tolerances_clear_flags df df' i
    (mat rat oat mix ret out mix' ret' out' : Q) f2 f3 f2' f3' :
  row_at df i = Some (finite_row mat mix rat ret oat out) →
  row_at df' i = Some (finite_row mat mix' rat ret' oat out') →
  (mix <= mix')%Q → (ret <= ret')%Q → (out <= out')%Q →
  fault_condition_two_ df = Ok f2 → fault_condition_three_ df = Ok f3 →
  fault_condition_two_ df' = Ok f2' → fault_condition_three_ df' = Ok f3' →
  (f2' !! i = Some (VBool true) → f2 !! i = Some (VBool true)) ∧
  (f3' !! i = Some (VBool true) → f3 !! i = Some (VBool true)).
Proof.
  intros Hrow Hrow' Hmix Hret Hout E2 E3 E2' E3'.
  destruct (fc23_lookup _ _ _ Hrow) as (g2 & g3 & G2 & G3 & L2 & L3).
  rewrite E2 in G2. rewrite E3 in G3. injection G2 as <-. injection G3 as <-.
  destruct (fc23_lookup _ _ _ Hrow') as (g2 & g3 & G2 & G3 & L2' & L3').
  rewrite E2' in G2. rewrite E3' in G3. injection G2 as <-. injection G3 as <-.
  rewrite L2, L3. split; intros T; do 2 f_equal.
  - rewrite T in L2'. injection L2' as L2'. symmetry in L2'.
    apply fc2_cell_finite in L2'. apply fc2_cell_finite.
    apply Q.min_glb_lt_iff in L2' as [Ha Hb].
    apply Q.min_glb_lt; lra.
  - rewrite T in L3'. injection L3' as L3'. symmetry in L3'.
    apply fc3_cell_finite in L3'. apply fc3_cell_finite.
    apply Q.max_lub_lt_iff in L3' as [Ha Hb].
    apply Q.max_lub_lt; lra.
Qed.

Lemma wider_tolerances_clear_flags_witness :
  (bool_series [false] !! 0%nat = Some (VBool true) →
   bool_series [false] !! 0%nat = Some (VBool true)) ∧
  (bool_series [true] !! 0%nat = Some (VBool true) →
   bool_series [true] !! 0%nat = Some (VBool true)).
Proof.
  apply (wider_tolerances_clear_flags scenario_A scenario_A_wide 0
           85 72 55 5 2 5 10 2 5);
    first [reflexivity | (unfold Qle; simpl; lia)].
Defined.

(** * Properties of the script of [fc2_3.py] *)

(** ** Flags and report frame *)

(** With finite non-negative tolerances the two predicates exclude each other
    on every row, whatever the three temperatures are: finite, infinite or
    missing. *)
Lemma fc_cells_exclusive (mat rat oat : pyfloat) (mix ret out : Q) :
  (0 <= mix)%Q → (0 <= ret)%Q →
  fc2_cell (mkRow mat (Fin mix) rat (Fin ret) oat (Fin out))
  && fc3_cell (mkRow mat (Fin mix) rat (Fin ret) oat (Fin out)) = false.
Proof.
  intros Hmix Hret.
  destruct mat as [m| | |], rat as [r| | |], oat as [o| | |];
    try reflexivity;
    try (unfold fc2_cell, fc3_cell, fgt, np_minimum1, np_maximum1; simpl;
         repeat (match goal with
                 | |- context [Qlt_bool ?a ?b] => destruct (Qlt_bool a b); simpl
                 end);
         reflexivity).
  destruct (fc2_cell _) eqn:E2; [|done]. simpl.
  destruct (fc3_cell _) eqn:E3; [|done]. exfalso.
  apply (fc2_cell_finite m mix r ret o out) in E2.
  apply (fc3_cell_finite m mix r ret o out) in E3.
  pose proof (Q.le_max_l (r + ret) (o + out)).
  pose proof (Q.le_min_l (r - ret) (o - out)).
  lra.
Qed.

Lemma getitem_Ok df name s :
  getitem df name = Ok s ↔ get_col (columns df) name = Some s.
Proof.
  unfold getitem. destruct (get_col (columns df) name); split; congruence.
Qed.

Ltac six_columns H :=
  repeat match type of H with
  | context [getitem ?d ?c] =>
      let s := fresh "s" in let E := fresh "E" in
      destruct (getitem d c) as [s|] eqn:E; simpl in H; [|done];
      apply getitem_Ok in E
  end.

Ltac cells_of H :=
  unfold bool_series, s_lt, s_gt, s_add, s_sub, np_minimum, np_maximum in H;
  rewrite list_lookup_fmap in H;
  repeat match type of H with
  | context [zip_with ?f ?a ?b !! ?j] =>
      rewrite (lookup_zip_with f a b j) in H
  end.

Lemma fc23_lookup_inv df j :
  (∀ f2 v, fault_condition_two_ df = Ok f2 → f2 !! j = Some v →
     ∃ r, row_at df j = Some r ∧ v = VBool (fc2_cell r)) ∧
  (∀ f3 v, fault_condition_three_ df = Ok f3 → f3 !! j = Some v →
     ∃ r, row_at df j = Some r ∧ v = VBool (fc3_cell r)).
Proof.
  split; intros f v Hf Hv.
  - unfold fault_condition_two_ in Hf. six_columns Hf. injection Hf as <-.
    cells_of Hv.
    destruct (s !! j) as [mat|] eqn:L1; simpl in Hv; [|done].
    destruct (s0 !! j) as [mix|] eqn:L2; simpl in Hv; [|done].
    destruct (s1 !! j) as [rat|] eqn:L3; simpl in Hv; [|done].
    destruct (s2 !! j) as [ret|] eqn:L4; simpl in Hv; [|done].
    destruct (s3 !! j) as [oat|] eqn:L5; simpl in Hv; [|done].
    destruct (s4 !! j) as [out|] eqn:L6; simpl in Hv; [|done].
    injection Hv as <-.
    exists (mkRow (to_float mat) (to_float mix) (to_float rat) (to_float ret)
              (to_float oat) (to_float out)).
    split; [|reflexivity].
    unfold row_at, cell. rewrite E, E0, E1, E2, E3, E4. simpl.
    rewrite L1, L2, L3, L4, L5, L6. reflexivity.
  - unfold fault_condition_three_ in Hf. six_columns Hf. injection Hf as <-.
    cells_of Hv.
    destruct (s !! j) as [mat|] eqn:L1; simpl in Hv; [|done].
    destruct (s0 !! j) as [mix|] eqn:L2; simpl in Hv; [|done].
    destruct (s1 !! j) as [rat|] eqn:L3; simpl in Hv; [|done].
    destruct (s2 !! j) as [ret|] eqn:L4; simpl in Hv; [|done].
    destruct (s3 !! j) as [oat|] eqn:L5; simpl in Hv; [|done].
    destruct (s4 !! j) as [out|] eqn:L6; simpl in Hv; [|done].
    injection Hv as <-.
    exists (mkRow (to_float mat) (to_float mix) (to_float rat) (to_float ret)
              (to_float oat) (to_float out)).
    split; [|reflexivity].
    unfold row_at, cell. rewrite E, E0, E1, E2, E3, E4. simpl.
    rewrite L1, L2, L3, L4, L5, L6. reflexivity.
Qed.

Lemma row_at_setitem df name s j :
  name ∉ ["mat"; "mix_degf_err_thres"; "rat"; "return_degf_err_thres"; "oat";
          "outdoor_degf_err_thres"] →
  row_at (setitem df name s) j = row_at df j.
Proof.
  intros Hn. unfold row_at.
  rewrite !cell_setitem_ne; [done|..]; intros ->; apply Hn;
    repeat first [apply list_elem_of_here | apply list_elem_of_further].
Qed.

(** The tolerances of a row of the frame the script builds are its three
    constants. *)
Lemma row_at_with_thresholds df j r :
  row_at (with_thresholds df) j = Some r →
  r_mix r = Fin (inject_Z MIX_DEGF_ERR_THRES) ∧
  r_ret r = Fin (inject_Z RETURN_DEGF_ERR_THRES) ∧
  r_out r = Fin (inject_Z OUTDOOR_DEGF_ERR_THRES).
Proof.
  unfold row_at, with_thresholds. intros H.
  destruct (cell _ "mat" j) as [mat|]; simpl in H; [|done].
  destruct (cell _ "mix_degf_err_thres" j) as [mix|] eqn:Hmix; simpl in H; [|done].
  destruct (cell _ "rat" j) as [rat|]; simpl in H; [|done].
  destruct (cell _ "return_degf_err_thres" j) as [ret|] eqn:Hret; simpl in H; [|done].
  destruct (cell _ "oat" j) as [oat|]; simpl in H; [|done].
  destruct (cell _ "outdoor_degf_err_thres" j) as [out|] eqn:Hout; simpl in H; [|done].
  injection H as <-. simpl.
  rewrite cell_setitem_ne, cell_setitem_eq in Hmix by done.
  rewrite cell_setitem_eq in Hret.
  rewrite !cell_setitem_ne, cell_setitem_eq in Hout by done.
  apply lookup_replicate in Hmix as [-> _].
  apply lookup_replicate in Hret as [-> _].
  apply lookup_replicate in Hout as [-> _].
  done.
Qed.

(** On every row of the frame the script builds, the two flags are never
    both true. *)
Lemma script_flags_exclusive df f2 f3 j a b :
  fault_condition_two_ (with_thresholds df) = Ok f2 →
  fault_condition_three_ (setitem (with_thresholds df) "fc2_flag" f2) = Ok f3 →
  f2 !! j = Some a → f3 !! j = Some b →
  ∃ x y : bool, a = VBool x ∧ b = VBool y ∧ x && y = false.
Proof.
  intros E2 E3 La Lb.
  destruct (fc23_lookup_inv (with_thresholds df) j) as [H2 _].
  destruct (fc23_lookup_inv (setitem (with_thresholds df) "fc2_flag" f2) j) as [_ H3].
  destruct (H2 _ _ E2 La) as (r & Hr & ->).
  destruct (H3 _ _ E3 Lb) as (r' & Hr' & ->).
  rewrite row_at_setitem in Hr'; cycle 1.
  { intros H. repeat (apply elem_of_cons in H as [H|H]; [discriminate H|]).
    by apply elem_of_nil in H. }
  rewrite Hr in Hr'. injection Hr' as <-.
  destruct (row_at_with_thresholds _ _ _ Hr) as (Hmix & Hret & Hout).
  exists (fc2_cell r), (fc3_cell r). split; [done|]. split; [done|].
  destruct r as [mat mix rat ret oat out]. simpl in *. subst.
  apply fc_cells_exclusive; by vm_compute.
Qed.

Lemma drop_rows_pair {A B} (P : A → B → Prop) mask (xs : list A) (ys : list B) :
  (∀ j x y, xs !! j = Some x → ys !! j = Some y → P x y) →
  ∀ i x y, drop_rows mask xs !! i = Some x → drop_rows mask ys !! i = Some y → P x y.
Proof.
  revert xs ys. induction mask as [|m mask IH]; intros xs ys H i x y; [done|].
  destruct xs as [|x0 xs]; [done|]. destruct ys as [|y0 ys]; [done|].
  assert (∀ j x y, xs !! j = Some x → ys !! j = Some y → P x y) as Htl.
  { intros j. apply (H (S j)). }
  simpl. destruct m.
  - by apply IH.
  - destruct i as [|i]; simpl.
    + intros [= <-] [= <-]. by apply (H 0%nat).
    + by apply IH.
Qed.

Lemma drop_rows_elem {A} mask (xs : list A) x :
  x ∈ drop_rows mask xs → ∃ j, mask !! j = Some false ∧ xs !! j = Some x.
Proof.
  revert xs. induction mask as [|m mask IH]; intros xs Hx;
    [by apply elem_of_nil in Hx|].
  destruct xs as [|x0 xs]; [by apply elem_of_nil in Hx|].
  simpl in Hx. destruct m.
  - destruct (IH _ Hx) as (j & Hm & Hj). by exists (S j).
  - apply elem_of_cons in Hx as [->|Hx]; [by exists 0%nat|].
    destruct (IH _ Hx) as (j & Hm & Hj). by exists (S j).
Qed.

Lemma mapM_result_lookup_inv {A B} (f : A → result B) (l : list A) (k : list B) i y :
  mapM f l = Ok k → k !! i = Some y → ∃ x, l !! i = Some x ∧ f x = Ok y.
Proof.
  intros Hk Hy. pose proof (mapM_result_length _ _ _ Hk) as Hlen.
  destruct (l !! i) as [x|] eqn:Hx.
  - destruct (mapM_result_lookup _ _ _ _ _ Hk Hx) as (y' & Hy' & Hk').
    exists x. split; [done|]. congruence.
  - apply lookup_ge_None in Hx. apply lookup_lt_Some in Hy. lia.
Qed.

Lemma get_col_dropna df name :
  get_col (columns (dropna df)) name
  = drop_rows (na_mask df) <$> get_col (columns df) name.
Proof. unfold dropna; simpl. apply (get_col_fmap (drop_rows (na_mask df))). Qed.

Lemma get_col_filter_notin (names : list string) cs name :
  name ∉ names →
  get_col (filter (λ c : string * Series, c.1 ∉ names) cs) name = get_col cs name.
Proof.
  intros Hn. induction cs as [|[n s] cs IH]; [done|].
  rewrite filter_cons. simpl. destruct (decide (n ∉ names)) as [Hin|Hin]; simpl.
  - destruct (decide (n = name)); [done|apply IH].
  - rewrite decide_False; [apply IH|]. intros ->. by apply Hin.
Qed.

Lemma get_col_filter_in (names : list string) cs name :
  name ∈ names →
  get_col (filter (λ c : string * Series, c.1 ∉ names) cs) name = None.
Proof.
  intros Hn. induction cs as [|[n s] cs IH]; [done|].
  rewrite filter_cons. simpl. destruct (decide (n ∉ names)) as [Hin|Hin]; simpl.
  - rewrite decide_False; [apply IH|]. intros ->. by apply Hin.
  - apply IH.
Qed.

Lemma cast_column_inv df name df' :
  cast_column df name = Ok df' →
  ∃ s k, get_col (columns df) name = Some s ∧ mapM astype_int1 s = Ok k ∧
         df' = setitem df name k.
Proof.
  unfold cast_column. destruct (getitem df name) as [s|] eqn:E; simpl; [|done].
  destruct (mapM astype_int1 s) as [k|] eqn:Ek; simpl; [|done].
  intros [= <-]. apply getitem_Ok in E. by exists s, k.
Qed.

Lemma drop_columns_inv df names df' :
  drop_columns df names = Ok df' →
  df' = mkDataFrame (index df)
          (filter (λ c : string * Series, c.1 ∉ names) (columns df)).
Proof.
  unfold drop_columns. destruct (first_missing (columns df) names); [done|].
  by intros [= <-].
Qed.

(** The two frames the script builds, read column by column. *)
Lemma fc2_3_frames_inv raw df df2 :
  fc2_3_frames raw = Ok (df, df2) →
  ∃ f2 f3 k2 k3,
    fault_condition_two_ (with_thresholds raw) = Ok f2 ∧
    fault_condition_three_ (setitem (with_thresholds raw) "fc2_flag" f2) = Ok f3 ∧
    df = setitem (setitem (with_thresholds raw) "fc2_flag" f2) "fc3_flag" f3 ∧
    mapM astype_int1 (drop_rows (na_mask df) f2) = Ok k2 ∧
    mapM astype_int1 (drop_rows (na_mask df) f3) = Ok k3 ∧
    index df2 = drop_rows (na_mask df) (index df) ∧
    get_col (columns df2) "fc2_flag" = Some k2 ∧
    get_col (columns df2) "fc3_flag" = Some k3 ∧
    (∀ name, name ∈ threshold_columns → get_col (columns df2) name = None) ∧
    (∀ name, name ∉ threshold_columns → name ≠ "fc2_flag" → name ≠ "fc3_flag" →
       get_col (columns df2) name
       = drop_rows (na_mask df) <$> get_col (columns df) name).
Proof.
  unfold fc2_3_frames. intros H.
  destruct (fault_condition_two_ (with_thresholds raw)) as [f2|] eqn:E2;
    simpl in H; [|done].
  destruct (fault_condition_three_ _) as [f3|] eqn:E3; simpl in H; [|done].
  set (d := setitem (setitem (with_thresholds raw) "fc2_flag" f2) "fc3_flag" f3) in *.
  destruct (cast_column (dropna d) "fc2_flag") as [c2|] eqn:C2; simpl in H; [|done].
  destruct (cast_column c2 "fc3_flag") as [c3|] eqn:C3; simpl in H; [|done].
  destruct (drop_columns c3 threshold_columns) as [d2|] eqn:D; simpl in H; [|done].
  injection H as <- <-.
  apply cast_column_inv in C2 as (s2 & k2 & G2 & M2 & ->).
  apply cast_column_inv in C3 as (s3 & k3 & G3 & M3 & ->).
  apply drop_columns_inv in D as ->.
  rewrite get_col_dropna in G2.
  assert (get_col (columns d) "fc2_flag" = Some f2) as Gf2.
  { subst d; simpl. rewrite get_col_set_col_ne by done. apply get_col_set_col_eq. }
  assert (get_col (columns d) "fc3_flag" = Some f3) as Gf3.
  { subst d; simpl. apply get_col_set_col_eq. }
  rewrite Gf2 in G2. injection G2 as <-.
  unfold setitem in G3. cbn [columns] in G3.
  rewrite get_col_set_col_ne in G3 by done.
  change (get_col (columns (dropna d)) "fc3_flag" = Some s3) in G3.
  rewrite get_col_dropna, Gf3 in G3. injection G3 as <-.
  exists f2, f3, k2, k3.
  split; [done|]. split; [done|]. split; [done|]. split; [done|].
  split; [done|]. split; [done|]. unfold setitem. cbn [columns]. split.
  { rewrite get_col_filter_notin; cycle 1.
    { intros H. repeat (apply elem_of_cons in H as [H|H]; [discriminate H|]).
      by apply elem_of_nil in H. }
    rewrite get_col_set_col_ne by done. apply get_col_set_col_eq. }
  split.
  { rewrite get_col_filter_notin; cycle 1.
    { intros H. repeat (apply elem_of_cons in H as [H|H]; [discriminate H|]).
      by apply elem_of_nil in H. }
    apply get_col_set_col_eq. }
  split.
  { intros name Hn. by apply get_col_filter_in. }
  intros name Hn H2 H3.
  rewrite get_col_filter_notin by done.
  rewrite !get_col_set_col_ne by done. apply get_col_dropna.
Qed.

Lemma astype_int1_bool v y :
  astype_int1 (VBool v) = Ok y → y = VInt (Z.b2z v).
Proof. by intros [= <-]. Qed.

(** X12: on every row of the report frame [df2] the two fault flags are the
    integers 0 or 1 and are never both 1, whatever the readings of the
    input: finite, infinite or missing. *)
Theorem report_flags_never_both raw df df2 i v2 v3 :
  fc2_3_frames raw = Ok (df, df2) →
  cell df2 "fc2_flag" i = Some v2 →
  cell df2 "fc3_flag" i = Some v3 →
  ∃ a b : bool, v2 = VInt (Z.b2z a) ∧ v3 = VInt (Z.b2z b) ∧ a && b = false.
Proof.
  intros H H2 H3.
  destruct (fc2_3_frames_inv _ _ _ H)
    as (f2 & f3 & k2 & k3 & E2 & E3 & _ & M2 & M3 & _ & G2 & G3 & _).
  unfold cell in H2, H3. rewrite G2 in H2. rewrite G3 in H3. simpl in H2, H3.
  destruct (mapM_result_lookup_inv _ _ _ _ _ M2 H2) as (u2 & L2 & C2).
  destruct (mapM_result_lookup_inv _ _ _ _ _ M3 H3) as (u3 & L3 & C3).
  destruct (drop_rows_pair
              (λ a b, ∃ x y : bool, a = VBool x ∧ b = VBool y ∧ x && y = false)
              (na_mask df) f2 f3) with (i := i) (x := u2) (y := u3)
    as (x & y & -> & -> & Hxy); try done.
  { intros j a b. exact (script_flags_exclusive raw f2 f3 j a b E2 E3). }
  exists x, y. split; [by apply astype_int1_bool|].
  split; [by apply astype_int1_bool|done].
Qed.

Lemma report_flags_never_both_witness :
  ∃ a b : bool, VInt 0 = VInt (Z.b2z a) ∧ VInt 1 = VInt (Z.b2z b) ∧ a && b = false.
Proof.
  eapply (report_flags_never_both readings_frame _ _ 1 (VInt 0) (VInt 1)).
  - vm_compute. reflexivity.
  - reflexivity.
  - reflexivity.
Defined.

Lemma get_col_elem cs name s : get_col cs name = Some s → (name, s) ∈ cs.
Proof.
  induction cs as [|[n s'] cs IH]; simpl; [done|].
  destruct (decide (n = name)) as [->|Hne].
  - intros [= ->]. apply list_elem_of_here.
  - intros H. by apply list_elem_of_further, IH.
Qed.

Lemma na_mask_false df j name s v :
  na_mask df !! j = Some false → (name, s) ∈ columns df → s !! j = Some v →
  is_na v = false.
Proof.
  unfold na_mask. rewrite list_lookup_fmap. intros Hm Hin Hs.
  destruct (seq 0 (length (index df)) !! j) as [j'|] eqn:E; [|done].
  apply lookup_seq in E as [-> _]. simpl in Hm. injection Hm as Hm.
  unfold row_has_na in Hm.
  destruct (is_na v) eqn:Ev; [|done].
  assert (existsb (λ c : string * Series, from_option is_na false (c.2 !! j))
            (columns df) = true) as Hex; [|congruence].
  apply existsb_exists. exists (name, s). split; [by apply list_elem_of_In|].
  simpl. by rewrite Hs.
Qed.

(** X13: the report frame [df2] holds no missing cell and none of the three
    threshold columns. *)
Theorem report_frame_is_clean raw df df2 :
  fc2_3_frames raw = Ok (df, df2) →
  (∀ name, name ∈ threshold_columns → get_col (columns df2) name = None) ∧
  (∀ name s v, get_col (columns df2) name = Some s → v ∈ s → is_na v = false).
Proof.
  intros H.
  destruct (fc2_3_frames_inv _ _ _ H)
    as (f2 & f3 & k2 & k3 & _ & _ & _ & M2 & M3 & _ & G2 & G3 & Hthr & Hother).
  split; [done|]. intros name s v Hs Hv.
  destruct (decide (name ∈ threshold_columns)) as [Hin|Hnin].
  { by rewrite (Hthr _ Hin) in Hs. }
  assert (∀ f k, mapM astype_int1 f = Ok k → v ∈ k → is_na v = false) as Hcast.
  { intros f k Hk Hvk. apply list_elem_of_lookup in Hvk as [i Hi].
    destruct (mapM_result_lookup_inv _ _ _ _ _ Hk Hi) as (u & _ & Hu).
    destruct u as [[q| | |]|z|b]; simpl in Hu; try done; by injection Hu as <-. }
  destruct (decide (name = "fc2_flag")) as [->|H2].
  { rewrite G2 in Hs. injection Hs as <-. exact (Hcast _ _ M2 Hv). }
  destruct (decide (name = "fc3_flag")) as [->|H3].
  { rewrite G3 in Hs. injection Hs as <-. exact (Hcast _ _ M3 Hv). }
  rewrite (Hother _ Hnin H2 H3) in Hs.
  destruct (get_col (columns df) name) as [s0|] eqn:Hs0; [|done].
  injection Hs as <-.
  apply drop_rows_elem in Hv as (j & Hm & Hj).
  eapply na_mask_false; [exact Hm| |exact Hj]. by eapply get_col_elem.
Qed.

Lemma report_frame_is_clean_witness :
  (∀ name, name ∈ threshold_columns →
     get_col (columns (report_frame readings_frame)) name = None) ∧
  (∀ name s v, get_col (columns (report_frame readings_frame)) name = Some s →
     v ∈ s → is_na v = false).
Proof.
  eapply (report_frame_is_clean readings_frame).
  vm_compute. reflexivity.
Defined.

(** * The dataset statistics of [fc2_3.py] *)

Lemma td_sum_gaps ts t :
  td_sum (zip_with (λ a b : Z, Some (b - a)) (t :: ts) ts) = default t (last ts) - t.
Proof.
  revert t. induction ts as [|u ts IH]; intros t; [simpl; lia|].
  change (zip_with (λ a b : Z, Some (b - a)) (t :: u :: ts) (u :: ts))
    with (Some (u - t) :: zip_with (λ a b : Z, Some (b - a)) (u :: ts) ts).
  change (td_sum (Some (u - t) :: ?l)) with ((u - t) + td_sum l).
  rewrite IH.
  destruct ts as [|w ts]; [simpl; lia|].
  rewrite (last_cons_cons u w ts).
  destruct (last (w :: ts)) eqn:E; [simpl; lia|]. by apply last_None in E.
Qed.

(** X14: the total time of the dataset is the span from its first to its
    last time stamp, whatever the order and spacing of the rows between
    them. *)
Theorem total_hours_is_span df2 t0 t1 :
  head (index df2) = Some t0 → last (index df2) = Some t1 →
  total_hours df2 = in_hours (t1 - t0).
Proof.
  unfold total_hours. destruct (index df2) as [|t ts]; [done|].
  intros [= ->] Hl. f_equal. unfold diff.
  change (td_sum (None :: ?l)) with (0 + td_sum l).
  rewrite td_sum_gaps. destruct ts as [|w ts].
  - injection Hl as <-. simpl. lia.
  - rewrite (last_cons_cons t0 w ts) in Hl. rewrite Hl. simpl. lia.
Qed.

Lemma total_hours_is_span_witness :
  total_hours (mkDataFrame [0; 600; 900] []) = in_hours (900 - 0).
Proof.
  apply (total_hours_is_span (mkDataFrame [0; 600; 900] []) 0 900); reflexivity.
Defined.


Lemma fc2_flag_not_read :
  "fc2_flag" ∉ ["mat"; "mix_degf_err_thres"; "rat"; "return_degf_err_thres"; "oat";
                "outdoor_degf_err_thres"].
Proof.
  intros H. repeat (apply elem_of_cons in H as [H|H]; [discriminate H|]).
  by apply elem_of_nil in H.
Qed.

Lemma script_flags_same_length raw f2 f3 :
  fault_condition_two_ (with_thresholds raw) = Ok f2 →
  fault_condition_three_ (setitem (with_thresholds raw) "fc2_flag" f2) = Ok f3 →
  length f2 = length f3.
Proof.
  intros E2 E3.
  assert (∀ j, is_Some (f2 !! j) ↔ is_Some (f3 !! j)) as Hdom.
  { intros j. split; intros [v Hv].
    - destruct (proj1 (fc23_lookup_inv _ j) _ _ E2 Hv) as (r & Hr & _).
      rewrite <- (row_at_setitem (with_thresholds raw) "fc2_flag" f2) in Hr
        by apply fc2_flag_not_read.
      destruct (fc23_lookup _ _ _ Hr) as (_ & g3 & _ & G3 & _ & L3).
      rewrite E3 in G3. injection G3 as <-. by eexists.
    - destruct (proj2 (fc23_lookup_inv _ j) _ _ E3 Hv) as (r & Hr & _).
      rewrite (row_at_setitem (with_thresholds raw) "fc2_flag" f2) in Hr
        by apply fc2_flag_not_read.
      destruct (fc23_lookup _ _ _ Hr) as (g2 & _ & G2 & _ & L2 & _).
      rewrite E2 in G2. injection G2 as <-. by eexists. }
  destruct (decide (length f2 = length f3)) as [|Hne]; [done|]. exfalso.
  destruct (decide (length f2 < length f3)%nat) as [Hlt|Hge].
  - apply lookup_lt_is_Some_2, Hdom, lookup_lt_is_Some_1 in Hlt. lia.
  - assert (length f3 < length f2)%nat as Hlt by lia.
    apply lookup_lt_is_Some_2, Hdom, lookup_lt_is_Some_1 in Hlt. lia.
Qed.

Lemma drop_rows_Forall2 {A B} (P : A → B → Prop) mask (xs : list A) (ys : list B) :
  Forall2 P xs ys → Forall2 P (drop_rows mask xs) (drop_rows mask ys).
Proof.
  intros H. revert mask. induction H as [|x y xs ys Hxy H IH]; intros mask.
  - destruct mask; constructor.
  - destruct mask as [|m mask]; [constructor|]. simpl.
    destruct m; [apply IH|]. constructor; [done|apply IH].
Qed.

(** The two flag columns of the report frame, row by row. *)
Lemma report_flags_Forall2 raw df df2 :
  fc2_3_frames raw = Ok (df, df2) →
  ∃ k2 k3, getitem df2 "fc2_flag" = Ok k2 ∧ getitem df2 "fc3_flag" = Ok k3 ∧
           Forall2 flag_pair k2 k3.
Proof.
  intros H.
  destruct (fc2_3_frames_inv _ _ _ H)
    as (f2 & f3 & k2 & k3 & E2 & E3 & _ & M2 & M3 & _ & G2 & G3 & _).
  exists k2, k3. unfold getitem. rewrite G2, G3. split; [done|]. split; [done|].
  assert (Forall2 (λ a b, ∃ x y : bool, a = VBool x ∧ b = VBool y ∧ x && y = false)
            f2 f3) as HF.
  { apply Forall2_same_length_lookup_2.
    - by eapply script_flags_same_length.
    - intros j a b. exact (script_flags_exclusive raw f2 f3 j a b E2 E3). }
  apply (drop_rows_Forall2 _ (na_mask df)) in HF.
  apply Forall2_same_length_lookup_2.
  - rewrite (mapM_result_length _ _ _ M2), (mapM_result_length _ _ _ M3).
    by eapply Forall2_length.
  - intros i v2 v3 H2 H3.
    destruct (mapM_result_lookup_inv _ _ _ _ _ M2 H2) as (u2 & L2 & C2).
    destruct (mapM_result_lookup_inv _ _ _ _ _ M3 H3) as (u3 & L3 & C3).
    destruct (Forall2_lookup_lr _ _ _ _ _ _ HF L2 L3) as (x & y & -> & -> & Hxy).
    exists x, y. split; [by apply astype_int1_bool|].
    split; [by apply astype_int1_bool|done].
Qed.

Lemma td_sum_cons o d : td_sum (o :: d) = default 0 o + td_sum d.
Proof. reflexivity. Qed.

Lemma td_sum_nonneg d :
  Forall (λ o : option Z, ∀ x, o = Some x → (0 ≤ x)%Z) d → (0 ≤ td_sum d)%Z.
Proof.
  induction 1 as [|o d Ho Hd IH]; [done|]. rewrite td_sum_cons.
  destruct o as [z|]; simpl; [specialize (Ho z eq_refl)|]; lia.
Qed.

Lemma td_sum_flags d k2 k3 :
  Forall (λ o : option Z, ∀ x, o = Some x → (0 ≤ x)%Z) d →
  Forall2 flag_pair k2 k3 →
  (0 ≤ td_sum (td_mul d k2))%Z ∧ (0 ≤ td_sum (td_mul d k3))%Z ∧
  (td_sum (td_mul d k2) + td_sum (td_mul d k3) ≤ td_sum d)%Z.
Proof.
  intros Hd HF. revert d Hd.
  induction HF as [|a b k2 k3 (x & y & -> & -> & Hxy) HF IH]; intros d Hd.
  - unfold td_mul. rewrite zip_with_nil_r. pose proof (td_sum_nonneg d Hd).
    simpl. lia.
  - destruct d as [|o d]; [simpl; lia|].
    apply Forall_cons in Hd as [Ho Hd].
    destruct (IH d Hd) as (I2 & I3 & I).
    unfold td_mul in *. cbn [zip_with]. rewrite !td_sum_cons.
    destruct o as [z|]; simpl; [|lia].
    specialize (Ho z eq_refl). destruct x, y; simpl in *; try done; lia.
Qed.

Lemma monotonic_cons a idx :
  is_monotonic_increasing (a :: idx) = true ↔
  (∀ b, head idx = Some b → (a ≤ b)%Z) ∧ is_monotonic_increasing idx = true.
Proof.
  destruct idx as [|b idx].
  - simpl. split; [|done]. intros _. split; [done|done].
  - change (is_monotonic_increasing (a :: b :: idx))
      with ((a <=? b)%Z && is_monotonic_increasing (b :: idx)).
    rewrite andb_true_iff, Z.leb_le. simpl. split.
    + intros [Hab H]. split; [|done]. by intros ? [= <-].
    + intros [Hab H]. split; [|done]. by apply Hab.
Qed.

Lemma monotonic_lower_bound a idx x :
  is_monotonic_increasing (a :: idx) = true → x ∈ idx → (a ≤ x)%Z.
Proof.
  revert a. induction idx as [|b idx IH]; intros a H Hx;
    [by apply elem_of_nil in Hx|].
  apply monotonic_cons in H as [Hab H]. specialize (Hab b eq_refl).
  apply elem_of_cons in Hx as [->|Hx]; [done|].
  specialize (IH b H Hx). lia.
Qed.

Lemma monotonic_drop_rows mask idx :
  is_monotonic_increasing idx = true →
  is_monotonic_increasing (drop_rows mask idx) = true.
Proof.
  revert idx. induction mask as [|m mask IH]; intros idx H; [done|].
  destruct idx as [|a idx]; [done|]. simpl.
  pose proof H as H'. apply monotonic_cons in H' as [_ Htl].
  destruct m; [by apply IH|].
  apply monotonic_cons. split; [|by apply IH].
  intros b Hb. apply (monotonic_lower_bound a idx b H).
  destruct (drop_rows mask idx) as [|b' r] eqn:E; [done|].
  injection Hb as ->.
  assert (b ∈ drop_rows mask idx) as Hin by (rewrite E; apply list_elem_of_here).
  apply drop_rows_elem in Hin as (j & _ & Hj). by eapply list_elem_of_lookup_2.
Qed.

Lemma monotonic_gaps idx :
  is_monotonic_increasing idx = true →
  Forall (λ o : option Z, ∀ x, o = Some x → (0 ≤ x)%Z) (diff idx).
Proof.
  destruct idx as [|t ts]; [constructor|]. intros H.
  unfold diff. constructor; [done|].
  revert t H. induction ts as [|u ts IH]; intros t H; [constructor|].
  apply monotonic_cons in H as [Htu H]. specialize (Htu u eq_refl).
  cbn [zip_with]. constructor; [|by apply IH].
  intros x [= <-]. lia.
Qed.

(** X15: for a frame whose time stamps never go back, the time spans the
    script sums for fault condition two and for fault condition three,
    [(delta * flag).sum()] before the division into hours, are both
    non-negative and together never exceed the total span [delta.sum()];
    the hours of a fault are its span over one hour. *)
Theorem fault_time_within_total raw df df2 :
  fc2_3_frames raw = Ok (df, df2) →
  is_monotonic_increasing (index raw) = true →
  ∃ t2 t3 : Z,
    hours_in_mode df2 "fc2_flag" = Ok (in_hours t2) ∧
    hours_in_mode df2 "fc3_flag" = Ok (in_hours t3) ∧
    (0 ≤ t2)%Z ∧ (0 ≤ t3)%Z ∧ (t2 + t3 ≤ td_sum (diff (index df2)))%Z.
Proof.
  intros H Hmono.
  destruct (report_flags_Forall2 _ _ _ H) as (k2 & k3 & G2 & G3 & HF).
  destruct (fc2_3_frames_inv _ _ _ H)
    as (f2 & f3 & _ & _ & _ & _ & Hdf & _ & _ & Hidx & _).
  assert (is_monotonic_increasing (index df2) = true) as Hmono2.
  { rewrite Hidx. apply monotonic_drop_rows. by rewrite Hdf. }
  destruct (td_sum_flags (diff (index df2)) k2 k3 (monotonic_gaps _ Hmono2) HF)
    as (I2 & I3 & I).
  unfold hours_in_mode. rewrite G2, G3. simpl.
  do 2 eexists. split; [reflexivity|]. split; [reflexivity|]. done.
Qed.

Lemma fault_time_within_total_witness :
  ∃ t2 t3 : Z,
    hours_in_mode (report_frame readings_frame) "fc2_flag" = Ok (in_hours t2) ∧
    hours_in_mode (report_frame readings_frame) "fc3_flag" = Ok (in_hours t3) ∧
    (0 ≤ t2)%Z ∧ (0 ≤ t3)%Z ∧
    (t2 + t3 ≤ td_sum (diff (index (report_frame readings_frame))))%Z.
Proof.
  eapply (fault_time_within_total readings_frame).
  - vm_compute. reflexivity.
  - reflexivity.
Defined.

(** X16: the flag of the first row never counts towards the hours of a
    fault: that row has no time span before it. *)
Theorem hours_ignore_first_row df2 flag (a b : Z) (zs : list Z) :
  hours_in_mode (setitem df2 flag (VInt <$> a :: zs)) flag
  = hours_in_mode (setitem df2 flag (VInt <$> b :: zs)) flag.
Proof.
  unfold hours_in_mode, getitem.
  unfold setitem. cbn [columns index]. rewrite !get_col_set_col_eq. simpl.
  do 2 f_equal. unfold diff, td_mul. by destruct (index df2).
Qed.

Lemma rint_bounds q N :
  (0 <= q)%Q → (q <= inject_Z N)%Q → (0 ≤ rint q ≤ N)%Z.
Proof.
  intros H0 HN. unfold rint.
  pose proof (Qfloor_le q) as Hf. pose proof (Qlt_floor q) as Hf'.
  set (f := Qfloor q) in *.
  assert (0 ≤ f)%Z as Hf0.
  { assert (0 < f + 1)%Z; [|lia]. rewrite Zlt_Qlt.
    eapply Qle_lt_trans; [exact H0|exact Hf']. }
  assert (f ≤ N)%Z as HfN.
  { rewrite Zle_Qle. by eapply Qle_trans. }
  destruct (Qlt_bool (q - inject_Z f) (1 # 2)) eqn:E1; [lia|].
  assert (f < N)%Z as Hlt.
  { destruct (Z_lt_le_dec f N) as [|Hge]; [done|]. exfalso.
    assert (f = N) as -> by lia.
    assert (Qlt_bool (q - inject_Z N) (1 # 2) = true); [|congruence].
    apply Qlt_bool_iff. lra. }
  destruct (Qlt_bool (1 # 2) (q - inject_Z f)); [lia|].
  destruct (Z.even f); lia.
Qed.

Lemma mean_weight n q :
  n ≠ 0%nat → (0 <= q)%Q → (q <= inject_Z (Z.of_nat n))%Q →
  (0 <= q * (1 # Pos.of_nat n))%Q ∧ (q * (1 # Pos.of_nat n) <= 1)%Q.
Proof.
  intros Hn H0 H1.
  assert (inject_Z (Z.of_nat n) * (1 # Pos.of_nat n) == 1)%Q as Hone.
  { unfold Qeq, Qmult, inject_Z. cbn [Qnum Qden].
    rewrite <- (positive_nat_Z (1 * Pos.of_nat n)).
    rewrite Pos.mul_1_l, Nat2Pos.id by done. lia. }
  assert (0 <= 1 # Pos.of_nat n)%Q as Hw by done.
  split.
  - by apply Qmult_le_0_compat.
  - rewrite <- Hone. by apply Qmult_le_compat_r.
Qed.

Lemma flags_sum s :
  forallb is_flag s = true →
  filter (λ x, is_nan x = false) (to_float <$> s) = to_float <$> s ∧
  ∃ q, foldr fadd (Fin 0) (to_float <$> s) = Fin q ∧
       (0 <= q)%Q ∧ (q <= inject_Z (Z.of_nat (length s)))%Q.
Proof.
  induction s as [|v s IH]; intros H.
  - split; [done|]. exists 0%Q. by split.
  - cbn [forallb] in H. apply andb_true_iff in H as [Hv H].
    destruct (IH H) as (IHf & q & IHq & I0 & I1).
    assert (∃ z, to_float v = Fin (inject_Z z) ∧ (0 ≤ z ≤ 1)%Z) as (z & Hz & Hz01).
    { destruct v as [?|[|[| |]|]|?]; try done; eexists; (split; [reflexivity|lia]). }
    rewrite fmap_cons, Hz. split.
    + rewrite filter_cons_True by done. by rewrite IHf.
    + cbn [foldr]. rewrite IHq. eexists. split; [reflexivity|].
      cbn [length]. rewrite Nat2Z.inj_succ, <- Z.add_1_r, inject_Z_plus.
      destruct Hz01 as [Ha Hb]. rewrite Zle_Qle in Ha, Hb.
      change (inject_Z 0) with 0%Q in Ha. change (inject_Z 1) with 1%Q in *.
      split; lra.
Qed.

Lemma s_mean_flags s :
  s ≠ [] → forallb is_flag s = true →
  ∃ q, s_mean s = Fin q ∧ (0 <= q)%Q ∧ (q <= 1)%Q.
Proof.
  intros Hne H. destruct (flags_sum s H) as (Hf & q & Hq & H0 & H1).
  unfold s_mean. rewrite Hf, Hq.
  destruct s as [|v s]; [done|]. rewrite fmap_cons.
  rewrite <- fmap_cons, length_fmap.
  eexists. split; [reflexivity|]. by apply mean_weight.
Qed.

Lemma round2_percent q :
  (0 <= q)%Q → (q <= 1)%Q →
  ∃ p, round2 (fmul (Fin q) (Fin 100)) = Fin p ∧ (0 <= p)%Q ∧ (p <= 100)%Q.
Proof.
  intros H0 H1. cbn [fmul round2].
  destruct (rint_bounds (q * 100 * 100) 10000) as [Ha Hb].
  { lra. }
  { change (inject_Z 10000) with 10000%Q. lra. }
  eexists. split; [reflexivity|].
  rewrite Zle_Qle in Ha, Hb.
  change (inject_Z 0) with 0%Q in Ha. change (inject_Z 10000) with 10000%Q in Hb.
  split.
  - apply Qle_shift_div_l; [done|]. lra.
  - apply Qle_shift_div_r; [done|]. lra.
Qed.

(** X17: on a non-empty column of 0/1 flags the percentage of flagged rows
    is a finite number from 0 to 100. *)
Theorem percent_true_range df2 flag s :
  getitem df2 flag = Ok s → s ≠ [] → forallb is_flag s = true →
  ∃ p, percent_true df2 flag = Ok (Fin p) ∧ (0 <= p)%Q ∧ (p <= 100)%Q.
Proof.
  intros G Hne H. unfold percent_true. rewrite G. simpl.
  destruct (s_mean_flags s Hne H) as (q & -> & H0 & H1).
  destruct (round2_percent q H0 H1) as (p & -> & Hp).
  by exists p.
Qed.

Lemma percent_true_range_witness :
  ∃ p, percent_true (report_frame readings_frame) "fc3_flag" = Ok (Fin p) ∧
       (0 <= p)%Q ∧ (p <= 100)%Q.
Proof.
  apply (percent_true_range (report_frame readings_frame) "fc3_flag"
           [VInt 0; VInt 1; VInt 0]).
  - vm_compute. reflexivity.
  - discriminate.
  - reflexivity.
Defined.

Lemma zeros_sum s :
  forallb is_zero s = true →
  ∃ q, foldr fadd (Fin 0) (to_float <$> s) = Fin q ∧ (q == 0)%Q.
Proof.
  induction s as [|v s IH]; intros H.
  - by exists 0%Q.
  - cbn [forallb] in H. apply andb_true_iff in H as [Hv H].
    destruct (IH H) as (q & IHq & I0).
    destruct v as [?|[| |]|?]; try done.
    rewrite fmap_cons. cbn [foldr to_float]. rewrite IHq. eexists.
    split; [reflexivity|]. rewrite I0. reflexivity.
Qed.

Lemma is_zero_is_flag s : forallb is_zero s = true → forallb is_flag s = true.
Proof.
  induction s as [|v s IH]; [done|]. cbn [forallb].
  rewrite !andb_true_iff. intros [Hv H]. split; [|by apply IH].
  by destruct v as [?|[| |]|?].
Qed.

(** X18: when no row of a non-empty report frame is flagged for fault
    condition two, the report writes the sentence that the sensors are out
    of calibration. *)
Theorem no_fault_suggests_out_of_calibration df2 s2 p3 :
  getitem df2 "fc2_flag" = Ok s2 → s2 ≠ [] → forallb is_zero s2 = true →
  percent_true df2 "fc3_flag" = Ok p3 →
  report_suggestion df2 = Ok SUGGESTION_OUT_OF_CALIBRATION.
Proof.
  intros G Hne H P3. unfold report_suggestion. rewrite P3.
  unfold percent_true. rewrite G. simpl.
  destruct (flags_sum s2 (is_zero_is_flag _ H)) as (Hf & _).
  destruct (zeros_sum s2 H) as (q & Hq & H0).
  unfold s_mean. rewrite Hf, Hq.
  destruct s2 as [|v s2]; [done|]. rewrite fmap_cons.
  cbn [fmul round2]. unfold suggestion.
  destruct (rint_bounds (q * (1 # Pos.of_nat (length (to_float v :: (to_float <$> s2))))
                         * 100 * 100) 0) as [Ha Hb].
  { rewrite H0. by vm_compute. }
  { rewrite H0. by vm_compute. }
  assert (rint (q * (1 # Pos.of_nat (length (to_float v :: (to_float <$> s2))))
               * 100 * 100) = 0%Z) as -> by lia.
  reflexivity.
Qed.

Lemma no_fault_suggests_out_of_calibration_witness :
  report_suggestion (report_frame readings_frame) = Ok SUGGESTION_OUT_OF_CALIBRATION.
Proof.
  apply (no_fault_suggests_out_of_calibration (report_frame readings_frame)
           [VInt 0; VInt 0; VInt 0] (Fin (3333 # 100))).
  - vm_compute. reflexivity.
  - discriminate.
  - reflexivity.
  - vm_compute. reflexivity.
Defined.
